(** * Material review: BOM extraction, FIFO allocation, flags and change log

    A shallow embedding of the computational core of
    [src/material_review/app.py] and the properties its design document
    states about it.

    Conventions of the embedding.
    - A Python [float] is a rational [Q]; equalities between quantities are
      [Qeq] ([==]).  NaN is not a rational: where the source guards against
      it ([fillna], [_safe_str]) the cell is an [option] or has a
      constructor of its own.  Where rounding decides a property, the
      arithmetic of the row is also given on binary64 ([AllocationFloat]).
    - A Python [str] is a [string] of bytes (UTF-8).  Character classes of
      [re] and [str.strip] are modelled on the ASCII range.
    - A [dict] is a [gmap]; a [dict] whose insertion order is observed
      ([defaultdict] of the BOM extractor) is an association list.
    - A pandas frame is the list of its rows, each row a record of the
      columns the code reads. *)

From Stdlib Require Import QArith Qminmax Qround Lqa ZArith List Ascii String.
From Stdlib Require Import Sorting.Sorted Sorting.Permutation SetoidList.
From Stdlib Require Import Structures.OrderedTypeEx.
From Stdlib Require Floats.SpecFloat.
From stdpp Require Import gmap strings list fin_maps.

Local Open Scope string_scope.

(* ===================================================================== *)
(** * Part I: the program                                                 *)
(* ===================================================================== *)

(** ** Text helpers: [str.strip], [re.sub(r"\D", "", s)], word tokens *)

Module Text.

Definition code (a : ascii) : nat := nat_of_ascii a.

(** [str.isspace] on the ASCII range: TAB, LF, VT, FF, CR, FS, GS, RS, US
    and the blank. *)
Definition is_space (a : ascii) : bool :=
  let n := code a in
  (((9 <=? n) && (n <=? 13)) || ((28 <=? n) && (n <=? 32)))%nat.

Definition is_digit (a : ascii) : bool :=
  let n := code a in ((48 <=? n) && (n <=? 57))%nat.

Definition is_upper (a : ascii) : bool :=
  let n := code a in ((65 <=? n) && (n <=? 90))%nat.

Definition is_lower (a : ascii) : bool :=
  let n := code a in ((97 <=? n) && (n <=? 122))%nat.

(** [\w] of [re] on the ASCII range. *)
Definition is_word (a : ascii) : bool :=
  is_digit a || is_upper a || is_lower a || (code a =? 95)%nat.

Definition to_upper (a : ascii) : ascii :=
  if is_lower a then ascii_of_nat (code a - 32) else a.

Fixpoint drop_while {A} (p : A -> bool) (l : list A) : list A :=
  match l with
  | [] => []
  | x :: l' => if p x then drop_while p l' else l
  end.

Definition lstrip (l : list ascii) : list ascii := drop_while is_space l.
Definition rstrip (l : list ascii) : list ascii := rev (drop_while is_space (rev l)).

(** [s.strip()] *)
Definition strip (s : string) : string :=
  string_of_list_ascii (lstrip (rstrip (list_ascii_of_string s))).

(** [re.sub(r"\D", "", s)] *)
Definition digits_only (s : string) : string :=
  string_of_list_ascii (List.filter is_digit (list_ascii_of_string s)).

(** [s.upper()] *)
Definition upper (s : string) : string :=
  string_of_list_ascii (List.map to_upper (list_ascii_of_string s)).

(** Python truthiness of a [str]. *)
Definition nonempty (s : string) : bool :=
  match s with EmptyString => false | String _ _ => true end.

(** The value of a run of decimal digits. *)
Definition digits_value (l : list ascii) : Z :=
  fold_left (fun acc a => (acc * 10 + (Z.of_nat (code a) - 48))%Z) l 0%Z.

(** The number that [float] reads from a text of the form
    [[0-9]+(\.[0-9]+)?], the texts that [NUM_RE] matches; [None] on any
    other text. *)
Definition decimal_value (int_part frac_part : list ascii) : Q :=
  (inject_Z (digits_value int_part)
   + inject_Z (digits_value frac_part) / inject_Z (10 ^ Z.of_nat (length frac_part)))%Q.

Fixpoint span {A} (p : A -> bool) (l : list A) : list A * list A :=
  match l with
  | [] => ([], [])
  | x :: l' =>
      if p x then let '(run, rest) := span p l' in (x :: run, rest) else ([], l)
  end.

Definition is_dot (a : ascii) : bool := (code a =? 46)%nat.

Definition parse_decimal (s : string) : option Q :=
  let '(int_part, rest) := span is_digit (list_ascii_of_string s) in
  match int_part, rest with
  | [], _ => None
  | _, [] => Some (decimal_value int_part [])
  | _, dot :: rest' =>
      let '(frac_part, rest'') := span is_digit rest' in
      match frac_part, rest'' with
      | _ :: _, [] => if is_dot dot then Some (decimal_value int_part frac_part) else None
      | _, _ => None
      end
  end.

End Text.

(** ** A stable sort, as [DataFrame.sort_values(..., kind="stable")] *)

Module StableSort.
Section Sort.
Context {A : Type} (leb : A -> A -> bool).

(** [x] goes in front of the first element it does not exceed, so that it
    stays in front of the elements with an equal key that followed it in
    the input. *)
Fixpoint insert_sorted (x : A) (l : list A) : list A :=
  match l with
  | [] => [x]
  | y :: l' => if leb x y then x :: l else y :: insert_sorted x l'
  end.

Fixpoint sort (l : list A) : list A :=
  match l with
  | [] => []
  | x :: l' => insert_sorted x (sort l')
  end.

End Sort.

(** Sorting on several columns compares the first column and, on a tie,
    the remaining ones. *)
Definition lex_compare {A B : Type} (cmpA : A -> A -> comparison)
  (cmpB : B -> B -> comparison) (x y : A * B) : comparison :=
  match cmpA (fst x) (fst y) with
  | Eq => cmpB (snd x) (snd y)
  | c => c
  end.

(** Ascending order: [x] may stand before [y] unless it compares greater. *)
Definition leb_of {A : Type} (cmp : A -> A -> comparison) (x y : A) : bool :=
  match cmp x y with Gt => false | _ => true end.

(** [x] ties with [k] when neither may only stand after the other. *)
Definition ties {A : Type} (leb : A -> A -> bool) (k x : A) : bool :=
  leb k x && leb x k.

(** The laws of a comparison that [Eq] only on equal keys. *)
Definition compare_laws {A : Type} (cmp : A -> A -> comparison) : Prop :=
  (forall x y, cmp x y = Eq <-> x = y) /\
  (forall x y, cmp y x = CompOpp (cmp x y)) /\
  (forall x y z, cmp x y = Lt -> cmp y z = Lt -> cmp x z = Lt).

End StableSort.

(** ** Demand and allocation ([allocate_by_delivery]) *)

Module Allocation.

(** One row of the stock frame ([fetch_stock_for_articles]); the
    quantity columns are nullable, as [fillna(0)] in the source expects. *)
Record StockRow := {
  Article : string;
  QOH : option Q;
  Allocation : option Q;
  QCHold_QCI : option Q;
  QCHold_QCH : option Q
}.

(** [series.fillna(d)] on one cell. *)
Definition fillna (x : option Q) (d : Q) : Q :=
  match x with Some v => v | None => d end.

(** [stock2["Avail"] = QOH.fillna(0) - QCHold_QCI.fillna(0) - QCHold_QCH.fillna(0)] *)
Definition Avail (s : StockRow) : Q :=
  (fillna (QOH s) 0 - fillna (QCHold_QCI s) 0 - fillna (QCHold_QCH s) 0)%Q.

(** [{str(a).strip(): float(v) for a, v in zip(stock2["Article"], stock2["Avail"])}]:
    a later row of the same key replaces an earlier one. *)
Definition avail_map (stock : list StockRow) : gmap string Q :=
  fold_left (fun m s => <[Text.strip (Article s) := Avail s]> m) stock ∅.

(** The column [Variant] that [SQL_STOCK_BY_ARTICLE] computes in the
    database; [allocate_by_delivery] does not read it. *)
Definition Variant (s : StockRow) : Q :=
  (fillna (QOH s) 0 - fillna (Allocation s) 0
   - fillna (QCHold_QCI s) 0 - fillna (QCHold_QCH s) 0)%Q.

Section Engine.

(** The cell type of the [DeliveryDate] column and pandas' parser
    [pd.to_datetime(_, errors="coerce")]; [None] is [NaT]. *)
Context {DateCell : Type} (to_datetime : DateCell -> option Z).

(** One row of the demand frame ([build_component_demands]). *)
Record Demand := {
  PO_Line : string;
  DeliveryDate : DateCell;
  Component : string;
  ComponentArticle : string;
  NeedQty : Q;
  QtyPerAssembly : Q;
  QtyEA : Q
}.

(** A demand row with the four columns the engine adds. *)
Record AllocRow := {
  demand : Demand;
  AvailableStart : Q;
  Allocated : Q;
  Short : Q;
  Status : string
}.

(** Order of the column [DeliveryDate_sort], [NaT] after every date
    ([na_position="last"], the default of [sort_values]). *)
Definition date_compare (a b : option Z) : comparison :=
  match a, b with
  | Some x, Some y => Z.compare x y
  | Some _, None => Lt
  | None, Some _ => Gt
  | None, None => Eq
  end.

(** The sort key of a row: the columns
    ["DeliveryDate_sort", "PO-Line", "ComponentArticle"]. *)
Definition sort_key (r : Demand) : option Z * (string * string) :=
  (to_datetime (DeliveryDate r), (PO_Line r, ComponentArticle r)).

Definition key_compare : option Z * (string * string) ->
                         option Z * (string * string) -> comparison :=
  StableSort.lex_compare date_compare
    (StableSort.lex_compare String.compare String.compare).

Definition demand_compare (r1 r2 : Demand) : comparison :=
  key_compare (sort_key r1) (sort_key r2).

Definition demand_leb : Demand -> Demand -> bool :=
  StableSort.leb_of demand_compare.

(** [d.sort_values(["DeliveryDate_sort", "PO-Line", "ComponentArticle"], kind="stable")] *)
Definition sort_values (d : list Demand) : list Demand :=
  StableSort.sort demand_leb d.

(** [1e-9] *)
Definition eps : Q := 1 # 1000000000.

(** ["OK" if x <= 1e-9 else "SHORT"] *)
Definition status_of (short : Q) : string :=
  if Qle_bool short eps then "OK" else "SHORT".

(** [remaining.get(art, 0.0)] *)
Definition remaining_get (remaining : gmap string Q) (art : string) : Q :=
  match remaining !! art with Some v => v | None => 0%Q end.

(** The body of [for _, row in d.iterrows()]: the new [remaining] and the
    values appended to [starts], [allocs] and [shorts]. *)
Definition alloc_step (remaining : gmap string Q) (row : Demand)
  : gmap string Q * AllocRow :=
  let art := Text.strip (ComponentArticle row) in
  let need := NeedQty row in
  let start_avail := remaining_get remaining art in
  let alloc := Qmin start_avail need in
  let short := Qmax 0 (need - alloc) in
  (<[art := (start_avail - alloc)%Q]> remaining,
   {| demand := row; AvailableStart := start_avail; Allocated := alloc;
      Short := short; Status := status_of short |}).

(** The loop; the second component is [remaining] when it ends. *)
Fixpoint alloc_loop (remaining : gmap string Q) (d : list Demand)
  : list AllocRow * gmap string Q :=
  match d with
  | [] => ([], remaining)
  | row :: rest =>
      let '(remaining', r) := alloc_step remaining row in
      let '(out, final) := alloc_loop remaining' rest in
      (r :: out, final)
  end.

Definition allocate_by_delivery (demands : list Demand) (stock : list StockRow)
  : list AllocRow :=
  match demands with
  | [] => []
  | _ => fst (alloc_loop (avail_map stock) (sort_values demands))
  end.

(** Sum of the column [Allocated] over the rows of article [a]. *)
Definition references (a : string) (row : Demand) : bool :=
  String.eqb (Text.strip (ComponentArticle row)) a.

Definition allocated_to (a : string) (out : list AllocRow) : Q :=
  fold_right (fun r acc => if references a (demand r) then (Allocated r + acc)%Q else acc)
             0%Q out.

(** The dated row [r1] comes before the row [r2]: an earlier date, or a
    date against none. *)
Definition date_before (a b : option Z) : Prop :=
  match a, b with
  | Some x, Some y => (x < y)%Z
  | Some _, None => True
  | None, _ => False
  end.

End Engine.

(** *** Worked inputs: the date cell already holds a day number, or nothing *)

Definition day_cell (c : option Z) : option Z := c.

Definition stock_of (a : string) (qoh allocated : Q) : StockRow :=
  {| Article := a; QOH := Some qoh; Allocation := Some allocated;
     QCHold_QCI := Some 0%Q; QCHold_QCH := Some 0%Q |}.

Definition need_of (po art : string) (due : option Z) (need : Q) : @Demand (option Z) :=
  {| PO_Line := po; DeliveryDate := due; Component := "Glass";
     ComponentArticle := art; NeedQty := need; QtyPerAssembly := 1%Q;
     QtyEA := need |}.

Definition result_of (po art : string) (due : option Z) (need start alloc short : Q)
  (status : string) : @AllocRow (option Z) :=
  {| demand := need_of po art due need; AvailableStart := start;
     Allocated := alloc; Short := short; Status := status |}.

End Allocation.

(** ** Flags and the manual "supported" override *)

Module Flags.

Definition purple : string := "🟪".
Definition red : string := "🟥".
Definition green : string := "🟩".

(** The columns of [df_show] that the flag code reads and writes. *)
Record ViewRow := {
  PO_Line : string;
  HasComponents : bool;
  Status : string;
  Short_Detail : string;
  Flag : string
}.

(** The five flags of the design document, as names of the branches of
    [_flag_for_row]. *)
Inductive FlagReason :=
| SmallShortfall
| Shortfall
| LowRemaining
| FullySupported
| Unflagged.

Definition flag_text (k : FlagReason) : string :=
  match k with
  | SmallShortfall => purple
  | Shortfall => red
  | LowRemaining => purple
  | FullySupported => green
  | Unflagged => ""
  end.

(** A [dict[str, bool]] in insertion order. *)
Definition Overrides := list (string * bool).

(** [bool(d.get(k, False))] *)
Fixpoint overrides_get (k : string) (d : Overrides) : bool :=
  match d with
  | [] => false
  | (k', v) :: d' => if String.eqb k' k then v else overrides_get k d'
  end.

(** [d[k] = v] *)
Fixpoint overrides_set (k : string) (v : bool) (d : Overrides) : Overrides :=
  match d with
  | [] => [(k, v)]
  | (k', v') :: d' =>
      if String.eqb k' k then (k, v) :: d' else (k', v') :: overrides_set k v d'
  end.

(** [key_map = {str(k).strip(): bool(v) for k, v in overrides.items()}] *)
Definition key_map (overrides : Overrides) : Overrides :=
  fold_left (fun m kv => overrides_set (Text.strip (fst kv)) (snd kv) m) overrides [].

(** The row of [mask]: the override of the line, and the purple flag when
    the frame has a ["Flag"] column. *)
Definition mask (flag_column : bool) (km : Overrides) (r : ViewRow) : bool :=
  overrides_get (Text.strip (PO_Line r)) km &&
  (if flag_column then String.eqb (Text.strip (Flag r)) purple else true).

Definition supported_row (flag_column : bool) (r : ViewRow) : ViewRow :=
  {| PO_Line := PO_Line r; HasComponents := HasComponents r;
     Status := "OK"; Short_Detail := "Component Supported";
     Flag := if flag_column then green else Flag r |}.

(** [apply_component_support_overrides]; [flag_column] is
    ["Flag" in df2.columns]. *)
Definition apply_component_support_overrides (flag_column : bool)
  (df : list ViewRow) (overrides : Overrides) : list ViewRow :=
  match df with
  | [] => df
  | _ =>
      match overrides with
      | [] => df
      | _ =>
          let km := key_map overrides in
          List.map (fun r => if mask flag_column km r then supported_row flag_column r else r) df
      end
  end.

Section View.
Context {DateCell : Type}.

Abbreviation AllocRow := (@Allocation.AllocRow DateCell).

(** The text [_detail_with_incoming] builds for the SHORT rows of one PO
    line (it formats quantities and reads the incoming-goods file). *)
Context (_detail_with_incoming : list AllocRow -> string).

(** The group of a PO line in [alloc.groupby("PO-Line")]. *)
Definition group (alloc : list AllocRow) (po : string) : list AllocRow :=
  List.filter (fun r => String.eqb (Allocation.PO_Line (Allocation.demand r)) po) alloc.

Definition is_short (r : AllocRow) : bool := String.eqb (Allocation.Status r) "SHORT".

(** [short_by_po]: ["SHORT" if (s == "SHORT").any() else "OK"] per group. *)
Definition short_by_po (alloc : list AllocRow) (po : string) : option string :=
  match group alloc po with
  | [] => None
  | g => Some (if List.existsb is_short g then "SHORT" else "OK")
  end.

(** [low_avail_pos]: the PO lines with a row whose [AvailableStart] is
    under 100. *)
Definition low_avail_pos (alloc : list AllocRow) (key : string) : bool :=
  List.existsb
    (fun r => negb (Qle_bool 100 (Allocation.AvailableStart r)) &&
              String.eqb (Allocation.PO_Line (Allocation.demand r)) key)
    alloc.

(** [detail]: the text of the SHORT rows of the PO line. *)
Definition detail (alloc : list AllocRow) (po : string) : option string :=
  match group (List.filter is_short alloc) po with
  | [] => None
  | g => Some (_detail_with_incoming g)
  end.

(** [supported_pos = set(alloc["PO-Line"])] *)
Definition supported_pos (alloc : list AllocRow) (po : string) : bool :=
  match group alloc po with [] => false | _ => true end.

(** [short_by_po_qty = alloc.groupby("PO-Line")["Short"].sum()] *)
Definition short_by_po_qty (alloc : list AllocRow) (po : string) : option Q :=
  match group alloc po with
  | [] => None
  | g => Some (fold_right (fun r acc => (Allocation.Short r + acc)%Q) 0%Q g)
  end.

(** [small_short_pos]: total short above 0 and at most 100. *)
Definition small_short_pos (alloc : list AllocRow) (key : string) : bool :=
  match short_by_po_qty alloc key with
  | Some short => negb (Qle_bool short 0) && Qle_bool short 100
  | None => false
  end.

Definition _flag_for_row (alloc : list AllocRow) (row : ViewRow) : string :=
  let po_key := Text.strip (PO_Line row) in
  if small_short_pos alloc po_key then purple
  else if String.eqb (Status row) "SHORT" then red
  else if low_avail_pos alloc po_key then purple
  else if String.eqb (Status row) "OK" then green
  else "".

(** The branch of [_flag_for_row] that decides the flag of the row. *)
Definition flag_reason (alloc : list AllocRow) (row : ViewRow) : FlagReason :=
  let po_key := Text.strip (PO_Line row) in
  if small_short_pos alloc po_key then SmallShortfall
  else if String.eqb (Status row) "SHORT" then Shortfall
  else if low_avail_pos alloc po_key then LowRemaining
  else if String.eqb (Status row) "OK" then FullySupported
  else Unflagged.

Definition or_empty (x : option string) : string :=
  match x with Some s => s | None => "" end.

(** The columns [Status], [Short_Detail] and [Flag] of one row of
    [df_show], from the allocation of a non-empty demand frame. *)
Definition view_row (alloc : list AllocRow) (po : string) (has_components : bool)
  : ViewRow :=
  let status0 := or_empty (short_by_po alloc po) in
  let detail0 := or_empty (detail alloc po) in
  let detail1 :=
    if String.eqb status0 "OK" && supported_pos alloc po
    then "Component Supported" else detail0 in
  let row :=
    {| PO_Line := po; HasComponents := has_components;
       Status := if has_components then status0 else "";
       Short_Detail := if has_components then detail1 else "";
       Flag := "" |} in
  {| PO_Line := po; HasComponents := has_components;
     Status := Status row; Short_Detail := Short_Detail row;
     Flag := _flag_for_row alloc row |}.

(** [df_show] after the flag columns are set; an empty demand frame
    leaves the three columns empty. *)
Definition compute_view (alloc : list AllocRow) (lines : list (string * bool))
  : list ViewRow :=
  match alloc with
  | [] =>
      List.map (fun l => {| PO_Line := fst l; HasComponents := snd l; Status := "";
                            Short_Detail := ""; Flag := "" |}) lines
  | _ => List.map (fun l => view_row alloc (fst l) (snd l)) lines
  end.

End View.

(** *** The details page *)

(** The part of [st.session_state] and of the cache directory that the
    override code touches. *)
Record Session := {
  support_overrides : Overrides;
  support_file : Overrides
}.

(** [save_component_support]: the file takes the content of the dict. *)
Definition save_component_support (overrides : Overrides) (s : Session) : Session :=
  {| support_overrides := support_overrides s; support_file := overrides |}.

(** [df_show[df_show["PO-Line"].astype(str) == selected_po]], first row. *)
Definition selected_row (df_show : list ViewRow) (selected_po : string) : option ViewRow :=
  List.find (fun r => String.eqb (PO_Line r) selected_po) df_show.

(** The override part of [render_details_page]: [selected] is
    [st.session_state.get("selected_po")], [override_val] the value the
    checkbox returns. *)
Definition render_details_page (df_show : list ViewRow) (selected : string)
  (override_val : bool) (s : Session) : Session :=
  let selected_po := Text.strip selected in
  if negb (Text.nonempty selected_po) then s
  else
    match selected_row df_show selected_po with
    | None => s
    | Some row =>
        let key := Text.strip selected_po in
        let support_checked := overrides_get key (support_overrides s) in
        let is_purple_flag := String.eqb (Text.strip (Flag row)) purple in
        let s1 :=
          if support_checked && negb is_purple_flag
          then
            let o := overrides_set key false (support_overrides s) in
            save_component_support o
              {| support_overrides := o; support_file := support_file s |}
          else s in
        let support_checked1 :=
          if support_checked && negb is_purple_flag then false else support_checked in
        if negb (Bool.eqb override_val support_checked1) && is_purple_flag
        then
          let o := overrides_set key override_val (support_overrides s1) in
          save_component_support o
            {| support_overrides := o; support_file := support_file s1 |}
        else s1
    end.

(** The main page renders the table and leaves the overrides alone. *)
Definition render_main_page (df_show : list ViewRow) (s : Session) : Session := s.

(** *** Worked input: one PO line short by 50 of 200, with 150 on hand *)

Definition demo_alloc : list (@Allocation.AllocRow (option Z)) :=
  Allocation.allocate_by_delivery Allocation.day_cell
    [Allocation.need_of "4500-1" "A" (Some 1%Z) 200]
    [Allocation.stock_of "A" 150 0].

Definition demo_detail (g : list (@Allocation.AllocRow (option Z))) : string :=
  "Glass A (need 200 pcs, avail 150 pcs)".

Definition demo_row : ViewRow := view_row demo_detail demo_alloc "4500-1" true.

End Flags.

(** ** Cells of a frame *)

Module Cells.

(** What a cell of an object column holds: [None], a NaN, a text or a
    number. *)
Inductive Cell :=
| CNone
| CNaN
| CStr (s : string)
| CNum (q : Q).

End Cells.

(** ** The tabular PO ingestor ([combine_excels]) *)

Module Ingest.
Import Cells.

(** [COL_D_PO, ..., COL_S_OPEN_QTY] and [need], the largest of them. *)
Definition COL_D_PO : nat := 3.
Definition COL_E_LINE : nat := 4.
Definition COL_F_ART : nat := 5.
Definition COL_G_DESC : nat := 6.
Definition COL_K_DD : nat := 10.
Definition COL_L_SD : nat := 11.
Definition COL_M_BUY_QTY : nat := 12.
Definition COL_O_QTY_EA : nat := 14.
Definition COL_S_OPEN_QTY : nat := 18.

Definition need : nat :=
  fold_right Nat.max 0%nat
    [COL_D_PO; COL_E_LINE; COL_F_ART; COL_G_DESC; COL_K_DD; COL_L_SD;
     COL_M_BUY_QTY; COL_O_QTY_EA; COL_S_OPEN_QTY].

(** The nine cells of a sheet row that the ingestor reads; the two key
    columns are given as [astype(str)] renders them. *)
Record SrcRow := {
  col_D_PO : string;
  col_E_LINE : string;
  col_F_ART : Cell;
  col_G_DESC : Cell;
  col_K_DD : Cell;
  col_L_SD : Cell;
  col_M_BUY_QTY : Cell;
  col_O_QTY_EA : Cell;
  col_S_OPEN_QTY : Cell
}.

(** What [read_excel_sheet1] returns: [df.shape[1]] and the rows. *)
Record Sheet := {
  ncols : nat;
  rows : list SrcRow
}.

(** An uploaded file; [content] is [None] when reading it raises. *)
Record File := {
  name : string;
  content : option Sheet
}.

Inductive SkipReason :=
| FailedToRead
| NotEnoughColumns (got needed : nat).

Inductive Failure :=
| NoValidExcelFiles.

(** [re.sub(r"\D", "", s)], then [d or s] *)
Definition norm_po (v : string) : string :=
  let s := Text.strip v in
  let d := Text.digits_only s in
  if Text.nonempty d then d else s.

Definition is_zero (a : ascii) : bool := (Text.code a =? 48)%nat.

(** [str(int(d))] for a non-empty string of digits. *)
Definition str_int (d : string) : string :=
  match Text.drop_while is_zero (list_ascii_of_string d) with
  | [] => "0"
  | l => string_of_list_ascii l
  end.

Definition norm_line (v : string) : string :=
  let s := Text.strip v in
  let d := Text.digits_only s in
  if Text.nonempty d then str_int d else s.

Definition remove_commas (s : string) : string :=
  string_of_list_ascii
    (List.filter (fun a => negb (Text.code a =? 44)%nat) (list_ascii_of_string s)).

(** One row of the frame [out]. [QtyEA] is the number [qty_pcs]; the text
    that [fmt_qty] renders from it is not modelled. *)
Record OutRow := {
  PO_Line : string;
  PO_norm : string;
  Line_norm : string;
  Article : Cell;
  Description : Cell;
  DeliveryDate : Cell;
  StatisticalDate : Cell;
  QtyEA : Q;
  OpenQty : Q
}.

(** [df.drop_duplicates(subset=["PO-Line"])]: the first row of each key. *)
Fixpoint drop_duplicates_from (seen : list string) (l : list OutRow) : list OutRow :=
  match l with
  | [] => []
  | r :: l' =>
      if List.existsb (String.eqb (PO_Line r)) seen
      then drop_duplicates_from seen l'
      else r :: drop_duplicates_from (PO_Line r :: seen) l'
  end.

Definition drop_duplicates (l : list OutRow) : list OutRow := drop_duplicates_from [] l.

Section Combine.

(** Python's [float] on a text; [None] when it raises [ValueError]. *)
Context (float_of_str : string -> option Q).

(** [_to_float(x, default)]; for a number [float(str(x))] is the number. *)
Definition _to_float (x : Cell) (default : Q) : Q :=
  match x with
  | CNone => default
  | CNaN => default
  | CNum q => q
  | CStr s =>
      let t := Text.strip (remove_commas s) in
      if Text.nonempty t
      then match float_of_str t with Some v => v | None => default end
      else default
  end.

Definition po_of (r : SrcRow) : string := Text.strip (col_D_PO r).
Definition line_of (r : SrcRow) : string := Text.strip (col_E_LINE r).
Definition open_qty_of (r : SrcRow) : Q := _to_float (col_S_OPEN_QTY r) 0.

(** [qty_ea.where(buy_qty != 0, 0).div(buy_qty.where(buy_qty != 0, 1)).mul(open_qty)] *)
Definition qty_pcs_of (r : SrcRow) : Q :=
  let buy_qty := _to_float (col_M_BUY_QTY r) 0 in
  let qty_ea := _to_float (col_O_QTY_EA r) 0 in
  ((if Qeq_bool buy_qty 0 then 0 else qty_ea) / (if Qeq_bool buy_qty 0 then 1 else buy_qty)
   * open_qty_of r)%Q.

Definition make_out (r : SrcRow) : OutRow :=
  {| PO_Line := po_of r ++ "-" ++ line_of r;
     PO_norm := norm_po (po_of r);
     Line_norm := norm_line (line_of r);
     Article := col_F_ART r;
     Description := col_G_DESC r;
     DeliveryDate := col_K_DD r;
     StatisticalDate := col_L_SD r;
     QtyEA := qty_pcs_of r;
     OpenQty := open_qty_of r |}.

(** The two row filters:
    [out[out["PO_norm"].astype(str).str.len() > 0]] and [out[open_qty > 0]]. *)
Definition accepted (r : SrcRow) : bool :=
  Text.nonempty (norm_po (po_of r)) && negb (Qle_bool (open_qty_of r) 0).

(** The frame appended to [frames] for a readable sheet with enough
    columns; [SKIP_FIRST_DATA_ROW] drops the first row. *)
Definition frame_of (sh : Sheet) : list OutRow :=
  drop_duplicates (List.map make_out (List.filter accepted (List.tl (rows sh)))).

(** The loop over the files: the frames and the skipped files. *)
Fixpoint read_files (files : list File)
  : list (list OutRow) * list (string * SkipReason) :=
  match files with
  | [] => ([], [])
  | f :: files' =>
      let '(frames, skipped) := read_files files' in
      match content f with
      | None => (frames, (name f, FailedToRead) :: skipped)
      | Some sh =>
          if (ncols sh <=? need)%nat
          then (frames, (name f, NotEnoughColumns (ncols sh) (S need)) :: skipped)
          else (frame_of sh :: frames, skipped)
      end
  end.

Definition combine_excels (files : list File)
  : Failure + (list OutRow * list (string * SkipReason)) :=
  let '(frames, skipped) := read_files files in
  match frames with
  | [] => inl NoValidExcelFiles
  | _ => inr (drop_duplicates (List.concat frames), skipped)
  end.


End Combine.

(** *** Worked input: a sheet of 19 columns with a title row and two
    order rows, the second without an open quantity *)






End Ingest.

(** ** The change detector ([compute_change_log]) *)

Module Changes.
Import Cells.

(** A frame with named columns; a row maps a column to its cell. *)
Record Frame := {
  columns : list string;
  rows : list (gmap string Cell)
}.

Definition TRACK_COLS : list string :=
  ["Article"; "QtyEA"; "DeliveryDate"; "StatisticalDate"; "Status";
   "Short_Detail"; "FS_Lot"; "FS_Status"].

Definition CHANGE_VIEW_COLS : list string := "PO-Line" :: TRACK_COLS.

(** [c in df.columns] *)
Definition has_col (c : string) (df : Frame) : bool :=
  List.existsb (String.eqb c) (columns df).

(** [df.empty]: no row or no column. *)
Definition empty (df : Frame) : bool :=
  match rows df, columns df with
  | [], _ => true
  | _, [] => true
  | _, _ => false
  end.

(** [df[[c for c in CHANGE_VIEW_COLS if c in df.columns]].copy()] *)
Definition keep_cols (df : Frame) : list string :=
  List.filter (fun c => has_col c df) CHANGE_VIEW_COLS.

Definition select (keep : list string) (df : Frame) : Frame :=
  {| columns := keep;
     rows := List.map (fun r => filter (fun kv => fst kv ∈ keep) r) (rows df) |}.

(** [row.get(c, "")] *)
Definition row_get (r : gmap string Cell) (c : string) : Cell :=
  match r !! c with Some x => x | None => CStr "" end.

(** One entry of the history. *)
Record ChangeRecord := {
  RunTS : Z;
  PO_Line : string;
  Field : string;
  Old : string;
  New : string;
  Description : string
}.

Section Detector.

(** [str] of a number, and the sum of the "avail N" mentions of a short
    detail ([_sum_avail_from_short_detail], a scan with [AVAIL_NUM_RE]). *)
Context (str_of_num : Q -> string).
Context (_sum_avail_from_short_detail : string -> Q).

(** [str(x)] *)
Definition py_str (x : Cell) : string :=
  match x with
  | CNone => "None"
  | CNaN => "nan"
  | CStr s => s
  | CNum q => str_of_num q
  end.

Definition _safe_str (x : Cell) : string :=
  match x with
  | CNone => ""
  | CNaN => ""
  | _ => Text.strip (py_str x)
  end.

Definition one_of (f : string) (names : list string) : bool :=
  List.existsb (String.eqb f) names.

Definition _label_change (field oldv newv : string) : string :=
  let f := Text.strip field in
  if one_of f ["FS_Status"; "FS_Lot"] then "FS changed"
  else if String.eqb f "Status" then "Status changed"
  else if String.eqb f "Short_Detail" then
    let old_sum := _sum_avail_from_short_detail oldv in
    let new_sum := _sum_avail_from_short_detail newv in
    if (negb (Qle_bool old_sum 0) || negb (Qle_bool new_sum 0))
       && negb (Qle_bool new_sum old_sum)
    then "Availability increased"
    else if (negb (Qle_bool old_sum 0) || negb (Qle_bool new_sum 0))
            && negb (Qle_bool old_sum new_sum)
    then "Availability decreased"
    else "Short detail changed"
  else if one_of f ["DeliveryDate"; "StatisticalDate"] then "Date changed"
  else if String.eqb f "QtyEA" then "Qty changed"
  else if String.eqb f "Article" then "Article changed"
  else if Text.nonempty f then f ++ " changed"
  else "Changed".

(** [{str(r["PO-Line"]).strip(): r for _, r in df.iterrows()}]: the last
    row of a key stays. *)
Definition index_by_po (df : Frame) : gmap string (gmap string Cell) :=
  fold_left (fun m r => <[Text.strip (py_str (row_get r "PO-Line")) := r]> m) (rows df) ∅.

(** [sorted(set(prev_map.keys()) & set(cur_map.keys()))] *)
Definition common_keys (prev_map cur_map : gmap string (gmap string Cell)) : list string :=
  StableSort.sort String.leb (elements (dom prev_map ∩ dom cur_map)).

(** The body of [for c in TRACK_COLS]. *)
Definition field_change (prev cur : Frame) (run_ts : Z) (k : string)
  (old_row new_row : gmap string Cell) (c : string) : list ChangeRecord :=
  if negb (has_col c cur) || negb (has_col c prev) then []
  else
    let oldv := _safe_str (row_get old_row c) in
    let newv := _safe_str (row_get new_row c) in
    if String.eqb oldv newv then []
    else [{| RunTS := run_ts; PO_Line := k; Field := c; Old := oldv; New := newv;
             Description := _label_change c oldv newv |}].

Definition compute_change_log (current_view : Frame) (prev_view : option Frame)
  (run_ts : Z) : list ChangeRecord :=
  match prev_view with
  | None => []
  | Some prev_view =>
      if empty prev_view then []
      else if negb (has_col "PO-Line" prev_view) || negb (has_col "PO-Line" current_view)
      then []
      else
        let prev := select (keep_cols prev_view) prev_view in
        let cur := select (keep_cols current_view) current_view in
        let prev_map := index_by_po prev in
        let cur_map := index_by_po cur in
        List.flat_map
          (fun k =>
             match prev_map !! k, cur_map !! k with
             | Some old_row, Some new_row =>
                 List.flat_map (field_change prev cur run_ts k old_row new_row) TRACK_COLS
             | _, _ => []
             end)
          (common_keys prev_map cur_map)
  end.

(** The order of the history: [["RunTS", "PO-Line", "Field"]]. *)
Definition record_leb : ChangeRecord -> ChangeRecord -> bool :=
  StableSort.leb_of
    (fun a b =>
       StableSort.lex_compare Z.compare
         (StableSort.lex_compare String.compare String.compare)
         (RunTS a, (PO_Line a, Field a)) (RunTS b, (PO_Line b, Field b))).

(** [append_change_history]: nothing is written for an empty log. *)
Definition append_change_history (history df_new : list ChangeRecord) : list ChangeRecord :=
  match df_new with
  | [] => history
  | _ => StableSort.sort record_leb (history ++ df_new)
  end.



End Detector.

(** *** Worked input: one PO line whose status goes from OK to SHORT *)

Definition demo_view (status detail : string) : Frame :=
  {| columns := ["PO-Line"; "QtyEA"; "Status"; "Short_Detail"];
     rows := [ <["PO-Line" := CStr "4500-1"]>
                 (<["QtyEA" := CStr "120"]>
                    (<["Status" := CStr status]>
                       (<["Short_Detail" := CStr detail]> ∅))) ] |}.

Definition demo_str_of_num (q : Q) : string := "".
Definition demo_sum_avail (s : string) : Q := 0.

End Changes.

(** ** The document BOM extractor ([parse_po_pdf_by_line]) *)

Module Bom.

Inductive Bucket := Glass | WRAP | BLBL | LID | FLBL | FRG.

Definition BUCKETS : list Bucket := [Glass; WRAP; BLBL; LID; FLBL; FRG].

Definition Bucket_eqb (a b : Bucket) : bool :=
  match a, b with
  | Glass, Glass | WRAP, WRAP | BLBL, BLBL | LID, LID | FLBL, FLBL | FRG, FRG => true
  | _, _ => false
  end.

(** The tuple [(article, qty_per)]; [None] is an unknown quantity. *)
Definition Item : Type := string * option Q.

(** [==] on two such tuples. *)
Definition qty_eqb (a b : option Q) : bool :=
  match a, b with
  | Some x, Some y => Qeq_bool x y
  | None, None => true
  | _, _ => false
  end.

Definition item_eqb (i j : Item) : bool :=
  String.eqb (fst i) (fst j) && qty_eqb (snd i) (snd j).

Definition item_eq (i j : Item) : Prop := item_eqb i j = true.

(** [item in l] *)
Definition item_in (i : Item) (l : list Item) : bool := List.existsb (item_eqb i) l.

(** The dict [{k: [] for k in BUCKETS}] of one line. *)
Definition Buckets : Type := Bucket -> list Item.

Definition empty_buckets : Buckets := fun _ => [].

Definition set_bucket (bs : Buckets) (b : Bucket) (l : list Item) : Buckets :=
  fun b' => if Bucket_eqb b' b then l else bs b'.

(** The [defaultdict] [per_line], in the order its keys were created. *)
Definition PerLine : Type := list (string * Buckets).

Fixpoint per_line_get (ln : string) (pl : PerLine) : Buckets :=
  match pl with
  | [] => empty_buckets
  | (k, bs) :: pl' => if String.eqb k ln then bs else per_line_get ln pl'
  end.

Fixpoint per_line_set (ln : string) (bs : Buckets) (pl : PerLine) : PerLine :=
  match pl with
  | [] => [(ln, bs)]
  | (k, bs') :: pl' =>
      if String.eqb k ln then (k, bs) :: pl' else (k, bs') :: per_line_set ln bs pl'
  end.

(** [if item not in per_line[ln][bucket]: per_line[ln][bucket].append(item)];
    reading [per_line[ln]] creates the entry of the line. *)
Definition add_item (pl : PerLine) (ln : string) (b : Bucket) (item : Item) : PerLine :=
  let bs := per_line_get ln pl in
  if item_in item (bs b) then per_line_set ln bs pl
  else per_line_set ln (set_bucket bs b (bs b ++ [item])) pl.

(** [if itm not in shared_items: shared_items.append(itm)] over a list. *)
Definition append_new (shared : list Item) (itm : Item) : list Item :=
  if item_in itm shared then shared else shared ++ [itm].

Definition shared_items (pl : PerLine) (b : Bucket) : list Item :=
  fold_left (fun shared kv => fold_left append_new (snd kv b) shared) pl [].

Definition is_nil {A} (l : list A) : bool :=
  match l with [] => true | _ => false end.

(** [if not per_line[ln][bucket]: per_line[ln][bucket] = shared_items.copy()] *)
Definition fill (b : Bucket) (shared : list Item) (kv : string * Buckets)
  : string * Buckets :=
  (fst kv, if is_nil (snd kv b) then set_bucket (snd kv) b shared else snd kv).

Definition propagate_bucket (pl : PerLine) (b : Bucket) : PerLine :=
  let shared := shared_items pl b in
  if is_nil shared then pl else List.map (fill b shared) pl.

(** The fallback of an order with several lines. *)
Definition propagate (pl : PerLine) : PerLine :=
  if (1 <? length pl)%nat then fold_left propagate_bucket BUCKETS pl else pl.

(** No list of the result holds two equal pairs. *)
Definition unique_pairs (pl : PerLine) : Prop :=
  List.Forall (fun kv => forall b, NoDupA item_eq (snd kv b)) pl.

(** The line [kv'] is the line [kv] after the fallback went over the
    buckets in [processed]: an empty list of such a bucket is replaced by
    the shared list of the bucket in [pl]. *)
Definition filled (pl : PerLine) (processed : list Bucket) (kv kv' : string * Buckets)
  : Prop :=
  fst kv' = fst kv /\
  forall b, snd kv' b =
            if List.existsb (Bucket_eqb b) processed && is_nil (snd kv b)
            then shared_items pl b else snd kv b.

Section Extractor.

(** The five scans of a stripped text line:
    [PO_LINE_HEADER_RE.match(s)] (its group 1),
    [COMPONENT_MARK_RE.search(s)], [classify_component(s)],
    [ARTICLE_ANYWHERE_RE.search(s)] (its group 1) and
    [_extract_qty_per_assembly(s)]. *)
Context (header_digits : string -> option string).
Context (component_mark : string -> bool).
Context (classify_component : string -> option Bucket).
Context (article_anywhere : string -> option string).
Context (_extract_qty_per_assembly : string -> option Q).

(** The body of [for raw in text.splitlines()], on [per_line] and
    [current_line_norm]. *)
Definition scan_line (st : PerLine * option string) (raw : string)
  : PerLine * option string :=
  let '(pl, current_line_norm) := st in
  let s := Text.strip raw in
  if negb (Text.nonempty s) then st
  else
    match header_digits s with
    | Some d => (pl, Some (Ingest.norm_line d))
    | None =>
        match current_line_norm with
        | None => st
        | Some ln =>
            if negb (Text.nonempty ln) then st
            else if negb (component_mark s) then st
            else
              match classify_component s with
              | None => st
              | Some bucket =>
                  match article_anywhere s with
                  | None => st
                  | Some art =>
                      let qty_per := _extract_qty_per_assembly s in
                      (add_item pl ln bucket (art, qty_per), current_line_norm)
                  end
              end
        end
    end.

(** The document is the list of its pages, a page the list of the lines
    of its text. *)
Definition scan_pages (pages : list (list string)) : PerLine :=
  fst (fold_left scan_line (List.concat pages) ([], None)).

Definition parse_lines (pages : list (list string)) : PerLine :=
  propagate (scan_pages pages).

End Extractor.

(** *** The scans, on ASCII text *)

Definition chars (s : string) : list ascii := list_ascii_of_string s.

Definition same_char (ignore_case : bool) (a c : ascii) : bool :=
  if ignore_case then Ascii.eqb (Text.to_upper a) (Text.to_upper c) else Ascii.eqb a c.

(** A literal at the head of the text; the rest of the text. *)
Fixpoint literal (ignore_case : bool) (lit l : list ascii) : option (list ascii) :=
  match lit, l with
  | [], _ => Some l
  | _ :: _, [] => None
  | a :: lit', c :: l' =>
      if same_char ignore_case a c then literal ignore_case lit' l' else None
  end.

(** [\s+] at the head of the text. *)
Definition spaces (l : list ascii) : option (list ascii) :=
  match l with
  | c :: l' => if Text.is_space c then Some (Text.drop_while Text.is_space l') else None
  | [] => None
  end.

(** [\b] after a word character: the text ends or goes on with a
    non-word character. *)
Definition word_end (l : list ascii) : bool :=
  match l with
  | [] => true
  | c :: _ => negb (Text.is_word c)
  end.

Definition then_ {A B} (x : option A) (f : A -> option B) : option B :=
  match x with Some v => f v | None => None end.

Definition at_word_end (l : list ascii) : option (list ascii) :=
  if word_end l then Some l else None.

(** [re.search] of a pattern [\bP] whose [P] starts with a word
    character: [P] is tried at the positions that no word character
    precedes, from the left. *)
Fixpoint search_word {R} (here : list ascii -> option R) (after_word : bool)
  (l : list ascii) : option R :=
  match l with
  | [] => None
  | c :: l' =>
      match (if after_word then None else here l) with
      | Some r => Some r
      | None => search_word here (Text.is_word c) l'
      end
  end.

(** [\bQTY\s+PER\s+ASSEMBLY\b], ignoring case; the text after the match. *)
Definition mark_here (l : list ascii) : option (list ascii) :=
  then_ (literal true (chars "QTY") l) (fun l1 =>
  then_ (spaces l1) (fun l2 =>
  then_ (literal true (chars "PER") l2) (fun l3 =>
  then_ (spaces l3) (fun l4 =>
  then_ (literal true (chars "ASSEMBLY") l4) at_word_end)))).

Definition mark_search (s : string) : option (list ascii) :=
  search_word mark_here false (chars s).

Definition COMPONENT_MARK_RE_search (s : string) : bool :=
  match mark_search s with Some _ => true | None => false end.

(** [^\s*(\d{5})\s+(Open|Closed|Cancelled|Partially|Delivered|Partially\s+Delivered)\b],
    ignoring case; group 1. *)
Definition five_digits (l : list ascii) : option (list ascii * list ascii) :=
  match l with
  | a :: b :: c :: d :: e :: rest =>
      if List.forallb Text.is_digit [a; b; c; d; e] then Some ([a; b; c; d; e], rest)
      else None
  | _ => None
  end.

Definition status_word (l : list ascii) : bool :=
  List.existsb
    (fun w => match then_ (literal true (chars w) l) at_word_end with
              | Some _ => true | None => false end)
    ["Open"; "Closed"; "Cancelled"; "Partially"; "Delivered"]
  || match then_ (literal true (chars "Partially") l) (fun l1 =>
           then_ (spaces l1) (fun l2 =>
           then_ (literal true (chars "Delivered") l2) at_word_end)) with
     | Some _ => true | None => false end.

Definition PO_LINE_HEADER_RE_match (s : string) : option string :=
  then_ (five_digits (Text.drop_while Text.is_space (chars s))) (fun dr =>
  then_ (spaces (snd dr)) (fun l =>
  if status_word l then Some (string_of_list_ascii (fst dr)) else None)).

(** [\b(\d{7,9})\b]: a run of 7 to 9 digits that no word character
    precedes or follows. *)
Definition article_here (l : list ascii) : option string :=
  let '(run, rest) := Text.span Text.is_digit l in
  if (7 <=? length run)%nat && (length run <=? 9)%nat && word_end rest
  then Some (string_of_list_ascii run) else None.

Definition ARTICLE_ANYWHERE_RE_search (s : string) : option string :=
  search_word article_here false (chars s).

(** [sub in d] *)
Fixpoint contains (sub l : list ascii) : bool :=
  match literal false sub l with
  | Some _ => true
  | None => match l with [] => false | _ :: l' => contains sub l' end
  end.

(** [re.search(r"\bW\b", d)] for a word [W]. *)
Definition has_word (w : string) (d : list ascii) : bool :=
  match search_word (fun l => then_ (literal false (chars w) l) at_word_end) false d with
  | Some _ => true
  | None => false
  end.

Definition classify_component (desc : string) : option Bucket :=
  let d := chars (Text.upper desc) in
  let has := fun sub => contains (chars sub) d in
  if has "POLYSHEET" && has "LID" then None
  else if has "POLYSHEET" && has "GLASS" then None
  else if has "SBA" || has "SHRINK" || has "SLEEVE" || has_word "SLV" d then Some WRAP
  else if has "FLBL" || has "WLBL" then Some FLBL
  else if has "BLBL" then Some BLBL
  else if has_word "LID" d then Some LID
  else if (has "CYLINDER" && has "GLASS") || has_word "GLASS" d then Some Glass
  else if has "FRAG" || has_word "FRG" d then Some FRG
  else None.

(** [NUM_RE.findall(tail)[-1]] for [NUM_RE = ([0-9]+(?:\.[0-9]+)?)], read
    one character at a time: the number being read, if any, and the last
    number completed. *)
Inductive NumState :=
| Outside
| InInt (int_part : list ascii)
| AfterDot (int_part : list ascii)
| InFrac (int_part frac_part : list ascii).

Definition num_step (st : NumState * option Q) (c : ascii) : NumState * option Q :=
  let '(cur, last) := st in
  match cur with
  | Outside => if Text.is_digit c then (InInt [c], last) else (Outside, last)
  | InInt i =>
      if Text.is_digit c then (InInt (i ++ [c]), last)
      else if Text.is_dot c then (AfterDot i, last)
      else (Outside, Some (Text.decimal_value i []))
  | AfterDot i =>
      if Text.is_digit c then (InFrac i [c], last)
      else (Outside, Some (Text.decimal_value i []))
  | InFrac i f =>
      if Text.is_digit c then (InFrac i (f ++ [c]), last)
      else (Outside, Some (Text.decimal_value i f))
  end.

Definition last_number (tail : list ascii) : option Q :=
  let '(cur, last) := fold_left num_step tail (Outside, None) in
  match cur with
  | Outside => last
  | InInt i => Some (Text.decimal_value i [])
  | AfterDot i => Some (Text.decimal_value i [])
  | InFrac i f => Some (Text.decimal_value i f)
  end.

Definition _extract_qty_per_assembly (line : string) : option Q :=
  then_ (mark_search line) last_number.

(** [parse_po_pdf_by_line] on the pages of a document. *)
Definition parse_po_pdf_by_line (pages : list (list string)) : PerLine :=
  parse_lines PO_LINE_HEADER_RE_match COMPONENT_MARK_RE_search classify_component
    ARTICLE_ANYWHERE_RE_search _extract_qty_per_assembly pages.

(** *** Worked input: an order of two lines; the first lists the same jar
    twice, at one and at two per assembly, the second only a lid *)

Definition demo_pages : list (list string) :=
  [["PURCHASE ORDER 4500123";
    "00010 Open";
    "26011111 GLASS JAR 12OZ QTY PER ASSEMBLY 1";
    "26011111 GLASS JAR 12OZ QTY PER ASSEMBLY 2";
    "00020 Open";
    "26022222 LID BRUSHED TIN QTY PER ASSEMBLY 1"]].

(** The lists of a result, line by line, for the buckets in [BUCKETS]. *)
Definition listing (pl : PerLine) : list (string * list (list (string * option Q))) :=
  List.map (fun kv => (fst kv,
              List.map (fun b => List.map (fun i => (fst i, option_map Qred (snd i)))
                                          (snd kv b)) BUCKETS)) pl.

End Bom.

(** ** The demand normalizer ([build_component_demands]) *)

Module Demands.
Import Cells.

Definition bucket_name (b : Bom.Bucket) : string :=
  match b with
  | Bom.Glass => "Glass" | Bom.WRAP => "WRAP" | Bom.BLBL => "BLBL"
  | Bom.LID => "LID" | Bom.FLBL => "FLBL" | Bom.FRG => "FRG"
  end.

(** [s.split(",")] *)
Fixpoint split_commas (cur : list ascii) (l : list ascii) : list string :=
  match l with
  | [] => [string_of_list_ascii (rev cur)]
  | c :: l' =>
      if (Text.code c =? 44)%nat
      then string_of_list_ascii (rev cur) :: split_commas [] l'
      else split_commas (c :: cur) l'
  end.

(** [parse_csv_list] on a text cell. *)
Definition parse_csv_list (s : string) : list string :=
  let s := Text.strip s in
  if negb (Text.nonempty s) then []
  else
    List.filter Text.nonempty
      (List.map Text.strip (split_commas [] (list_ascii_of_string s))).

(** [round(x)] of Python 3: to the nearest integer, a half to the even one. *)
Definition py_round (x : Q) : Z :=
  let f := Qfloor x in
  match Qcompare (x - inject_Z f) (1 # 2) with
  | Lt => f
  | Gt => (f + 1)%Z
  | Eq => if Z.even f then f else (f + 1)%Z
  end.

(** [l + [0.0] * (n - len(l))] when [len(l) < n]. *)
Definition pad (l : list Q) (n : nat) : list Q :=
  (l ++ List.repeat 0%Q (n - length l))%list.

Section Normalizer.
Context {DateCell : Type}.
Context (float_of_str : string -> option Q).

(** The columns of a row of [df_show] that the normalizer reads. *)
Record ViewLine := {
  PO_Line : string;
  DeliveryDate : DateCell;
  QtyEA : Cell;
  articles : Bom.Bucket -> string;
  articles_Qty : Bom.Bucket -> string;
  articles_Per : Bom.Bucket -> string
}.

(** [parse_csv_qtys]: a text that [float] rejects counts as [0.0]. *)
Definition parse_csv_qtys (s : string) : list Q :=
  List.map
    (fun x => match float_of_str (Ingest.remove_commas x) with
              | Some v => v
              | None => 0%Q
              end)
    (parse_csv_list s).

(** The body of [for art, need, per_qty in zip(arts, qtys, per_qtys)]. *)
Definition demand_of (r : ViewLine) (b : Bom.Bucket) (qty_ea : Q)
  (entry : string * (Q * Q)) : list (@Allocation.Demand DateCell) :=
  let '(art, (need, per_qty)) := entry in
  let art := Text.strip art in
  let needf := inject_Z (py_round need) in
  if negb (Text.nonempty art) then []
  else if Qle_bool needf Allocation.eps then []
  else
    [{| Allocation.PO_Line := PO_Line r;
        Allocation.DeliveryDate := DeliveryDate r;
        Allocation.Component := bucket_name b;
        Allocation.ComponentArticle := art;
        Allocation.NeedQty := needf;
        Allocation.QtyPerAssembly := per_qty;
        Allocation.QtyEA := qty_ea |}].

(** The body of [for b in BUCKETS]. *)
Definition bucket_demands (r : ViewLine) (qty_ea : Q) (b : Bom.Bucket)
  : list (@Allocation.Demand DateCell) :=
  let arts := parse_csv_list (articles r b) in
  let qtys := pad (parse_csv_qtys (articles_Qty r b)) (length arts) in
  let per_qtys := pad (parse_csv_qtys (articles_Per r b)) (length arts) in
  List.flat_map (demand_of r b qty_ea)
    (List.combine arts (List.combine qtys per_qtys)).

Definition build_component_demands (df_show : list ViewLine)
  : list (@Allocation.Demand DateCell) :=
  List.flat_map
    (fun r =>
       let qty_ea := Ingest._to_float float_of_str (QtyEA r) 0 in
       List.flat_map (bucket_demands r qty_ea) Bom.BUCKETS)
    df_show.

End Normalizer.

(** *** Worked input: two lines that need the glass article A, ten for
    the first day and four for the second *)

Definition demo_line (po : string) (due : option Z) (qty : Q) (need : string)
  : @ViewLine (option Z) :=
  {| PO_Line := po; DeliveryDate := due; QtyEA := CNum qty;
     articles := fun b => match b with Bom.Glass => "A" | _ => "" end;
     articles_Qty := fun b => match b with Bom.Glass => need | _ => "" end;
     articles_Per := fun b => match b with Bom.Glass => "1" | _ => "" end |}.

Definition demo_lines : list (@ViewLine (option Z)) :=
  [demo_line "4500-2" (Some 2%Z) 4 "4"; demo_line "4500-1" (Some 1%Z) 10 "10"].

End Demands.

(** ** Sums over the demand rows of an article *)

Module AllocationSums.
Section Sums.
Context {DateCell : Type}.

(** The quantity the rows of article [a] in [pre] need in total. *)
Definition needed_before (a : string) (pre : list (@Allocation.Demand DateCell)) : Q :=
  fold_right
    (fun row acc => if Allocation.references a row
                    then (Allocation.NeedQty row + acc)%Q else acc)
    0%Q pre.

End Sums.
End AllocationSums.

(** ** The overrides as they are loaded *)

Module FlagsKeys.

(** The keys of the dict are distinct and stripped, as
    [load_component_support] builds it. *)
Definition clean_keys (o : Flags.Overrides) : Prop :=
  List.NoDup (List.map fst o) /\
  List.Forall (fun kv => Text.strip (fst kv) = fst kv) o.

(** The rows of a PO line in an allocation result. *)
Definition total_short {DateCell : Type} (g : list (@Allocation.AllocRow DateCell)) : Q :=
  fold_right (fun r acc => (Allocation.Short r + acc)%Q) 0%Q g.

End FlagsKeys.

(** ** The sheets the ingestor reads, in the order of the files *)

Module IngestOrder.
Import Ingest.

(** The sheet of a file that can be read and is wide enough. *)
Definition usable (f : File) : option Sheet :=
  match content f with
  | Some sh => if (ncols sh <=? need)%nat then None else Some sh
  | None => None
  end.

(** Why a file is skipped, if it is. *)
Definition skip_reason (f : File) : option (string * SkipReason) :=
  match content f with
  | None => Some (name f, FailedToRead)
  | Some sh =>
      if (ncols sh <=? need)%nat
      then Some (name f, NotEnoughColumns (ncols sh) (S need)) else None
  end.

Fixpoint keep_some {A B} (f : A -> option B) (l : list A) : list B :=
  match l with
  | [] => []
  | x :: l' => match f x with Some y => y :: keep_some f l' | None => keep_some f l' end
  end.



End IngestOrder.

(** ** The view restricted to the tracked columns *)

Module ChangesView.
Import Changes.

(** [df[[c for c in CHANGE_VIEW_COLS if c in df.columns]]] *)
Definition tracked (df : Frame) : Frame := select (keep_cols df) df.

End ChangesView.

(** ** The shape of the keys and codes of a BOM, and the article column
    of [merge] *)

Module BomShape.

(** An article code as [ARTICLE_ANYWHERE_RE] captures it: 7 to 9 digits. *)
Definition article_code (a : string) : Prop :=
  List.forallb Text.is_digit (list_ascii_of_string a) = true /\
  (7 <= String.length a <= 9)%nat.

(** A line key as the extractor builds it: [norm_line] of the five digits
    of a line header. *)
Definition line_key (k : string) : Prop :=
  exists d, List.forallb Text.is_digit (list_ascii_of_string d) = true /\
            String.length d = 5%nat /\ k = Ingest.norm_line d.

(** [", ".join([a for a, _q in items])], the article column that [merge]
    writes for a category. *)
Definition arts_col (items : list Bom.Item) : string :=
  String.concat ", " (List.map fst items).

(** Every line key of [pl] is as [PK] says and every article code of
    [pl] as [PA] says. *)
Definition shaped (PA PK : string -> Prop) (pl : Bom.PerLine) : Prop :=
  List.Forall (fun kv => PK (fst kv) /\
                         forall b, List.Forall (fun i => PA (fst i)) (snd kv b)) pl.

(** A text without a blank and without a comma. *)
Definition plain_char (c : ascii) : bool :=
  negb (Text.is_space c) && negb (Text.code c =? 44)%nat.

Definition plain (x : string) : Prop :=
  x <> "" /\ List.forallb plain_char (list_ascii_of_string x) = true.

End BomShape.

(** ** The fragrance-screening master ([_parse_fs_key], [load_fs_master],
    [fs_lookup_for_row]) *)

Module FsMaster.
Import Cells.

Definition FS_COL_KEY : nat := 0.
Definition FS_COL_LOT : nat := 5.
Definition FS_COL_STATUS : nat := 12.

Definition is_dash (c : ascii) : bool := (Text.code c =? 45)%nat.

(** [left, right = s.split("-", 1)]; [None] when ["-" in s] is false. *)
Fixpoint split_dash (l : list ascii) : option (list ascii * list ascii) :=
  match l with
  | [] => None
  | c :: l' =>
      if is_dash c then Some ([], l')
      else match split_dash l' with
           | Some (before, after) => Some (c :: before, after)
           | None => None
           end
  end.

(** The record of a row of the master. *)
Record FsRec := { FS_Lot : string; FS_Status : string }.

Definition blank : FsRec := {| FS_Lot := ""; FS_Status := "" |}.

(** [{"by_pair": by_pair, "by_po": by_po}] *)
Record FsMaps := {
  by_pair : gmap (string * string) FsRec;
  by_po : gmap string FsRec
}.

Definition no_maps : FsMaps := {| by_pair := ∅; by_po := ∅ |}.

(** The three cells that the loader reads of a row; the width check of
    the loader makes sure that every row has them. *)
Record MasterRow := { key_raw : Cell; lot : Cell; status : Cell }.

(** The sheet [PROCESSED] read without a header: [df.shape[1]] and the
    rows. *)
Record MasterSheet := { ncols : nat; rows : list MasterRow }.

(** The columns of a row of the view that the lookup reads. *)
Record ShowRow := { FRG : Cell; FRG_Qty : Cell; PO_norm : Cell; Line_norm : Cell }.

Section Master.
Context (str_of_num : Q -> string).

Definition _parse_fs_key (raw : Cell) : string * string :=
  let s := match raw with
           | CNone => ""
           | _ => Text.strip (Changes.py_str str_of_num raw)
           end in
  if negb (Text.nonempty s) then ("", "")
  else
    match split_dash (list_ascii_of_string s) with
    | Some (before, after) =>
        (Ingest.norm_po (string_of_list_ascii before),
         Ingest.norm_line (string_of_list_ascii after))
    | None => (Ingest.norm_po s, "")
    end.

(** ["" if pd.isna(x) else str(x).strip()] *)
Definition text_of (x : Cell) : string :=
  match x with
  | CNone => ""
  | CNaN => ""
  | _ => Text.strip (Changes.py_str str_of_num x)
  end.

Definition rec_of (r : MasterRow) : FsRec :=
  {| FS_Lot := text_of (lot r); FS_Status := text_of (status r) |}.

(** The body of [for _, r in df.iterrows()]. *)
Definition load_row (m : FsMaps) (r : MasterRow) : FsMaps :=
  let '(po, ln) := _parse_fs_key (key_raw r) in
  if negb (Text.nonempty po) then m
  else if Text.nonempty ln
       then {| by_pair := <[(po, ln) := rec_of r]> (by_pair m); by_po := by_po m |}
       else {| by_pair := by_pair m; by_po := <[po := rec_of r]> (by_po m) |}.

(** [None] is a file that does not exist. *)
Definition load_fs_master (file : option MasterSheet) : FsMaps :=
  match file with
  | None => no_maps
  | Some df =>
      if (ncols df <=? Nat.max (Nat.max FS_COL_KEY FS_COL_LOT) FS_COL_STATUS)%nat
      then no_maps
      else fold_left load_row (rows df) no_maps
  end.

(** A record of the maps is a dict of two entries, so [if rec:] holds for
    every record found. *)
Definition fs_lookup_for_row (r : ShowRow) (fs_maps : FsMaps) : FsRec :=
  if negb (Text.nonempty (Text.strip (Changes.py_str str_of_num (FRG r)))) &&
     negb (Text.nonempty (Text.strip (Changes.py_str str_of_num (FRG_Qty r))))
  then blank
  else
    let po := Text.strip (Changes.py_str str_of_num (PO_norm r)) in
    let ln := Text.strip (Changes.py_str str_of_num (Line_norm r)) in
    match by_pair fs_maps !! (po, ln) with
    | Some rec => rec
    | None =>
        match by_po fs_maps !! po with
        | Some rec2 => rec2
        | None => blank
        end
    end.

(** *** The lookup, said by a search of the sheet *)

(** The row is filed under the pair [(po, ln)]. *)
Definition filed_under_pair (po ln : string) (r : MasterRow) : bool :=
  let '(p, l) := _parse_fs_key (key_raw r) in
  Text.nonempty p && Text.nonempty l && String.eqb p po && String.eqb l ln.

(** The row is filed under the order [po] as a whole. *)
Definition filed_under_po (po : string) (r : MasterRow) : bool :=
  let '(p, l) := _parse_fs_key (key_raw r) in
  Text.nonempty p && negb (Text.nonempty l) && String.eqb p po.

(** The last row of the sheet that [f] holds of. *)
Definition last_row (f : MasterRow -> bool) (l : list MasterRow) : option MasterRow :=
  List.find f (rev l).

Definition searched (r : ShowRow) (df : MasterSheet) : FsRec :=
  let po := Text.strip (Changes.py_str str_of_num (PO_norm r)) in
  let ln := Text.strip (Changes.py_str str_of_num (Line_norm r)) in
  match last_row (filed_under_pair po ln) (rows df) with
  | Some row => rec_of row
  | None =>
      match last_row (filed_under_po po) (rows df) with
      | Some row => rec_of row
      | None => blank
      end
  end.

End Master.

(** *** Worked input: a master with a row for the line 4500123-10 and a
    later row for the whole order *)

Definition demo_master : MasterSheet :=
  {| ncols := 13;
     rows := [ {| key_raw := CStr "4500123-00010"; lot := CStr "L1"; status := CStr "Released" |};
               {| key_raw := CStr "4500123"; lot := CStr "L2"; status := CNaN |} ] |}.

Definition demo_show_row : ShowRow :=
  {| FRG := CStr "26099999"; FRG_Qty := CStr "5";
     PO_norm := CStr "4500123"; Line_norm := CStr "10" |}.

End FsMaster.

(** ** The active fragrance lots of FS.py ([remove_leading_zeros],
    [normalize_key], [build_active_frg_lot]) *)

Module FsLots.
Import Cells.

(** [while text.startswith("0") and len(text) > 1: text = text[1:]] *)
Fixpoint drop_zeros (l : list ascii) : list ascii :=
  match l with
  | c :: (_ :: _) as l' => if Ingest.is_zero c then drop_zeros l' else l
  | _ => l
  end.

Definition remove_leading_zeros (value : string) : string :=
  let text := string_of_list_ascii (drop_zeros (list_ascii_of_string (Text.strip value))) in
  if Text.nonempty text then text else "0".

(** The argument is the text [str(value)]. *)
Definition normalize_key (value : string) : string :=
  remove_leading_zeros (Text.strip value).

Definition is_bar (c : ascii) : bool := (Text.code c =? 124)%nat.

(** [key.split("|", 1)]; [None] when the key holds no bar, where the
    unpacking into two names raises. *)
Fixpoint split_bar (l : list ascii) : option (list ascii * list ascii) :=
  match l with
  | [] => None
  | c :: l' =>
      if is_bar c then Some ([], l')
      else match split_bar l' with
           | Some (before, after) => Some (c :: before, after)
           | None => None
           end
  end.

(** A frame read by position: [df.shape[1]] and the rows, each with
    [ncols] cells. *)
Record Frame := { ncols : nat; rows : list (list Cell) }.

(** [df is None or df.empty] *)
Definition none_or_empty (df : option Frame) : bool :=
  match df with
  | None => true
  | Some d => (length (rows d) =? 0)%nat || (ncols d =? 0)%nat
  end.

(** A row of the result. *)
Record LotRow := { FRG : string; FRG_lot : string; FRG_qty : Q }.

Definition key_of_row (r : LotRow) : string := (FRG r ++ "|" ++ FRG_lot r)%string.

(** [out_map[key] = out_map.get(key, 0) + float(qty)] on a dict that keeps
    the order of insertion. *)
Fixpoint add_qty (key : string) (qty : Q) (m : list (string * Q)) : list (string * Q) :=
  match m with
  | [] => [(key, (0 + qty)%Q)]
  | (k, v) :: m' =>
      if String.eqb k key then (k, (v + qty)%Q) :: m'
      else (k, v) :: add_qty key qty m'
  end.

Fixpoint get_qty (key : string) (m : list (string * Q)) : Q :=
  match m with
  | [] => 0
  | (k, v) :: m' => if String.eqb k key then v else get_qty key m'
  end.

Section Lots.

(** [str] of a number and [pd.to_numeric(..., errors="coerce")] of a cell,
    [None] for NaN. *)
Context (str_of_num : Q -> string).
Context (to_numeric : Cell -> option Q).

(** The cell of a row in the series [_col(df, idx)] of a frame that is
    not empty: the filler [""] when the frame has no such column. *)
Definition _col (d : Frame) (idx : nat) (row : list Cell) : Cell :=
  if (ncols d <=? idx)%nat then CStr "" else nth idx row CNaN.

(** [f"{normalize_key(a)}|{normalize_key(b)}"] of the columns [ia] and
    [ib] as texts. *)
Definition key_of (d : Frame) (ia ib : nat) (row : list Cell) : string :=
  (normalize_key (Changes.py_str str_of_num (_col d ia row)) ++ "|" ++
   normalize_key (Changes.py_str str_of_num (_col d ib row)))%string.

(** [set((a + "|" + b).tolist())]; the set is used for membership only.
    The series of a frame that is [None] or empty are empty. *)
Definition keys_of (df : option Frame) (ia ib : nat) : list string :=
  match df with
  | None => []
  | Some d => if none_or_empty df then [] else List.map (key_of d ia ib) (rows d)
  end.

Definition member (k : string) (keys : list string) : bool :=
  List.existsb (String.eqb k) keys.

(** [float(qty)] of the third column after [fillna(0)]. *)
Definition qty_of (d : Frame) (row : list Cell) : Q :=
  match to_numeric (_col d 2 row) with
  | Some q => q
  | None => 0
  end.

Definition excluded (df_voided df_processed : option Frame) (key : string) : bool :=
  member key (keys_of df_voided 0 1) || member key (keys_of df_processed 4 5).

(** The body of [for frg, lot, qty in zip(active_a, active_b, active_c)]. *)
Definition lot_step (d : Frame) (df_voided df_processed : option Frame)
  (out_map : list (string * Q)) (row : list Cell) : list (string * Q) :=
  let key := key_of d 0 1 row in
  if excluded df_voided df_processed key then out_map
  else add_qty key (qty_of d row) out_map.

Definition out_map (d : Frame) (df_voided df_processed : option Frame)
  : list (string * Q) :=
  fold_left (lot_step d df_voided df_processed) (rows d) [].

(** The rows of the result; [None] when a key cannot be split. *)
Fixpoint lot_rows (m : list (string * Q)) : option (list LotRow) :=
  match m with
  | [] => Some []
  | (key, qty) :: m' =>
      match split_bar (list_ascii_of_string key), lot_rows m' with
      | Some (frg, lot), Some rest =>
          Some ({| FRG := string_of_list_ascii frg;
                   FRG_lot := string_of_list_ascii lot;
                   FRG_qty := qty |} :: rest)
      | _, _ => None
      end
  end.

Definition build_active_frg_lot (df_active df_voided df_processed : option Frame)
  : option (list LotRow) :=
  match df_active with
  | None => Some []
  | Some d =>
      if none_or_empty df_active then Some []
      else lot_rows (out_map d df_voided df_processed)
  end.

(** *** The total of a key, said by a sum over the active rows *)

Definition total_of (d : Frame) (key : string) : Q :=
  fold_right
    (fun row acc => if String.eqb (key_of d 0 1 row) key then (qty_of d row + acc)%Q else acc)
    0%Q (rows d).

End Lots.

(** *** Worked input: two rows of the lot 7 of the fragrance 12, one of
    them written with leading zeros, and a voided lot *)

Definition demo_to_numeric (c : Cell) : option Q :=
  match c with CNum q => Some q | _ => None end.

Definition demo_active : Frame :=
  {| ncols := 3;
     rows := [ [CStr "0012"; CStr "7"; CNum 5];
               [CStr "13"; CStr "1"; CNum 9];
               [CStr "12"; CStr "007"; CNum 3] ] |}.

Definition demo_voided : Frame :=
  {| ncols := 2; rows := [ [CStr "13"; CStr "01"] ] |}.

End FsLots.

(** ** The sheet as cells: the two key columns before [astype(str)] *)

Module IngestCells.
Import Cells.

(** The nine cells of a sheet row as [read_excel] gives them; a blank
    cell is [CNaN]. *)
Record RawRow := {
  cell_D_PO : Cell;
  cell_E_LINE : Cell;
  cell_F_ART : Cell;
  cell_G_DESC : Cell;
  cell_K_DD : Cell;
  cell_L_SD : Cell;
  cell_M_BUY_QTY : Cell;
  cell_O_QTY_EA : Cell;
  cell_S_OPEN_QTY : Cell
}.

Record RawSheet := {
  ncols : nat;
  rows : list RawRow
}.

(** An uploaded file; [content] is [None] when reading it raises. *)
Record RawFile := {
  name : string;
  content : option RawSheet
}.



Section AsText.

(** [str] of a number cell. *)
Context (str_of_num : Q -> string).

(** An entry of [df.iloc[:, i].astype(str)]: the text of a blank cell is
    ["nan"]. *)
Definition astype_str (c : Cell) : string :=
  match c with
  | CNone => "None"
  | CNaN => "nan"
  | CStr s => s
  | CNum q => str_of_num q
  end.

Definition src_row (r : RawRow) : Ingest.SrcRow :=
  {| Ingest.col_D_PO := astype_str (cell_D_PO r);
     Ingest.col_E_LINE := astype_str (cell_E_LINE r);
     Ingest.col_F_ART := cell_F_ART r;
     Ingest.col_G_DESC := cell_G_DESC r;
     Ingest.col_K_DD := cell_K_DD r;
     Ingest.col_L_SD := cell_L_SD r;
     Ingest.col_M_BUY_QTY := cell_M_BUY_QTY r;
     Ingest.col_O_QTY_EA := cell_O_QTY_EA r;
     Ingest.col_S_OPEN_QTY := cell_S_OPEN_QTY r |}.

Definition sheet_of (sh : RawSheet) : Ingest.Sheet :=
  {| Ingest.ncols := ncols sh; Ingest.rows := List.map src_row (rows sh) |}.

Definition file_of (f : RawFile) : Ingest.File :=
  {| Ingest.name := name f;
     Ingest.content := match content f with
                       | Some sh => Some (sheet_of sh)
                       | None => None
                       end |}.



Context (float_of_str : string -> option Q).

(** [combine_excels] on the sheets as they are read. *)
Definition combine_excels (files : list RawFile)
  : Ingest.Failure + (list Ingest.OutRow * list (string * Ingest.SkipReason)) :=
  Ingest.combine_excels float_of_str (List.map file_of files).


End AsText.

(** *** Worked input: a sheet of 19 columns with a title row, an order
    without a digit, a row whose order-number cell is blank, and a row
    without an open quantity *)

Definition demo_str_of_num (q : Q) : string := "0".




End IngestCells.

(** ** The arithmetic of one row of the allocation loop, on binary64 *)

Module AllocationFloat.

Definition prec : Z := 53.
Definition emax : Z := 1024.

Abbreviation float := SpecFloat.spec_float.

Definition of_Z (n : Z) : float := SpecFloat.binary_normalize prec emax n 0 false.

(** The float nearest to [p/q]; for a decimal literal such as [0.3] it is
    the float that Python reads. *)
Definition of_ratio (p q : Z) : float := SpecFloat.SFdiv prec emax (of_Z p) (of_Z q).

Definition sub (x y : float) : float := SpecFloat.SFsub prec emax x y.

(** [min(a, b)] and [max(a, b)] of Python: the first argument unless the
    second is strictly smaller, or strictly larger. *)
Definition py_min (a b : float) : float := if SpecFloat.SFltb b a then b else a.
Definition py_max (a b : float) : float := if SpecFloat.SFltb a b then b else a.

(** [QOH - QCHold_QCI - QCHold_QCH] *)
Definition avail (qoh qci qch : float) : float := sub (sub qoh qci) qch.

(** The numbers of one pass of the loop body. *)
Record RowResult := {
  AvailableStart : float;
  Allocated : float;
  Short : float;
  Remaining : float
}.

Definition alloc_row (start_avail need : float) : RowResult :=
  let alloc := py_min start_avail need in
  let short := py_max (of_Z 0) (sub need alloc) in
  {| AvailableStart := start_avail; Allocated := alloc; Short := short;
     Remaining := sub start_avail alloc |}.

End AllocationFloat.

(** ** The change history on disk ([load_change_history],
    [append_change_history]) *)

Module ChangesDisk.
Import Changes.

(** The two files of the history, [change_history.parquet] and
    [change_history.pkl]; [None] is a file that does not exist. *)
Record Disk := {
  parquet_file : option (list ChangeRecord);
  pickle_file : option (list ChangeRecord)
}.

(** Which of the four file operations succeed; a [false] is an operation
    that raises, as every parquet operation does without a parquet
    engine. *)
Record Env := {
  parquet_reads : bool;
  parquet_writes : bool;
  pickle_reads : bool;
  pickle_writes : bool
}.

(** The empty frame when the parquet file does not exist; the pickle file
    is tried only when reading the parquet file raises. *)
Definition load_change_history (env : Env) (disk : Disk) : list ChangeRecord :=
  match parquet_file disk with
  | Some df =>
      if parquet_reads env then df
      else match pickle_file disk with
           | Some df' => if pickle_reads env then df' else []
           | None => []
           end
  | None => []
  end.

(** The frame [out] goes to the parquet file; when that raises, it is
    built again and goes to the pickle file; when that raises too, nothing
    is written. *)
Definition append_change_history (env : Env) (disk : Disk) (df_new : list ChangeRecord)
  : Disk :=
  match df_new with
  | [] => disk
  | _ =>
      let existing := load_change_history env disk in
      let out := StableSort.sort record_leb (existing ++ df_new) in
      if parquet_writes env
      then {| parquet_file := Some out; pickle_file := pickle_file disk |}
      else if pickle_writes env
           then {| parquet_file := parquet_file disk; pickle_file := Some out |}
           else disk
  end.

(** *** Worked input: a machine without a parquet engine *)

Definition no_parquet_engine : Env :=
  {| parquet_reads := false; parquet_writes := false;
     pickle_reads := true; pickle_writes := true |}.

Definition demo_entry (ts : Z) (po : string) : ChangeRecord :=
  {| RunTS := ts; PO_Line := po; Field := "Status"; Old := "OK"; New := "SHORT";
     Description := "Status changed" |}.

End ChangesDisk.

(** ** The engine with the date column parsed as a column *)

Module AllocationColumn.
Import Allocation.

Section Engine.
Context {DateCell : Type}.

(** [pd.to_datetime(d["DeliveryDate"], errors="coerce")] on the whole
    column: one entry for each cell, [None] for [NaT].  How a cell is read
    may depend on the other cells of the column, as when the format is
    taken from the first one. *)
Context (to_datetime : list DateCell -> list (option Z)).

(** [d["DeliveryDate_sort"] = pd.to_datetime(d["DeliveryDate"], errors="coerce")] *)
Definition with_sort_column (d : list (@Demand DateCell))
  : list (@Demand DateCell * option Z) :=
  List.combine d (to_datetime (List.map DeliveryDate d)).

(** The columns ["DeliveryDate_sort", "PO-Line", "ComponentArticle"]. *)
Definition column_key (x : @Demand DateCell * option Z) : option Z * (string * string) :=
  (snd x, (PO_Line (fst x), ComponentArticle (fst x))).

Definition column_leb : @Demand DateCell * option Z -> @Demand DateCell * option Z -> bool :=
  StableSort.leb_of (fun x y => key_compare (column_key x) (column_key y)).

(** The stable sort on the three columns; the loop reads the rows without
    the sort column. *)
Definition sort_values (d : list (@Demand DateCell)) : list (@Demand DateCell) :=
  List.map fst (StableSort.sort column_leb (with_sort_column d)).

Definition allocate_by_delivery (demands : list (@Demand DateCell))
  (stock : list StockRow) : list (@AllocRow DateCell) :=
  match demands with
  | [] => []
  | _ => fst (alloc_loop (avail_map stock) (sort_values demands))
  end.

End Engine.

(** *** Worked input: a date cell written in one of two formats, and a
    parser that takes the format of the column from its first cell *)

Inductive DateFormat := ISO | US.

Definition same_format (f g : DateFormat) : bool :=
  match f, g with
  | ISO, ISO => true
  | US, US => true
  | _, _ => false
  end.

Definition first_format_wins (col : list (DateFormat * Z)) : list (option Z) :=
  match col with
  | [] => []
  | (fmt, _) :: _ =>
      List.map (fun c => if same_format (fst c) fmt then Some (snd c) else None) col
  end.

Definition iso_cell (c : DateFormat * Z) : option Z :=
  if same_format (fst c) ISO then Some (snd c) else None.

Definition dated_need (po : string) (due : DateFormat * Z) (need : Q)
  : @Demand (DateFormat * Z) :=
  {| PO_Line := po; DeliveryDate := due; Component := "Glass";
     ComponentArticle := "A"; NeedQty := need; QtyPerAssembly := 1%Q;
     QtyEA := need |}.

End AllocationColumn.

(* ===================================================================== *)
(** * Part II: properties                                                 *)
(* ===================================================================== *)

(** ** Facts on the stable sort *)

Module StableSortFacts.
Import StableSort.

Section Laws.
Context {A : Type} (cmp : A -> A -> comparison) (Hcmp : compare_laws cmp).

Lemma leb_of_total x y : leb_of cmp x y = false -> leb_of cmp y x = true.
Proof.
  destruct Hcmp as (_ & Hanti & _). unfold leb_of. rewrite (Hanti x y).
  destruct (cmp x y); simpl; congruence.
Qed.

Lemma leb_of_trans x y z :
  leb_of cmp x y = true -> leb_of cmp y z = true -> leb_of cmp x z = true.
Proof.
  destruct Hcmp as (Heq & _ & Hlt). unfold leb_of.
  destruct (cmp x y) eqn:Exy; try discriminate; intros _.
  - apply Heq in Exy. subst y. auto.
  - destruct (cmp y z) eqn:Eyz; try discriminate; intros _.
    + apply Heq in Eyz. subst z. now rewrite Exy.
    + now rewrite (Hlt _ _ _ Exy Eyz).
Qed.

Lemma leb_of_antisym x y :
  leb_of cmp x y = true -> leb_of cmp y x = true -> x = y.
Proof.
  destruct Hcmp as (Heq & Hanti & _). unfold leb_of. rewrite (Hanti x y).
  destruct (cmp x y) eqn:E; simpl; try discriminate.
  intros _ _. now apply Heq.
Qed.

End Laws.

Lemma lex_compare_laws {A B : Type} (cmpA : A -> A -> comparison)
  (cmpB : B -> B -> comparison) :
  compare_laws cmpA -> compare_laws cmpB -> compare_laws (lex_compare cmpA cmpB).
Proof.
  intros (HeqA & HantiA & HltA) (HeqB & HantiB & HltB).
  unfold lex_compare. split; [|split].
  - intros [a b] [a' b']; simpl. split.
    + destruct (cmpA a a') eqn:E; try discriminate.
      intros Hb. apply HeqA in E. apply HeqB in Hb. congruence.
    + intros [= -> ->].
      rewrite (proj2 (HeqA a' a') eq_refl). now apply HeqB.
  - intros [a b] [a' b']; simpl. rewrite (HantiA a a').
    destruct (cmpA a a'); simpl; auto.
  - intros [a b] [a' b'] [a'' b'']; simpl.
    destruct (cmpA a a') eqn:E1; try discriminate;
      destruct (cmpA a' a'') eqn:E2; try discriminate.
    + apply HeqA in E1, E2. subst a' a''.
      rewrite (proj2 (HeqA a a) eq_refl). apply HltB.
    + apply HeqA in E1. subst a'. now rewrite E2.
    + apply HeqA in E2. subst a''. now rewrite E1.
    + now rewrite (HltA _ _ _ E1 E2).
Qed.

Lemma string_compare_laws : compare_laws String.compare.
Proof.
  split; [|split].
  - intros x y. apply String_as_OT.cmp_eq.
  - intros x y. apply String.compare_antisym.
  - intros x y z H1 H2.
    apply String_as_OT.cmp_lt. apply String_as_OT.cmp_lt in H1, H2.
    eapply String_as_OT.lt_trans; eassumption.
Qed.

Section SortFacts.
Context {A : Type} (leb : A -> A -> bool).
Hypothesis leb_total : forall x y, leb x y = false -> leb y x = true.
Hypothesis leb_trans : forall x y z, leb x y = true -> leb y z = true -> leb x z = true.

Lemma insert_sorted_perm x l : Permutation (x :: l) (insert_sorted leb x l).
Proof.
  induction l as [|y l IH]; simpl; [reflexivity|].
  destruct (leb x y); [reflexivity|].
  rewrite perm_swap. now apply perm_skip.
Qed.

Lemma sort_perm l : Permutation l (sort leb l).
Proof.
  induction l as [|x l IH]; simpl; [constructor|].
  rewrite <- insert_sorted_perm. now apply perm_skip.
Qed.

Lemma insert_sorted_sorted x l :
  StronglySorted (fun a b => leb a b = true) l ->
  StronglySorted (fun a b => leb a b = true) (insert_sorted leb x l).
Proof.
  induction 1 as [|y l Hs IH Hy]; simpl.
  - repeat constructor.
  - destruct (leb x y) eqn:E.
    + constructor; [now constructor|].
      constructor; [exact E|].
      eapply List.Forall_impl; [|exact Hy]. intros z Hz. eapply leb_trans; eauto.
    + constructor; [exact IH|].
      eapply Permutation_Forall; [apply insert_sorted_perm|].
      constructor; [now apply leb_total | exact Hy].
Qed.

Lemma sort_sorted l : StronglySorted (fun a b => leb a b = true) (sort leb l).
Proof.
  induction l as [|x l IH]; simpl; [constructor|].
  now apply insert_sorted_sorted.
Qed.

(** Stability: the rows that tie with [k] keep their input order. *)
Lemma insert_sorted_ties k x l :
  List.filter (ties leb k) (insert_sorted leb x l) = List.filter (ties leb k) (x :: l).
Proof.
  induction l as [|y l IH]; simpl; [reflexivity|].
  destruct (leb x y) eqn:E; [reflexivity|].
  simpl. rewrite IH. simpl.
  destruct (ties leb k x) eqn:Ex; [|reflexivity].
  destruct (ties leb k y) eqn:Ey; [|reflexivity].
  unfold ties in Ex, Ey.
  apply andb_prop in Ex as [_ Hxk]. apply andb_prop in Ey as [Hky _].
  rewrite (leb_trans _ _ _ Hxk Hky) in E. discriminate.
Qed.

Lemma sort_ties k l :
  List.filter (ties leb k) (sort leb l) = List.filter (ties leb k) l.
Proof.
  induction l as [|x l IH]; simpl; [reflexivity|].
  rewrite insert_sorted_ties. simpl. now rewrite IH.
Qed.

End SortFacts.
End StableSortFacts.

(** ** The allocation engine *)

Module AllocationFacts.
Import StableSort StableSortFacts Allocation.

Lemma date_compare_laws : compare_laws date_compare.
Proof.
  split; [|split].
  - intros [x|] [y|]; simpl; split; try discriminate; try reflexivity.
    + intros H. apply Z.compare_eq in H. now subst.
    + intros [= ->]. apply Z.compare_refl.
  - intros [x|] [y|]; simpl; try reflexivity. apply Z.compare_antisym.
  - intros [x|] [y|] [z|]; simpl; try discriminate; try reflexivity.
    rewrite !Z.compare_lt_iff. lia.
Qed.

Lemma key_compare_laws : compare_laws key_compare.
Proof.
  apply lex_compare_laws; [apply date_compare_laws|].
  apply lex_compare_laws; apply string_compare_laws.
Qed.

Ltac qcases :=
  repeat match goal with
  | |- context [Qmin ?x ?y] =>
      let H := fresh in let E := fresh in
      destruct (Q.min_spec x y) as [[H E]|[H E]];
      revert E; generalize (Qmin x y); intros ? E
  | |- context [Qmax ?x ?y] =>
      let H := fresh in let E := fresh in
      destruct (Q.max_spec x y) as [[H E]|[H E]];
      revert E; generalize (Qmax x y); intros ? E
  end.

Section EngineFacts.
Context {DateCell : Type} (to_datetime : DateCell -> option Z).

Abbreviation Demand := (@Demand DateCell).
Abbreviation AllocRow := (@AllocRow DateCell).

Lemma demand_leb_total (r1 r2 : Demand) :
  demand_leb to_datetime r1 r2 = false -> demand_leb to_datetime r2 r1 = true.
Proof. apply (leb_of_total key_compare key_compare_laws). Qed.

Lemma demand_leb_trans (r1 r2 r3 : Demand) :
  demand_leb to_datetime r1 r2 = true -> demand_leb to_datetime r2 r3 = true ->
  demand_leb to_datetime r1 r3 = true.
Proof. apply (leb_of_trans key_compare key_compare_laws). Qed.

Lemma demand_ties_key (k r : Demand) :
  ties (demand_leb to_datetime) k r = true <->
  sort_key to_datetime r = sort_key to_datetime k.
Proof.
  unfold ties. rewrite andb_true_iff. split.
  - intros [H1 H2]. symmetry.
    now apply (leb_of_antisym key_compare key_compare_laws).
  - intros E. unfold demand_leb, leb_of, demand_compare. rewrite E.
    now rewrite (proj2 (proj1 key_compare_laws _ _) eq_refl).
Qed.

Lemma alloc_loop_cons remaining (row : Demand) rest :
  alloc_loop remaining (row :: rest) =
  (snd (alloc_step remaining row) :: fst (alloc_loop (fst (alloc_step remaining row)) rest),
   snd (alloc_loop (fst (alloc_step remaining row)) rest)).
Proof.
  simpl. now destruct (alloc_loop _ rest).
Qed.

Lemma alloc_loop_demand (d : list Demand) : forall remaining,
  List.map demand (fst (alloc_loop remaining d)) = d.
Proof.
  induction d as [|row rest IH]; intros remaining; [reflexivity|].
  rewrite alloc_loop_cons. simpl. now rewrite IH.
Qed.

Lemma alloc_step_balance remaining (row : Demand) :
  let r := snd (alloc_step remaining row) in
  (Allocated r + Short r == NeedQty (demand r))%Q /\ (0 <= Short r)%Q.
Proof.
  simpl. set (s := remaining_get remaining _). set (n := NeedQty row).
  split; qcases; lra.
Qed.

Lemma alloc_loop_balance (d : list Demand) : forall remaining,
  List.Forall (fun r => (Allocated r + Short r == NeedQty (demand r))%Q /\ (0 <= Short r)%Q)
         (fst (alloc_loop remaining d)).
Proof.
  induction d as [|row rest IH]; intros remaining; [constructor|].
  rewrite alloc_loop_cons. cbn [fst]. constructor; [|apply IH].
  apply alloc_step_balance.
Qed.

Lemma references_true a (row : Demand) :
  references a row = true <-> Text.strip (ComponentArticle row) = a.
Proof. unfold references. apply String.eqb_eq. Qed.

Lemma remaining_get_step remaining (row : Demand) a :
  remaining_get (fst (alloc_step remaining row)) a =
  if references a row
  then (remaining_get remaining a - Allocated (snd (alloc_step remaining row)))%Q
  else remaining_get remaining a.
Proof.
  unfold alloc_step. simpl. unfold remaining_get at 1.
  destruct (references a row) eqn:E.
  - apply references_true in E. rewrite E. now rewrite lookup_insert_eq.
  - rewrite lookup_insert_ne; [reflexivity|].
    intros H. apply references_true in H. congruence.
Qed.

Lemma remaining_step_nonneg remaining (row : Demand) a :
  references a row = true ->
  (0 <= remaining_get (fst (alloc_step remaining row)) a)%Q.
Proof.
  intros E. rewrite remaining_get_step, E. simpl.
  apply references_true in E. rewrite E.
  set (s := remaining_get remaining a). set (n := NeedQty row).
  qcases; lra.
Qed.

Lemma remaining_loop_nonneg (d : list Demand) a : forall remaining,
  (0 <= remaining_get remaining a)%Q ->
  (0 <= remaining_get (snd (alloc_loop remaining d)) a)%Q.
Proof.
  induction d as [|row rest IH]; intros remaining H; [exact H|].
  rewrite alloc_loop_cons. cbn [snd]. apply IH.
  destruct (references a row) eqn:E; [now apply remaining_step_nonneg|].
  now rewrite remaining_get_step, E.
Qed.

Lemma remaining_loop_referenced (d : list Demand) a : forall remaining,
  List.existsb (references a) d = true ->
  (0 <= remaining_get (snd (alloc_loop remaining d)) a)%Q.
Proof.
  induction d as [|row rest IH]; intros remaining H; [discriminate|].
  rewrite alloc_loop_cons. cbn [snd]. simpl in H.
  destruct (references a row) eqn:E.
  - apply remaining_loop_nonneg. now apply remaining_step_nonneg.
  - now apply IH.
Qed.

(** What the rows of an article received is what left [remaining]. *)
Lemma alloc_loop_drawdown (d : list Demand) a : forall remaining,
  (allocated_to a (fst (alloc_loop remaining d)) ==
   remaining_get remaining a - remaining_get (snd (alloc_loop remaining d)) a)%Q.
Proof.
  induction d as [|row rest IH]; intros remaining; [simpl; lra|].
  rewrite alloc_loop_cons. cbn [fst snd].
  cbn [allocated_to fold_right].
  change (fold_right _ 0%Q ?l) with (allocated_to a l).
  specialize (IH (fst (alloc_step remaining row))).
  rewrite remaining_get_step in IH. cbn [demand alloc_step snd] in *.
  destruct (references a row); lra.
Qed.

Lemma allocate_by_delivery_loop (demands : list Demand) stock :
  allocate_by_delivery to_datetime demands stock =
  fst (alloc_loop (avail_map stock) (sort_values to_datetime demands)).
Proof. destruct demands; reflexivity. Qed.

Lemma sort_values_perm (demands : list Demand) :
  Permutation demands (sort_values to_datetime demands).
Proof. apply sort_perm. Qed.

Lemma date_before_compare (a b : option Z) :
  date_before a b <-> date_compare a b = Lt.
Proof.
  destruct a as [x|], b as [y|]; simpl; easy.
Qed.

Lemma demand_leb_spec (r1 r2 : Demand) :
  demand_leb to_datetime r1 r2 = true <->
  let d1 := to_datetime (DeliveryDate r1) in
  let d2 := to_datetime (DeliveryDate r2) in
  date_before d1 d2 \/
  (d1 = d2 /\
   ((PO_Line r1 <? PO_Line r2) = true \/
    (PO_Line r1 = PO_Line r2 /\
     (ComponentArticle r1 <=? ComponentArticle r2) = true))).
Proof.
  unfold demand_leb, leb_of, demand_compare, key_compare, lex_compare, sort_key.
  cbn [fst snd]. unfold String.ltb, String.leb. cbv zeta.
  rewrite date_before_compare.
  rewrite <- (proj1 date_compare_laws).
  rewrite <- (proj1 string_compare_laws (PO_Line r1)).
  destruct (date_compare _ _), (String.compare (PO_Line r1) _),
    (String.compare (ComponentArticle r1) _); intuition discriminate.
Qed.

(** C2. Every row of the allocation output balances: allocated plus short
    is the needed quantity, and short is never negative. *)
Theorem allocation_balances (demands : list Demand) (stock : list StockRow) :
  List.Forall (fun r => (Allocated r + Short r == NeedQty (demand r))%Q /\ (0 <= Short r)%Q)
    (allocate_by_delivery to_datetime demands stock).
Proof.
  rewrite allocate_by_delivery_loop. apply alloc_loop_balance.
Qed.

Lemma avail_map_app (earlier later : list StockRow) :
  avail_map (earlier ++ later)%list =
  fold_left (fun m s => <[Text.strip (Article s) := Avail s]> m) later (avail_map earlier).
Proof. unfold avail_map. apply fold_left_app. Qed.

Lemma fold_insert_other (later : list StockRow) (key : string) : forall m : gmap string Q,
  List.Forall (fun s' => Text.strip (Article s') <> key) later ->
  fold_left (fun m s => <[Text.strip (Article s) := Avail s]> m) later m !! key = m !! key.
Proof.
  induction later as [|s' later IH]; intros m H; [reflexivity|].
  inversion H as [|? ? Hne Hrest]; subst. simpl.
  rewrite IH by assumption. now rewrite lookup_insert_ne.
Qed.

(** C1 (amended). The availability the engine starts from is on-hand minus
    the two quality holds, whatever its sign; the quantity allocated
    elsewhere is not subtracted.  It is the value of the last stock row of
    the article, and the first row processed for the article sees it. *)
Theorem avail_map_value (earlier later : list StockRow) (s : StockRow) :
  List.Forall (fun s' => Text.strip (Article s') <> Text.strip (Article s)) later ->
  let stock := (earlier ++ s :: later)%list in
  let v := (fillna (QOH s) 0 - fillna (QCHold_QCI s) 0 - fillna (QCHold_QCH s) 0)%Q in
  avail_map stock !! Text.strip (Article s) = Some v /\
  forall (demands : list Demand) row rest,
    sort_values to_datetime demands = row :: rest ->
    Text.strip (ComponentArticle row) = Text.strip (Article s) ->
    exists r out,
      allocate_by_delivery to_datetime demands stock = r :: out /\
      demand r = row /\ AvailableStart r = v.
Proof.
  intros Hlater stock v.
  assert (Hv : avail_map stock !! Text.strip (Article s) = Some v).
  { unfold stock. rewrite avail_map_app. cbn [fold_left].
    rewrite fold_insert_other by assumption. apply lookup_insert_eq. }
  split; [exact Hv|].
  intros demands row rest Hd Hart.
  rewrite allocate_by_delivery_loop, Hd, alloc_loop_cons. cbn [fst].
  eexists _, _. split; [reflexivity|]. split; [reflexivity|].
  simpl. unfold remaining_get. now rewrite Hart, Hv.
Qed.

(** C3 (amended). For an article that some demand row references, or whose
    snapshot availability is not negative, the rows of the article never
    receive more than the snapshot availability. *)
Theorem allocation_conserves (demands : list Demand) (stock : list StockRow) (a : string) :
  (exists row, In row demands /\ Text.strip (ComponentArticle row) = a) \/
  (0 <= remaining_get (avail_map stock) a)%Q ->
  (allocated_to a (allocate_by_delivery to_datetime demands stock)
   <= remaining_get (avail_map stock) a)%Q.
Proof.
  intros H. rewrite allocate_by_delivery_loop.
  pose proof (alloc_loop_drawdown (sort_values to_datetime demands) a (avail_map stock)) as Hd.
  assert (0 <= remaining_get
                 (snd (alloc_loop (avail_map stock) (sort_values to_datetime demands))) a)%Q
    as Hfin.
  { destruct H as [(row & Hin & Hrow)|Hpos].
    - apply remaining_loop_referenced. apply existsb_exists.
      exists row. split; [|now apply references_true].
      eapply Permutation_in; [apply sort_values_perm|exact Hin].
    - now apply remaining_loop_nonneg. }
  lra.
Qed.

(** Once an article has nothing left, rows that need a non-negative
    quantity of it start from nothing and receive nothing. *)
Lemma alloc_loop_exhausted (d : list Demand) a : forall remaining,
  (remaining_get remaining a == 0)%Q ->
  List.Forall (fun row => (0 <= NeedQty row)%Q) d ->
  List.Forall (fun r => (AvailableStart r == 0)%Q /\ (Allocated r == 0)%Q)
    (List.filter (fun r => references a (demand r)) (fst (alloc_loop remaining d))) /\
  (remaining_get (snd (alloc_loop remaining d)) a == 0)%Q.
Proof.
  induction d as [|row rest IH]; intros remaining Hz Hneed.
  - split; [constructor|exact Hz].
  - inversion Hneed as [|? ? Hrow Hrest]; subst.
    rewrite alloc_loop_cons. cbn [fst snd List.filter].
    pose proof (remaining_get_step remaining row a) as Hs.
    destruct (IH (fst (alloc_step remaining row))) as [IH1 IH2]; [|exact Hrest|].
    + rewrite Hs. destruct (references a row) eqn:E; [|exact Hz].
      apply references_true in E. cbn [alloc_step snd Allocated]. rewrite E.
      revert Hz. set (v := remaining_get remaining a). intros Hz. qcases; lra.
    + split; [|exact IH2].
      change (demand (snd (alloc_step remaining row))) with row.
      destruct (references a row) eqn:E; [|exact IH1].
      constructor; [|exact IH1].
      apply references_true in E. cbn [alloc_step snd Allocated AvailableStart].
      rewrite E. revert Hz. set (v := remaining_get remaining a). intros Hz.
      split; [exact Hz|]. qcases; lra.
Qed.

Lemma alloc_loop_negative (d : list Demand) a : forall remaining first rest,
  (remaining_get remaining a < 0)%Q ->
  List.Forall (fun row => (0 <= NeedQty row)%Q) d ->
  List.filter (fun r => references a (demand r)) (fst (alloc_loop remaining d))
    = first :: rest ->
  (Allocated first == remaining_get remaining a)%Q /\
  (NeedQty (demand first) < Short first)%Q /\
  List.Forall (fun r => (AvailableStart r == 0)%Q /\ (Allocated r == 0)%Q) rest /\
  (remaining_get (snd (alloc_loop remaining d)) a == 0)%Q.
Proof.
  induction d as [|row tl IH]; intros remaining first rest Hneg Hneed Hf; [discriminate|].
  inversion Hneed as [|? ? Hrow Htl]; subst.
  rewrite alloc_loop_cons in *. cbn [fst snd List.filter] in *.
  change (demand (snd (alloc_step remaining row))) with row in Hf.
  pose proof (remaining_get_step remaining row a) as Hs.
  destruct (references a row) eqn:E.
  - injection Hf as <- <-.
    pose proof E as E'. apply references_true in E'.
    cbn [alloc_step snd Allocated] in Hs. rewrite E' in Hs.
    destruct (alloc_loop_exhausted tl a (fst (alloc_step remaining row))) as [H1 H2];
      [|exact Htl|].
    + rewrite Hs. revert Hneg. set (v := remaining_get remaining a). intros Hneg.
      qcases; lra.
    + split; [|split; [|split; [exact H1|exact H2]]];
        cbn [alloc_step snd Allocated Short demand]; rewrite E';
        revert Hneg; set (v := remaining_get remaining a); intros Hneg;
        qcases; lra.
  - destruct (IH (fst (alloc_step remaining row)) first rest) as (H1 & H2 & H3 & H4);
      try assumption.
    + now rewrite Hs.
    + rewrite Hs in H1. repeat split; assumption.
Qed.

(** The same from the snapshot, for demand rows that need non-negative
    quantities. *)
Lemma negative_availability_general (demands : list Demand)
  (stock : list StockRow) (a : string) (first : AllocRow) (rest : list AllocRow) :
  (remaining_get (avail_map stock) a < 0)%Q ->
  List.Forall (fun row => (0 <= NeedQty row)%Q) demands ->
  List.filter (fun r => references a (demand r))
    (allocate_by_delivery to_datetime demands stock) = first :: rest ->
  (Allocated first == remaining_get (avail_map stock) a)%Q /\
  (NeedQty (demand first) < Short first)%Q /\
  List.Forall (fun r => (AvailableStart r == 0)%Q /\ (Allocated r == 0)%Q) rest /\
  (remaining_get (snd (alloc_loop (avail_map stock) (sort_values to_datetime demands))) a
   == 0)%Q.
Proof.
  intros Hneg Hneed Hf. rewrite allocate_by_delivery_loop in Hf.
  eapply alloc_loop_negative; [exact Hneg| |exact Hf].
  eapply Permutation_Forall; [apply sort_values_perm|exact Hneed].
Qed.

(** The processing order of the engine, for any parser of the date cell. *)
Lemma processing_order (demands : list Demand) (stock : list StockRow) :
  let d := sort_values to_datetime demands in
  allocate_by_delivery to_datetime demands stock = fst (alloc_loop (avail_map stock) d) /\
  List.map demand (allocate_by_delivery to_datetime demands stock) = d /\
  Permutation demands d /\
  StronglySorted (fun r1 r2 => demand_leb to_datetime r1 r2 = true) d /\
  (forall k, List.filter (ties (demand_leb to_datetime) k) d =
             List.filter (ties (demand_leb to_datetime) k) demands).
Proof.
  intros d. split; [apply allocate_by_delivery_loop|].
  split; [rewrite allocate_by_delivery_loop; apply alloc_loop_demand|].
  split; [apply sort_values_perm|].
  split.
  - apply sort_sorted; [apply demand_leb_total|apply demand_leb_trans].
  - intros k. apply sort_ties. apply demand_leb_trans.
Qed.

End EngineFacts.

(** C1, as stated, fails: with 100 on hand and 10 allocated elsewhere the
    engine starts from 100, not from 90. *)
Lemma avail_ignores_allocated_elsewhere :
  exists v, avail_map [stock_of "A" 100 10] !! "A" = Some v /\
            ~ (v == Variant (stock_of "A" 100 10))%Q.
Proof.
  exists (100 - 0 - 0)%Q. split; [reflexivity|]. vm_compute. discriminate.
Qed.

Lemma avail_map_value_witness :
  avail_map [stock_of "A" (-5) 10] !! "A" = Some (-5 - 0 - 0)%Q /\
  exists r out,
    allocate_by_delivery day_cell [need_of "line1" "A" (Some 1%Z) 10]
      [stock_of "A" (-5) 10] = r :: out /\
    demand r = need_of "line1" "A" (Some 1%Z) 10 /\ AvailableStart r = (-5 - 0 - 0)%Q.
Proof.
  destruct (avail_map_value day_cell [] [] (stock_of "A" (-5) 10)) as [H1 H2];
    [constructor|].
  split; [exact H1|].
  apply (H2 [need_of "line1" "A" (Some 1%Z) 10] (need_of "line1" "A" (Some 1%Z) 10) []);
    reflexivity.
Defined.

(** C3, as stated, fails: an article with a negative snapshot
    availability that no demand row references has received 0, which
    exceeds its availability. *)
Lemma conservation_fails_unreferenced :
  ~ (allocated_to "A"
       (allocate_by_delivery day_cell [need_of "line1" "B" (Some 1%Z) 10]
          [stock_of "A" (-5) 0])
     <= remaining_get (avail_map [stock_of "A" (-5) 0]) "A")%Q.
Proof.
  intros H. vm_compute in H. now apply H.
Qed.

Lemma allocation_conserves_witness :
  (allocated_to "A"
     (allocate_by_delivery day_cell
        [need_of "line1" "A" (Some 1%Z) 60; need_of "line2" "A" (Some 2%Z) 60]
        [stock_of "A" 100 0])
   <= remaining_get (avail_map [stock_of "A" 100 0]) "A")%Q.
Proof.
  apply (allocation_conserves day_cell).
  left. exists (need_of "line1" "A" (Some 1%Z) 60). split; [now left|reflexivity].
Defined.

(** C4. The engine processes the demand rows in the order of a stable sort
    on delivery date (rows without a date last), then PO line, then
    component article, all ascending; on the two-line example the earlier
    line is served in full and the later one is short by 20. *)
Theorem fifo_processing_order :
  (forall (DateCell : Type) (to_datetime : DateCell -> option Z)
          (demands : list (@Demand DateCell)) (stock : list StockRow),
     let d := sort_values to_datetime demands in
     allocate_by_delivery to_datetime demands stock = fst (alloc_loop (avail_map stock) d) /\
     List.map demand (allocate_by_delivery to_datetime demands stock) = d /\
     Permutation demands d /\
     StronglySorted (fun r1 r2 => demand_leb to_datetime r1 r2 = true) d /\
     (forall k, List.filter (ties (demand_leb to_datetime) k) d =
                List.filter (ties (demand_leb to_datetime) k) demands) /\
     (forall k r, ties (demand_leb to_datetime) k r = true <->
                  sort_key to_datetime r = sort_key to_datetime k) /\
     (forall r1 r2,
        demand_leb to_datetime r1 r2 = true <->
        let d1 := to_datetime (DeliveryDate r1) in
        let d2 := to_datetime (DeliveryDate r2) in
        date_before d1 d2 \/
        (d1 = d2 /\
         ((PO_Line r1 <? PO_Line r2) = true \/
          (PO_Line r1 = PO_Line r2 /\
           (ComponentArticle r1 <=? ComponentArticle r2) = true))))) /\
  allocate_by_delivery day_cell
    [need_of "line1" "A" (Some 1%Z) 60; need_of "line2" "A" (Some 2%Z) 60]
    [stock_of "A" 100 0]
  = [result_of "line1" "A" (Some 1%Z) 60 100 60 0 "OK";
     result_of "line2" "A" (Some 2%Z) 60 40 40 20 "SHORT"] /\
  allocate_by_delivery day_cell
    [need_of "line2" "A" (Some 2%Z) 60; need_of "line1" "A" (Some 1%Z) 60]
    [stock_of "A" 100 0]
  = [result_of "line1" "A" (Some 1%Z) 60 100 60 0 "OK";
     result_of "line2" "A" (Some 2%Z) 60 40 40 20 "SHORT"].
Proof.
  split; [|split; vm_compute; reflexivity].
  intros DateCell to_datetime demands stock d.
  destruct (processing_order to_datetime demands stock) as (H1 & H2 & H3 & H4 & H5).
  repeat (split; [assumption|]).
  split; [apply demand_ties_key|apply demand_leb_spec].
Qed.

End AllocationFacts.

(** ** Text helpers *)

Module TextFacts.
Import Text.

Lemma drop_while_idem {A} (p : A -> bool) (l : list A) :
  drop_while p (drop_while p l) = drop_while p l.
Proof.
  induction l as [|x l IH]; simpl; [reflexivity|].
  destruct (p x) eqn:E; [exact IH|]. simpl. now rewrite E.
Qed.

Lemma drop_while_snoc {A} (p : A -> bool) (l : list A) (x : A) :
  p x = false -> drop_while p (l ++ [x])%list = (drop_while p l ++ [x])%list.
Proof.
  intros Hx. induction l as [|y l IH]; simpl; [now rewrite Hx|].
  destruct (p y); [exact IH|reflexivity].
Qed.

Lemma drop_while_head {A} (p : A -> bool) (l : list A) :
  match drop_while p l with [] => True | x :: _ => p x = false end.
Proof.
  induction l as [|x l IH]; simpl; [exact I|].
  destruct (p x) eqn:E; [exact IH|exact E].
Qed.

Lemma rstrip_lstrip_rstrip (l : list ascii) :
  rstrip (lstrip (rstrip l)) = lstrip (rstrip l).
Proof.
  unfold rstrip, lstrip.
  pose proof (drop_while_head is_space (rev l)) as Hh.
  destruct (drop_while is_space (rev l)) as [|x u]; [reflexivity|].
  simpl rev. rewrite (drop_while_snoc _ _ _ Hh).
  rewrite rev_app_distr. cbn [rev app drop_while]. rewrite Hh.
  cbn [rev]. now rewrite rev_involutive.
Qed.

Lemma strip_idem (s : string) : strip (strip s) = strip s.
Proof.
  unfold strip. rewrite list_ascii_of_string_of_list_ascii.
  rewrite rstrip_lstrip_rstrip. unfold lstrip. now rewrite drop_while_idem.
Qed.

End TextFacts.

(** ** Flags and the manual override *)

Module FlagsFacts.
Import Flags.

Lemma overrides_get_set_eq k v d : overrides_get k (overrides_set k v d) = v.
Proof.
  induction d as [|[k' v'] d IH]; simpl.
  - now rewrite String.eqb_refl.
  - destruct (String.eqb k' k) eqn:E; simpl.
    + now rewrite String.eqb_refl.
    + now rewrite E.
Qed.

Lemma overrides_get_set_ne k k' v d :
  k' <> k -> overrides_get k' (overrides_set k v d) = overrides_get k' d.
Proof.
  intros Hne. induction d as [|[k0 v0] d IH]; simpl.
  - destruct (String.eqb_spec k k'); [congruence|reflexivity].
  - destruct (String.eqb_spec k0 k) as [->|Hk]; simpl.
    + destruct (String.eqb_spec k k'); [congruence|reflexivity].
    + destruct (String.eqb k0 k'); [reflexivity|exact IH].
Qed.

Lemma flag_reason_text {DateCell : Type} (alloc : list (@Allocation.AllocRow DateCell))
  (row : ViewRow) :
  _flag_for_row alloc row = flag_text (flag_reason alloc row).
Proof.
  unfold _flag_for_row, flag_reason.
  repeat match goal with |- context [if ?b then _ else _] => destruct b end; reflexivity.
Qed.

(** C5 (amended). With a [Flag] column, the override touches a row only
    when its flag is the purple one and the override of its PO line is set;
    it then makes the row green, OK and "Component Supported".  Rows with
    any other flag are returned as they are.  The purple flag is the flag
    of small-shortfall lines as well as of low-remaining-availability
    lines. *)
Theorem override_only_on_purple (df : list ViewRow) (overrides : Overrides) :
  List.Forall2
    (fun r r' =>
       (Text.strip (Flag r) <> purple -> r' = r) /\
       (overrides_get (Text.strip (PO_Line r)) (key_map overrides) = false -> r' = r) /\
       (Text.strip (Flag r) = purple ->
        overrides_get (Text.strip (PO_Line r)) (key_map overrides) = true ->
        PO_Line r' = PO_Line r /\ HasComponents r' = HasComponents r /\
        Flag r' = green /\ Status r' = "OK" /\
        Short_Detail r' = "Component Supported"))
    df (apply_component_support_overrides true df overrides) /\
  (forall (DateCell : Type) (alloc : list (@Allocation.AllocRow DateCell)) (row : ViewRow),
     _flag_for_row alloc row = purple <->
     flag_reason alloc row = SmallShortfall \/ flag_reason alloc row = LowRemaining).
Proof.
  split.
  - assert (Hmap : apply_component_support_overrides true df overrides =
                   List.map (fun r => if mask true (key_map overrides) r
                                      then supported_row true r else r) df).
    { unfold apply_component_support_overrides.
      destruct df as [|r0 df]; [reflexivity|].
      destruct overrides as [|o overrides]; [|reflexivity].
      cbn [key_map fold_left]. unfold mask. cbn [overrides_get andb].
      now rewrite List.map_id. }
    rewrite Hmap. clear Hmap.
    induction df as [|r df IH]; [constructor|].
    cbn [List.map]. constructor; [|exact IH].
    unfold mask.
    destruct (overrides_get (Text.strip (PO_Line r)) (key_map overrides)) eqn:Eo;
      destruct (String.eqb_spec (Text.strip (Flag r)) purple) as [Ep|Ep]; cbn [andb];
      repeat split; intros; try congruence; try reflexivity.
  - intros DateCell alloc row. rewrite flag_reason_text.
    destruct (flag_reason alloc row); cbn [flag_text]; split;
      try (intros [H|H]; discriminate H); try discriminate; auto.
Qed.

(** C5, as stated, fails on a small-shortfall line: the line of the worked
    input is short by 50, started from 150 (not low availability), carries
    the purple flag for its small shortfall, and the override turns it
    green, OK and "Component Supported". *)
Lemma override_applies_to_small_shortfall :
  flag_reason demo_alloc demo_row = SmallShortfall /\
  low_avail_pos demo_alloc (Text.strip (PO_Line demo_row)) = false /\
  Status demo_row = "SHORT" /\
  apply_component_support_overrides true [demo_row] [("4500-1", true)]
  = [{| PO_Line := "4500-1"; HasComponents := true; Status := "OK";
        Short_Detail := "Component Supported"; Flag := green |}] /\
  apply_component_support_overrides true [demo_row] [("4500-1", true)] <> [demo_row].
Proof.
  repeat split; try (vm_compute; reflexivity). vm_compute. discriminate.
Qed.

(** C6 (amended). Rendering the details page of a PO line whose row does
    not carry the purple flag leaves the override of that line false, and
    saves the overrides when it had to clear one; the override of any
    other PO line is left as it was, whatever its flag. *)
Theorem details_page_revalidates (df_show : list ViewRow) (selected : string)
  (override_val : bool) (s : Session) (row : ViewRow) :
  Text.nonempty (Text.strip selected) = true ->
  selected_row df_show (Text.strip selected) = Some row ->
  Text.strip (Flag row) <> purple ->
  let s' := render_details_page df_show selected override_val s in
  overrides_get (Text.strip selected) (support_overrides s') = false /\
  (overrides_get (Text.strip selected) (support_overrides s) = true ->
   support_file s' = support_overrides s') /\
  (forall k, k <> Text.strip selected ->
     overrides_get k (support_overrides s') = overrides_get k (support_overrides s)).
Proof.
  intros Hne Hrow Hflag. unfold render_details_page.
  rewrite Hne, Hrow. cbn [negb]. rewrite TextFacts.strip_idem.
  destruct (String.eqb_spec (Text.strip (Flag row)) purple) as [E|_]; [contradiction|].
  cbn [negb]. rewrite !andb_true_r, !andb_false_r.
  destruct (overrides_get (Text.strip selected) (support_overrides s)) eqn:Eo;
    cbn zeta; cbn [save_component_support support_overrides support_file].
  - split; [apply overrides_get_set_eq|]. split; [reflexivity|].
    intros k Hk. now apply overrides_get_set_ne.
  - split; [exact Eo|]. split; [discriminate|]. reflexivity.
Qed.

Lemma details_page_revalidates_witness :
  let df := [{| PO_Line := "4500-1"; HasComponents := true; Status := "OK";
                Short_Detail := "Component Supported"; Flag := green |}] in
  let s := {| support_overrides := [("4500-1", true)];
              support_file := [("4500-1", true)] |} in
  let s' := render_details_page df " 4500-1 " false s in
  overrides_get (Text.strip " 4500-1 ") (support_overrides s') = false /\
  (overrides_get (Text.strip " 4500-1 ") (support_overrides s) = true ->
   support_file s' = support_overrides s') /\
  (forall k, k <> Text.strip " 4500-1 " ->
     overrides_get k (support_overrides s') = overrides_get k (support_overrides s)).
Proof.
  intros df s.
  apply (details_page_revalidates df " 4500-1 " false s
           {| PO_Line := "4500-1"; HasComponents := true; Status := "OK";
              Short_Detail := "Component Supported"; Flag := green |}).
  - reflexivity.
  - reflexivity.
  - vm_compute. discriminate.
Defined.

(** C6, as stated, fails: two lines are overridden and neither is purple;
    a run that shows the main page clears nothing, and a run that shows
    the details of the first line leaves the override of the second
    set, in the session and in the file. *)
Lemma stale_override_survives_run :
  let df := [{| PO_Line := "4500-1"; HasComponents := true; Status := "OK";
                Short_Detail := "Component Supported"; Flag := green |};
             {| PO_Line := "4500-2"; HasComponents := true; Status := "SHORT";
                Short_Detail := "Glass A (need 900 pcs, avail 0 pcs)"; Flag := red |}] in
  let s := {| support_overrides := [("4500-1", true); ("4500-2", true)];
              support_file := [("4500-1", true); ("4500-2", true)] |} in
  apply_component_support_overrides true df (support_overrides s) = df /\
  render_main_page df s = s /\
  overrides_get "4500-2"
    (support_overrides (render_details_page df "4500-1" false s)) = true /\
  overrides_get "4500-2"
    (support_file (render_details_page df "4500-1" false s)) = true.
Proof.
  repeat split; vm_compute; reflexivity.
Qed.

End FlagsFacts.

(** ** The tabular PO ingestor *)

Module IngestFacts.
Import Cells Ingest.



Lemma nonempty_true (s : string) : Text.nonempty s = true <-> s <> "".
Proof. destruct s; simpl; split; congruence. Qed.


Section CombineFacts.
Context (float_of_str : string -> option Q).





End CombineFacts.

Section CellFacts.
Context (str_of_num : Q -> string).
Context (float_of_str : string -> option Q).




End CellFacts.



End IngestFacts.

(** ** The change detector *)

Module ChangesFacts.
Import Cells Changes.

Section DetectorFacts.
Context (str_of_num : Q -> string).
Context (_sum_avail_from_short_detail : string -> Q).




End DetectorFacts.

(** A changed status is logged, once, with its label; the other tracked
    columns of the line are equal and give nothing. *)
Example changed_status_logged :
  compute_change_log demo_str_of_num demo_sum_avail
    (demo_view "SHORT" "Component Supported") (Some (demo_view "OK" "Component Supported")) 7
  = [{| RunTS := 7; PO_Line := "4500-1"; Field := "Status"; Old := "OK"; New := "SHORT";
        Description := "Status changed" |}].
Proof. vm_compute. reflexivity. Qed.

End ChangesFacts.

(** ** The document BOM extractor *)

Module BomFacts.
Import Bom.

Lemma qty_eqb_refl q : qty_eqb q q = true.
Proof. destruct q; simpl; [apply Qeq_bool_iff; reflexivity|reflexivity]. Qed.

Lemma qty_eqb_sym p q : qty_eqb p q = true -> qty_eqb q p = true.
Proof.
  destruct p, q; simpl; try discriminate; try reflexivity.
  rewrite !Qeq_bool_iff. intros H. now symmetry.
Qed.

Lemma qty_eqb_trans p q r : qty_eqb p q = true -> qty_eqb q r = true -> qty_eqb p r = true.
Proof.
  destruct p, q, r; simpl; try discriminate; try reflexivity.
  rewrite !Qeq_bool_iff. intros H1 H2. now rewrite H1.
Qed.

#[local] Instance item_eq_equiv : Equivalence item_eq.
Proof.
  unfold item_eq, item_eqb. split.
  - intros [a q]. simpl. now rewrite String.eqb_refl, qty_eqb_refl.
  - intros [a q] [a' q']. simpl. rewrite !andb_true_iff. intros [H1 H2].
    split; [now rewrite String.eqb_sym|now apply qty_eqb_sym].
  - intros [a q] [a' q'] [a'' q'']. simpl. rewrite !andb_true_iff.
    intros [H1 H2] [H3 H4]. apply String.eqb_eq in H1, H3. subst.
    split; [apply String.eqb_refl|eapply qty_eqb_trans; eauto].
Qed.

Lemma item_in_InA (i : Item) (l : list Item) :
  item_in i l = true <-> InA item_eq i l.
Proof.
  unfold item_in. rewrite List.existsb_exists, InA_alt.
  split; intros (y & H1 & H2); exists y; unfold item_eq in *; tauto.
Qed.

Lemma nodup_snoc (l : list Item) (i : Item) :
  NoDupA item_eq l -> item_in i l = false -> NoDupA item_eq (l ++ [i]).
Proof.
  intros Hl Hi. apply NoDupA_app; [apply item_eq_equiv|exact Hl| |].
  - constructor; [|constructor]. intros H. inversion H.
  - intros x Hx Hxi. inversion Hxi as [? ? Heq|? ? Hnil]; subst; [|inversion Hnil].
    assert (InA item_eq i l) as Hin.
    { eapply InA_eqA; [apply item_eq_equiv|exact Heq|exact Hx]. }
    apply item_in_InA in Hin. congruence.
Qed.

Lemma append_new_nodup (shared : list Item) (itm : Item) :
  NoDupA item_eq shared -> NoDupA item_eq (append_new shared itm).
Proof.
  intros H. unfold append_new. destruct (item_in itm shared) eqn:E; [exact H|].
  now apply nodup_snoc.
Qed.

Lemma fold_append_new_nodup (l shared : list Item) :
  NoDupA item_eq shared -> NoDupA item_eq (fold_left append_new l shared).
Proof.
  revert shared. induction l as [|x l IH]; intros shared H; simpl; [exact H|].
  apply IH. now apply append_new_nodup.
Qed.

Lemma shared_items_nodup (pl : PerLine) (b : Bucket) :
  NoDupA item_eq (shared_items pl b).
Proof.
  unfold shared_items.
  assert (forall shared, NoDupA item_eq shared ->
            NoDupA item_eq (fold_left (fun sh kv => fold_left append_new (snd kv b) sh)
                              pl shared)) as H.
  { induction pl as [|kv pl IH]; intros shared Hs; simpl; [exact Hs|].
    apply IH. now apply fold_append_new_nodup. }
  apply H. constructor.
Qed.

(** The invariant of the extractor: no list holds two equal pairs. *)
Lemma per_line_get_unique (ln : string) (pl : PerLine) :
  unique_pairs pl -> forall b, NoDupA item_eq (per_line_get ln pl b).
Proof.
  unfold unique_pairs. induction 1 as [|[k bs] pl Hbs Hpl IH]; simpl.
  - intros b. constructor.
  - destruct (String.eqb k ln); [exact Hbs|exact IH].
Qed.

Lemma per_line_set_unique (ln : string) (bs : Buckets) (pl : PerLine) :
  unique_pairs pl -> (forall b, NoDupA item_eq (bs b)) ->
  unique_pairs (per_line_set ln bs pl).
Proof.
  unfold unique_pairs. intros Hpl Hbs.
  induction Hpl as [|[k bs'] pl Hk Hpl IH]; simpl.
  - constructor; [exact Hbs|constructor].
  - destruct (String.eqb k ln); constructor; auto.
Qed.

Lemma set_bucket_unique (bs : Buckets) (b : Bucket) (l : list Item) :
  (forall b', NoDupA item_eq (bs b')) -> NoDupA item_eq l ->
  forall b', NoDupA item_eq (set_bucket bs b l b').
Proof.
  intros Hbs Hl b'. unfold set_bucket. destruct (Bucket_eqb b' b); auto.
Qed.

Lemma add_item_unique (pl : PerLine) (ln : string) (b : Bucket) (item : Item) :
  unique_pairs pl -> unique_pairs (add_item pl ln b item).
Proof.
  intros Hpl. unfold add_item.
  pose proof (per_line_get_unique ln pl Hpl) as Hget.
  destruct (item_in item (per_line_get ln pl b)) eqn:E.
  - now apply per_line_set_unique.
  - apply per_line_set_unique; [exact Hpl|].
    apply set_bucket_unique; [exact Hget|]. now apply nodup_snoc.
Qed.

Lemma propagate_bucket_unique (pl : PerLine) (b : Bucket) :
  unique_pairs pl -> unique_pairs (propagate_bucket pl b).
Proof.
  intros Hpl. unfold propagate_bucket.
  destruct (is_nil (shared_items pl b)); [exact Hpl|].
  unfold unique_pairs in *. apply List.Forall_map.
  eapply List.Forall_impl; [|exact Hpl].
  intros [k bs] Hbs. unfold fill. simpl.
  destruct (is_nil (bs b)); [|exact Hbs].
  apply set_bucket_unique; [exact Hbs|apply shared_items_nodup].
Qed.

Lemma propagate_unique (pl : PerLine) : unique_pairs pl -> unique_pairs (propagate pl).
Proof.
  intros Hpl. unfold propagate. destruct (1 <? length pl)%nat; [|exact Hpl].
  revert pl Hpl. induction BUCKETS as [|b bl IH]; intros pl Hpl; simpl; [exact Hpl|].
  apply IH. now apply propagate_bucket_unique.
Qed.

(** What the fallback leaves in each list, bucket by bucket. *)
Lemma shared_items_ext (b : Bucket) (pl cur : PerLine) :
  List.Forall2 (fun kv kv' => snd kv' b = snd kv b) pl cur ->
  shared_items cur b = shared_items pl b.
Proof.
  intros H. unfold shared_items. generalize (@nil Item).
  induction H as [|kv kv' pl cur Hkv Hrest IH]; intros shared; simpl; [reflexivity|].
  rewrite Hkv. apply IH.
Qed.

Lemma Bucket_eqb_eq (a b : Bucket) : Bucket_eqb a b = true <-> a = b.
Proof. destruct a, b; simpl; split; congruence. Qed.

Lemma propagate_buckets_spec (pl : PerLine) (rest : list Bucket) :
  forall (processed : list Bucket) (cur : PerLine),
    List.NoDup rest ->
    List.Forall (fun b => List.existsb (Bucket_eqb b) processed = false) rest ->
    List.Forall2 (filled pl processed) pl cur ->
    List.Forall2 (filled pl (processed ++ rest)) pl (fold_left propagate_bucket rest cur).
Proof.
  induction rest as [|b0 rest IH]; intros processed cur Hnodup Hfresh Hcur.
  - simpl. now rewrite List.app_nil_r.
  - inversion Hfresh as [|? ? Hb0 Hrest]; subst.
    inversion Hnodup as [|? ? Hnotin Hnodup']; subst. simpl.
    replace (processed ++ b0 :: rest)%list with ((processed ++ [b0]) ++ rest)%list
      by (now rewrite <- List.app_assoc).
    apply IH; [exact Hnodup'| |].
    + apply List.Forall_forall. intros b Hin.
      rewrite List.Forall_forall in Hrest.
      rewrite List.existsb_app, (Hrest b Hin). simpl. rewrite orb_false_r.
      destruct (Bucket_eqb b b0) eqn:E; [|reflexivity].
      apply Bucket_eqb_eq in E. subst b. contradiction.
    + assert (Hsh : shared_items cur b0 = shared_items pl b0).
      { apply shared_items_ext. eapply List.Forall2_impl; [|exact Hcur].
        intros kv kv' [_ H]. rewrite H, Hb0. reflexivity. }
      unfold propagate_bucket. rewrite Hsh.
      destruct (is_nil (shared_items pl b0)) eqn:Enil.
      * eapply List.Forall2_impl; [|exact Hcur].
        intros kv kv' [Hk H]. split; [exact Hk|]. intros b. rewrite H.
        rewrite List.existsb_app. simpl. rewrite orb_false_r.
        destruct (Bucket_eqb b b0) eqn:E; [|now rewrite orb_false_r].
        apply Bucket_eqb_eq in E. subst b. rewrite Hb0. simpl.
        destruct (is_nil (snd kv b0)) eqn:E0; [|reflexivity].
        destruct (shared_items pl b0); [|discriminate].
        destruct (snd kv b0); [reflexivity|discriminate].
      * clear IH Hsh.
        assert (Hmap : forall l c,
                  List.Forall2 (filled pl processed) l c ->
                  List.Forall2 (filled pl (processed ++ [b0])) l
                    (List.map (fill b0 (shared_items pl b0)) c));
          [|now apply Hmap].
        induction 1 as [|kv kv' l' c' [Hk H] _ IH']; simpl; constructor; auto.
        split; [exact Hk|]. intros b. unfold fill. simpl.
        rewrite List.existsb_app. simpl. rewrite orb_false_r.
        pose proof (H b0) as H0. rewrite Hb0 in H0. simpl in H0.
        destruct (Bucket_eqb b b0) eqn:E.
        -- apply Bucket_eqb_eq in E. subst b. rewrite orb_true_r. simpl.
           rewrite H0. destruct (is_nil (snd kv b0)) eqn:E0.
           ++ unfold set_bucket. now rewrite (proj2 (Bucket_eqb_eq b0 b0) eq_refl).
           ++ exact H0.
        -- rewrite orb_false_r.
           destruct (is_nil (snd kv' b0)); [|apply H].
           unfold set_bucket. rewrite E. apply H.
Qed.

Lemma propagate_spec (pl : PerLine) :
  ((length pl <= 1)%nat -> propagate pl = pl) /\
  ((1 < length pl)%nat ->
   List.Forall2
     (fun kv kv' =>
        fst kv' = fst kv /\
        forall b, snd kv' b = if is_nil (snd kv b) then shared_items pl b else snd kv b)
     pl (propagate pl)).
Proof.
  unfold propagate. split; intros Hlen.
  - destruct (Nat.ltb_spec 1 (length pl)); [lia|reflexivity].
  - destruct (Nat.ltb_spec 1 (length pl)); [|lia].
    assert (Hall : List.Forall2 (filled pl ([] ++ BUCKETS)) pl
                     (fold_left propagate_bucket BUCKETS pl)).
    { apply propagate_buckets_spec.
      - unfold BUCKETS. repeat constructor; simpl; intuition discriminate.
      - apply List.Forall_forall. reflexivity.
      - clear. induction pl as [|kv pl IH]; constructor; [|exact IH].
        split; [reflexivity|]. intros b. reflexivity. }
    eapply List.Forall2_impl; [|exact Hall].
    intros kv kv' [Hk Hb]. split; [exact Hk|]. intros b. rewrite Hb.
    destruct b; reflexivity.
Qed.

Section ExtractorFacts.
Context (header_digits : string -> option string).
Context (component_mark : string -> bool).
Context (classify_component : string -> option Bucket).
Context (article_anywhere : string -> option string).
Context (_extract_qty_per_assembly : string -> option Q).

Abbreviation scan_line' :=
  (scan_line header_digits component_mark classify_component article_anywhere
     _extract_qty_per_assembly).

Lemma scan_line_unique (st : PerLine * option string) (raw : string) :
  unique_pairs (fst st) -> unique_pairs (fst (scan_line' st raw)).
Proof.
  destruct st as [pl cur]. intros Hpl. unfold scan_line. cbn [fst] in Hpl.
  repeat match goal with
         | |- context [if ?c then _ else _] => destruct c
         | |- context [match ?x with Some _ => _ | None => _ end] => destruct x
         end; cbn [fst]; try exact Hpl.
  now apply add_item_unique.
Qed.

Lemma scan_lines_unique (lines : list string) (st : PerLine * option string) :
  unique_pairs (fst st) -> unique_pairs (fst (fold_left scan_line' lines st)).
Proof.
  revert st. induction lines as [|raw lines IH]; intros st Hst; simpl; [exact Hst|].
  apply IH. now apply scan_line_unique.
Qed.

(** C8 (amended). Whatever the five scans of a text line return, no list
    of the result holds the same (article code, quantity per assembly)
    pair twice.  The fallback of an order with several lines leaves a
    non-empty list as it is and gives an empty one the shared list of its
    category: the entries of the category over the lines, in the order
    they were found, without a repeated pair. *)
Theorem bom_pairs_unique (pages : list (list string)) :
  let scanned := scan_pages header_digits component_mark classify_component
                   article_anywhere _extract_qty_per_assembly pages in
  let result := parse_lines header_digits component_mark classify_component
                  article_anywhere _extract_qty_per_assembly pages in
  List.Forall (fun kv => forall b, NoDupA item_eq (snd kv b)) result /\
  ((length scanned <= 1)%nat -> result = scanned) /\
  ((1 < length scanned)%nat ->
   List.Forall2
     (fun kv kv' =>
        fst kv' = fst kv /\
        forall b, snd kv' b =
                  if is_nil (snd kv b) then shared_items scanned b else snd kv b)
     scanned result) /\
  (forall b, NoDupA item_eq (shared_items scanned b)).
Proof.
  intros scanned result.
  split; [|split; [|split]].
  - apply propagate_unique. unfold scan_pages. apply scan_lines_unique. constructor.
  - apply (proj1 (propagate_spec scanned)).
  - apply (proj2 (propagate_spec scanned)).
  - intros b. apply shared_items_nodup.
Qed.

End ExtractorFacts.

(** The sample of the design document: a header "00123 Open" and a jar at
    four per assembly give one glass entry on line 123. *)
Example bom_single_entry :
  listing (parse_po_pdf_by_line [["00123 Open"; "8801234 GLASS JAR QTY PER ASSEMBLY 4"]])
  = [("123", [[("8801234", Some 4%Q)]; []; []; []; []; []])].
Proof. vm_compute. reflexivity. Qed.

(** C8, as stated, fails: the first line of the worked order lists the
    jar 26011111 at one and at two per assembly; both entries stay in its
    glass list, and the fallback copies both to the second line. *)
Lemma bom_repeats_article_code :
  listing (parse_po_pdf_by_line demo_pages)
  = [("10", [[("26011111", Some 1%Q); ("26011111", Some 2%Q)]; []; [];
             [("26022222", Some 1%Q)]; []; []]);
     ("20", [[("26011111", Some 1%Q); ("26011111", Some 2%Q)]; []; [];
             [("26022222", Some 1%Q)]; []; []])] /\
  ~ List.NoDup (List.map fst (per_line_get "10" (parse_po_pdf_by_line demo_pages) Glass)) /\
  ~ List.NoDup (List.map fst (per_line_get "20" (parse_po_pdf_by_line demo_pages) Glass)).
Proof.
  split; [vm_compute; reflexivity|].
  assert (E10 : List.map fst (per_line_get "10" (parse_po_pdf_by_line demo_pages) Glass)
                = ["26011111"; "26011111"]) by (vm_compute; reflexivity).
  assert (E20 : List.map fst (per_line_get "20" (parse_po_pdf_by_line demo_pages) Glass)
                = ["26011111"; "26011111"]) by (vm_compute; reflexivity).
  rewrite E10, E20.
  split; intros H; inversion H as [|? ? Hnotin _]; apply Hnotin; now left.
Qed.

End BomFacts.

(** ** The demand normalizer *)

Module DemandsFacts.
Import Demands.

Section NormalizerFacts.
Context {DateCell : Type}.
Context (float_of_str : string -> option Q).

(** Every row that the normalizer hands to the allocation engine needs a
    strictly positive quantity. *)
Lemma build_component_demands_positive (df_show : list (@ViewLine DateCell)) :
  List.Forall (fun row => (0 < Allocation.NeedQty row)%Q)
    (build_component_demands float_of_str df_show).
Proof.
  apply List.Forall_forall. intros row Hrow.
  unfold build_component_demands in Hrow.
  apply List.in_flat_map in Hrow. destruct Hrow as (r & _ & Hrow).
  apply List.in_flat_map in Hrow. destruct Hrow as (b & _ & Hrow).
  unfold bucket_demands in Hrow.
  apply List.in_flat_map in Hrow. destruct Hrow as ([art [need per]] & _ & Hrow).
  unfold demand_of in Hrow.
  destruct (negb (Text.nonempty (Text.strip art))); [contradiction|].
  destruct (Qle_bool (inject_Z (py_round need)) Allocation.eps) eqn:E; [contradiction|].
  destruct Hrow as [<-|[]]. cbn [Allocation.NeedQty].
  assert (~ (inject_Z (py_round need) <= Allocation.eps)%Q) as Hn.
  { intros Hle. apply Qle_bool_iff in Hle. congruence. }
  apply Qnot_le_lt in Hn. unfold Allocation.eps in Hn.
  eapply Qlt_trans; [|exact Hn]. reflexivity.
Qed.

(** C10 (amended). When the availability that the loop starts from is
    negative for an article, the first demand row processed for the
    article is allocated that negative availability and is short by at
    least what it needs; every later row of the article starts from zero
    and is allocated zero, and zero is what remains of the article at the
    end.  The demand rows are those the normalizer builds, as in a run,
    and the engine runs the loop from the availability of the snapshot. *)
Theorem negative_availability_first_row (to_datetime : DateCell -> option Z)
  (df_show : list (@ViewLine DateCell)) (remaining : gmap string Q) (a : string)
  (first : @Allocation.AllocRow DateCell) (rest : list (@Allocation.AllocRow DateCell)) :
  let d := Allocation.sort_values to_datetime
             (build_component_demands float_of_str df_show) in
  (Allocation.remaining_get remaining a < 0)%Q ->
  List.filter (fun r => Allocation.references a (Allocation.demand r))
    (fst (Allocation.alloc_loop remaining d))
  = first :: rest ->
  (Allocation.Allocated first == Allocation.remaining_get remaining a)%Q /\
  (Allocation.NeedQty (Allocation.demand first) <= Allocation.Short first)%Q /\
  List.Forall
    (fun r => (Allocation.AvailableStart r == 0)%Q /\ (Allocation.Allocated r == 0)%Q)
    rest /\
  (Allocation.remaining_get (snd (Allocation.alloc_loop remaining d)) a == 0)%Q /\
  (forall stock,
     Allocation.allocate_by_delivery to_datetime
       (build_component_demands float_of_str df_show) stock
     = fst (Allocation.alloc_loop (Allocation.avail_map stock) d)).
Proof.
  intros d Hneg Hrows.
  destruct (AllocationFacts.alloc_loop_negative d a remaining first rest Hneg)
    as (H1 & H2 & H3 & H4); [|exact Hrows|].
  - eapply Permutation_Forall; [apply AllocationFacts.sort_values_perm|].
    eapply List.Forall_impl; [|apply build_component_demands_positive].
    intros row Hrow. now apply Qlt_le_weak.
  - split; [exact H1|]. split; [now apply Qlt_le_weak|]. split; [exact H3|].
    split; [exact H4|]. intros stock. apply AllocationFacts.allocate_by_delivery_loop.
Qed.

End NormalizerFacts.

Lemma negative_availability_witness :
  let d := Allocation.sort_values Allocation.day_cell
             (build_component_demands Text.parse_decimal demo_lines) in
  let remaining := Allocation.avail_map [Allocation.stock_of "A" (-5) 0] in
  let first := Allocation.result_of "4500-1" "A" (Some 1%Z) 10 (-5) (-5) 15 "SHORT" in
  (Allocation.Allocated first == Allocation.remaining_get remaining "A")%Q /\
  (Allocation.NeedQty (Allocation.demand first) <= Allocation.Short first)%Q /\
  List.Forall
    (fun r => (Allocation.AvailableStart r == 0)%Q /\ (Allocation.Allocated r == 0)%Q)
    [Allocation.result_of "4500-2" "A" (Some 2%Z) 4 0 0 4 "SHORT"] /\
  (Allocation.remaining_get (snd (Allocation.alloc_loop remaining d)) "A" == 0)%Q /\
  (forall stock,
     Allocation.allocate_by_delivery Allocation.day_cell
       (build_component_demands Text.parse_decimal demo_lines) stock
     = fst (Allocation.alloc_loop (Allocation.avail_map stock) d)).
Proof.
  intros d remaining first.
  apply (negative_availability_first_row Text.parse_decimal Allocation.day_cell
           demo_lines remaining "A" first
           [Allocation.result_of "4500-2" "A" (Some 2%Z) 4 0 0 4 "SHORT"]).
  - reflexivity.
  - vm_compute. reflexivity.
Defined.

(** C10, as stated, fails on floats.  With 0.3 on hand and 0.1 and 0.2 on
    hold the availability is [-2^-55], which is negative; a row that needs
    1 is allocated that availability, and [1 - (-2^-55)] rounds to 1: the
    row is short by exactly what it needs, not by more. *)
Lemma short_equals_need_on_floats :
  let start := AllocationFloat.avail (AllocationFloat.of_ratio 3 10)
                 (AllocationFloat.of_ratio 1 10) (AllocationFloat.of_ratio 2 10) in
  let need := AllocationFloat.of_Z 1 in
  let r := AllocationFloat.alloc_row start need in
  start = SpecFloat.S754_finite true 4503599627370496 (-107) /\
  SpecFloat.SFltb start (AllocationFloat.of_Z 0) = true /\
  AllocationFloat.Allocated r = start /\
  AllocationFloat.Short r = need /\
  SpecFloat.SFltb need (AllocationFloat.Short r) = false /\
  AllocationFloat.Remaining r = AllocationFloat.of_Z 0.
Proof. vm_compute. repeat split. Qed.

End DemandsFacts.

(** ** More on the allocation engine *)

Module AllocationMore.
Import StableSort StableSortFacts Allocation AllocationFacts AllocationSums.

(** Two sorted lists with the same elements are equal when no two
    elements tie. *)
Lemma sorted_perm_eq {A : Type} (leb : A -> A -> bool) (l1 : list A) :
  forall l2,
    StronglySorted (fun a b => leb a b = true) l1 ->
    StronglySorted (fun a b => leb a b = true) l2 ->
    Permutation l1 l2 ->
    (forall x y, In x l1 -> In y l1 -> leb x y = true -> leb y x = true -> x = y) ->
    l1 = l2.
Proof.
  induction l1 as [|x l1 IH]; intros l2 H1 H2 Hp Hanti.
  - apply Permutation_nil in Hp. now subst.
  - destruct l2 as [|y l2].
    + apply Permutation_sym, Permutation_nil in Hp. discriminate.
    + inversion H1 as [|? ? Hs1 Hx]; subst. inversion H2 as [|? ? Hs2 Hy]; subst.
      assert (x = y) as ->.
      { assert (In y (x :: l1)) as Hyin.
        { eapply Permutation_in; [apply Permutation_sym; exact Hp|now left]. }
        assert (In x (y :: l2)) as Hxin.
        { eapply Permutation_in; [exact Hp|now left]. }
        destruct Hyin as [->|Hyin]; [reflexivity|].
        destruct Hxin as [->|Hxin]; [reflexivity|].
        rewrite List.Forall_forall in Hx, Hy.
        apply Hanti; [now left|now right|auto|auto]. }
      f_equal. apply IH; auto.
      * eapply Permutation_cons_inv; exact Hp.
      * intros a b Ha Hb. apply Hanti; now right.
Qed.

Section EngineMore.
Context {DateCell : Type} (to_datetime : DateCell -> option Z).

Abbreviation Demand := (@Demand DateCell).
Abbreviation AllocRow := (@AllocRow DateCell).

Lemma alloc_loop_app (l1 l2 : list Demand) : forall remaining,
  alloc_loop remaining (l1 ++ l2) =
  ((fst (alloc_loop remaining l1)
    ++ fst (alloc_loop (snd (alloc_loop remaining l1)) l2))%list,
   snd (alloc_loop (snd (alloc_loop remaining l1)) l2)).
Proof.
  induction l1 as [|row l1 IH]; intros remaining.
  - simpl. now destruct (alloc_loop remaining l2).
  - rewrite <- List.app_comm_cons, !alloc_loop_cons. cbn [fst snd].
    rewrite IH. reflexivity.
Qed.

Lemma alloc_loop_length (d : list Demand) : forall remaining,
  length (fst (alloc_loop remaining d)) = length d.
Proof.
  intros remaining. rewrite <- (alloc_loop_demand d remaining) at 2.
  now rewrite List.length_map.
Qed.

Lemma remaining_loop_untouched (d : list Demand) a : forall remaining,
  List.existsb (references a) d = false ->
  remaining_get (snd (alloc_loop remaining d)) a = remaining_get remaining a.
Proof.
  induction d as [|row rest IH]; intros remaining H; [reflexivity|].
  simpl in H. apply orb_false_iff in H. destruct H as [Hrow Hrest].
  rewrite alloc_loop_cons. cbn [snd]. rewrite IH by assumption.
  now rewrite remaining_get_step, Hrow.
Qed.

(** X1. What the rows of an article are allocated in total is exactly
    what leaves the pool of the article, and the pool of an article that
    no row references is left as it was. *)
Theorem allocation_draws_down (demands : list Demand) (stock : list StockRow) (a : string) :
  let final := snd (alloc_loop (avail_map stock) (sort_values to_datetime demands)) in
  (allocated_to a (allocate_by_delivery to_datetime demands stock)
   == remaining_get (avail_map stock) a - remaining_get final a)%Q /\
  (List.existsb (references a) demands = false ->
   remaining_get final a = remaining_get (avail_map stock) a).
Proof.
  intros final. split.
  - rewrite allocate_by_delivery_loop. apply alloc_loop_drawdown.
  - intros H. apply remaining_loop_untouched.
    destruct (List.existsb (references a) (sort_values to_datetime demands)) eqn:E;
      [|reflexivity].
    apply List.existsb_exists in E. destruct E as (row & Hin & Hrow).
    assert (List.existsb (references a) demands = true); [|congruence].
    apply List.existsb_exists. exists row. split; [|exact Hrow].
    eapply Permutation_in; [apply Permutation_sym, sort_values_perm|exact Hin].
Qed.

(** With one parser for every cell, the result does not depend on the
    order of the input rows when no two of them have the same key. *)
Lemma order_independent_per_cell (demands1 demands2 : list Demand)
  (stock : list StockRow) :
  Permutation demands1 demands2 ->
  (forall r1 r2, In r1 demands1 -> In r2 demands1 ->
     sort_key to_datetime r1 = sort_key to_datetime r2 -> r1 = r2) ->
  allocate_by_delivery to_datetime demands1 stock
  = allocate_by_delivery to_datetime demands2 stock.
Proof.
  intros Hp Hinj. rewrite !allocate_by_delivery_loop. f_equal. f_equal.
  apply (sorted_perm_eq (demand_leb to_datetime)).
  - apply sort_sorted; [apply demand_leb_total|apply demand_leb_trans].
  - apply sort_sorted; [apply demand_leb_total|apply demand_leb_trans].
  - rewrite <- (sort_values_perm to_datetime demands1).
    rewrite <- (sort_values_perm to_datetime demands2). exact Hp.
  - intros x y Hx Hy Hxy Hyx.
    apply Hinj.
    + eapply Permutation_in; [apply Permutation_sym, sort_values_perm|exact Hx].
    + eapply Permutation_in; [apply Permutation_sym, sort_values_perm|exact Hy].
    + apply (leb_of_antisym key_compare key_compare_laws); assumption.
Qed.

Lemma sort_map {A B : Type} (leb : A -> A -> bool) (leb' : B -> B -> bool) (g : A -> B)
      (l : list A) :
  (forall x y, leb' (g x) (g y) = leb x y) ->
  sort leb' (List.map g l) = List.map g (sort leb l).
Proof.
  intros H. induction l as [|x l IH]; [reflexivity|].
  cbn [List.map sort]. rewrite IH. generalize (sort leb l). intros s.
  induction s as [|y s IHs]; [reflexivity|].
  cbn [List.map insert_sorted]. rewrite H. destruct (leb x y); [reflexivity|].
  cbn [List.map]. now rewrite IHs.
Qed.

(** When the column parse reads every cell as one parser of cells does,
    the sort on the column is the sort with that parser. *)
Lemma sort_values_column (to_datetime_col : list DateCell -> list (option Z))
      (demands : list Demand) :
  to_datetime_col (List.map DeliveryDate demands)
  = List.map to_datetime (List.map DeliveryDate demands) ->
  AllocationColumn.sort_values to_datetime_col demands = sort_values to_datetime demands.
Proof.
  intros Hcol. unfold AllocationColumn.sort_values, AllocationColumn.with_sort_column.
  rewrite Hcol.
  assert (Hc : List.combine demands (List.map to_datetime (List.map DeliveryDate demands))
               = List.map (fun r => (r, to_datetime (DeliveryDate r))) demands).
  { clear Hcol. induction demands as [|r d IH]; [reflexivity|].
    cbn [List.map List.combine]. now rewrite IH. }
  rewrite Hc.
  rewrite (sort_map (demand_leb to_datetime) AllocationColumn.column_leb
             (fun r => (r, to_datetime (DeliveryDate r)))) by reflexivity.
  rewrite List.map_map. cbn [fst]. apply List.map_id.
Qed.

(** X2. When the parse of the date column reads each cell of either
    frame as one parser of cells does, as it does for dates written in
    one format, the result does not depend on the order of the input
    rows, as long as no two of them have the same date, PO line and
    article. *)
Theorem allocation_order_independent (to_datetime_col : list DateCell -> list (option Z))
  (demands1 demands2 : list Demand) (stock : list StockRow) :
  Permutation demands1 demands2 ->
  to_datetime_col (List.map DeliveryDate demands1)
  = List.map to_datetime (List.map DeliveryDate demands1) ->
  to_datetime_col (List.map DeliveryDate demands2)
  = List.map to_datetime (List.map DeliveryDate demands2) ->
  (forall r1 r2, In r1 demands1 -> In r2 demands1 ->
     sort_key to_datetime r1 = sort_key to_datetime r2 -> r1 = r2) ->
  AllocationColumn.allocate_by_delivery to_datetime_col demands1 stock
  = AllocationColumn.allocate_by_delivery to_datetime_col demands2 stock.
Proof.
  intros Hp H1 H2 Hinj.
  assert (Hcol : forall d,
            to_datetime_col (List.map DeliveryDate d)
            = List.map to_datetime (List.map DeliveryDate d) ->
            AllocationColumn.allocate_by_delivery to_datetime_col d stock
            = allocate_by_delivery to_datetime d stock).
  { intros d Hd. unfold AllocationColumn.allocate_by_delivery, allocate_by_delivery.
    destruct d as [|r d]; [reflexivity|]. now rewrite (sort_values_column _ _ Hd). }
  rewrite (Hcol _ H1), (Hcol _ H2). now apply order_independent_per_cell.
Qed.

Lemma alloc_step_row (remaining : gmap string Q) (row : Demand) :
  let r := snd (alloc_step remaining row) in
  (Allocated r <= NeedQty (demand r))%Q /\
  (Allocated r <= AvailableStart r)%Q /\
  (Status r = "OK" <-> (NeedQty (demand r) - AvailableStart r <= eps)%Q) /\
  (Status r = "OK" \/ Status r = "SHORT") /\
  Status r = status_of (Short r).
Proof.
  cbn [alloc_step snd Allocated AvailableStart demand Status Short].
  set (s := remaining_get remaining _). set (n := NeedQty row).
  split; [apply Q.le_min_r|]. split; [apply Q.le_min_l|].
  split; [|split; [|reflexivity]].
  - unfold status_of.
    destruct (Qle_bool (Qmax 0 (n - Qmin s n)) eps) eqn:E.
    + split; [intros _|reflexivity]. apply Qle_bool_iff in E.
      revert E. unfold eps. qcases; intros; lra.
    + split; [discriminate|]. intros H. exfalso.
      assert (Qmax 0 (n - Qmin s n) <= eps)%Q as Hle.
      { revert H. unfold eps. qcases; intros; lra. }
      apply Qle_bool_iff in Hle. congruence.
  - unfold status_of. destruct (Qle_bool _ eps); auto.
Qed.

(** X5. No row is allocated more than it needs or more than was left for
    it, and a row is OK exactly when what was left covers its need up to
    the tolerance [1e-9]. *)
Theorem allocation_row_bounds (demands : list Demand) (stock : list StockRow) :
  List.Forall
    (fun r =>
       (Allocated r <= NeedQty (demand r))%Q /\
       (Allocated r <= AvailableStart r)%Q /\
       (Status r = "OK" <-> (NeedQty (demand r) - AvailableStart r <= eps)%Q) /\
       (Status r = "OK" \/ Status r = "SHORT"))
    (allocate_by_delivery to_datetime demands stock).
Proof.
  rewrite allocate_by_delivery_loop.
  generalize (avail_map stock). generalize (sort_values to_datetime demands).
  induction l as [|row rest IH]; intros remaining; [constructor|].
  rewrite alloc_loop_cons. cbn [fst]. constructor; [|apply IH].
  destruct (alloc_step_row remaining row) as (H1 & H2 & H3 & H4 & _). auto.
Qed.

Lemma alloc_loop_status (d : list Demand) : forall remaining,
  List.Forall (fun r => Status r = status_of (Short r)) (fst (alloc_loop remaining d)).
Proof.
  induction d as [|row rest IH]; intros remaining; [constructor|].
  rewrite alloc_loop_cons. cbn [fst]. constructor; [reflexivity|apply IH].
Qed.

(** X3. An article without a row in the stock snapshot counts as out of
    stock: each of its demand rows starts from zero, is allocated zero
    and is short by all it needs, hence SHORT when it needs anything. *)
Theorem missing_stock_is_zero (demands : list Demand) (stock : list StockRow) (a : string) :
  avail_map stock !! a = None ->
  List.Forall (fun row => (0 <= NeedQty row)%Q) demands ->
  List.Forall
    (fun r => (AvailableStart r == 0)%Q /\ (Allocated r == 0)%Q /\
              (Short r == NeedQty (demand r))%Q /\
              ((eps < NeedQty (demand r))%Q -> Status r = "SHORT"))
    (List.filter (fun r => references a (demand r))
       (allocate_by_delivery to_datetime demands stock)).
Proof.
  intros Hnone Hneed. rewrite allocate_by_delivery_loop.
  assert (Hsorted : List.Forall (fun row => (0 <= NeedQty row)%Q)
                      (sort_values to_datetime demands)).
  { eapply Permutation_Forall; [apply sort_values_perm|exact Hneed]. }
  assert (Hz : (remaining_get (avail_map stock) a == 0)%Q).
  { unfold remaining_get. now rewrite Hnone. }
  destruct (alloc_loop_exhausted (sort_values to_datetime demands) a (avail_map stock)
              Hz Hsorted) as [Hex _].
  pose proof (alloc_loop_balance (sort_values to_datetime demands) (avail_map stock)) as Hbal.
  pose proof (alloc_loop_status (sort_values to_datetime demands) (avail_map stock)) as Hst.
  rewrite List.Forall_forall in *. intros r Hr.
  destruct (Hex r Hr) as [H1 H2].
  apply List.filter_In in Hr. destruct Hr as [Hr _].
  destruct (Hbal r Hr) as [H3 _]. specialize (Hst r Hr).
  assert (Short r == NeedQty (demand r))%Q as Hshort by lra.
  repeat split; auto.
  intros Hpos. rewrite Hst. unfold status_of.
  destruct (Qle_bool (Short r) eps) eqn:E; [|reflexivity].
  apply Qle_bool_iff in E. lra.
Qed.

Lemma needed_before_nonneg (a : string) (pre : list Demand) :
  List.Forall (fun row => (0 <= NeedQty row)%Q) pre -> (0 <= needed_before a pre)%Q.
Proof.
  induction 1 as [|row pre Hrow Hpre IH]; simpl; [lra|].
  destruct (references a row); lra.
Qed.

(** With stock and needs that are not negative, what is left of an
    article after some rows is the snapshot less what they needed, or
    nothing. *)
Lemma remaining_after (pre : list Demand) (a : string) : forall remaining,
  (0 <= remaining_get remaining a)%Q ->
  List.Forall (fun row => (0 <= NeedQty row)%Q) pre ->
  (remaining_get (snd (alloc_loop remaining pre)) a
   == Qmax 0 (remaining_get remaining a - needed_before a pre))%Q.
Proof.
  induction pre as [|row pre IH]; intros remaining Hpos Hneed.
  - simpl. revert Hpos. generalize (remaining_get remaining a). intros q Hq.
    qcases; lra.
  - inversion Hneed as [|? ? Hrow Hpre]; subst.
    rewrite alloc_loop_cons. cbn [snd].
    pose proof (needed_before_nonneg a pre Hpre) as Hnb.
    pose proof (remaining_get_step remaining row a) as Hs.
    assert (0 <= remaining_get (fst (alloc_step remaining row)) a)%Q as Hpos'.
    { destruct (references a row) eqn:E; [now apply remaining_step_nonneg|].
      now rewrite Hs. }
    rewrite (IH _ Hpos' Hpre). rewrite Hs. cbn [needed_before fold_right].
    change (fold_right _ 0%Q pre) with (needed_before a pre).
    destruct (references a row) eqn:E.
    + apply references_true in E. cbn [alloc_step snd Allocated]. rewrite E.
      revert Hpos Hnb. generalize (remaining_get remaining a) (needed_before a pre)
        (NeedQty row) Hrow.
      intros s nb n Hn Hs0 Hnb0. qcases; lra.
    + reflexivity.
Qed.

(** X4. With stock and needs that are not negative, a row starts from the
    snapshot availability of its article less what the rows sorted before
    it need of that article, or from nothing when they need more; it is
    short by what that does not cover. *)
Theorem available_start_closed_form (demands : list Demand) (stock : list StockRow)
  (pre : list Demand) (row : Demand) (post : list Demand) :
  sort_values to_datetime demands = (pre ++ row :: post)%list ->
  List.Forall (fun row => (0 <= NeedQty row)%Q) demands ->
  (0 <= remaining_get (avail_map stock) (Text.strip (ComponentArticle row)))%Q ->
  exists r,
    nth_error (allocate_by_delivery to_datetime demands stock) (length pre) = Some r /\
    demand r = row /\
    let start := Qmax 0 (remaining_get (avail_map stock) (Text.strip (ComponentArticle row))
                         - needed_before (Text.strip (ComponentArticle row)) pre) in
    (AvailableStart r == start)%Q /\
    (Allocated r == Qmin start (NeedQty row))%Q /\
    (Short r == Qmax 0 (NeedQty row - start))%Q.
Proof.
  intros Hsort Hneed Hpos.
  assert (Hsorted : List.Forall (fun row => (0 <= NeedQty row)%Q) (pre ++ row :: post)).
  { rewrite <- Hsort. eapply Permutation_Forall; [apply sort_values_perm|exact Hneed]. }
  apply List.Forall_app in Hsorted. destruct Hsorted as [Hpre Hrest].
  inversion Hrest as [|? ? Hrow _]; subst.
  rewrite allocate_by_delivery_loop, Hsort, alloc_loop_app. cbn [fst].
  rewrite alloc_loop_cons. cbn [fst].
  eexists. split.
  - rewrite List.nth_error_app2 by (rewrite alloc_loop_length; lia).
    rewrite alloc_loop_length, Nat.sub_diag. reflexivity.
  - split; [reflexivity|].
    pose proof (remaining_after pre (Text.strip (ComponentArticle row))
                  (avail_map stock) Hpos Hpre) as Hrem.
    cbn [alloc_step snd AvailableStart Allocated Short]. cbv zeta.
    revert Hrem.
    generalize (remaining_get (snd (alloc_loop (avail_map stock) pre))
                  (Text.strip (ComponentArticle row))).
    generalize (Qmax 0 (remaining_get (avail_map stock) (Text.strip (ComponentArticle row))
                        - needed_before (Text.strip (ComponentArticle row)) pre)).
    generalize (NeedQty row) Hrow. intros n Hn start s Hs.
    split; [exact Hs|]. split; qcases; lra.
Qed.

End EngineMore.

Lemma missing_stock_witness :
  List.Forall
    (fun r => (AvailableStart r == 0)%Q /\ (Allocated r == 0)%Q /\
              (Short r == NeedQty (demand r))%Q /\
              ((eps < NeedQty (demand r))%Q -> Status r = "SHORT"))
    (List.filter (fun r => references "B" (demand r))
       (allocate_by_delivery day_cell
          [need_of "line1" "A" (Some 1%Z) 60; need_of "line2" "B" (Some 2%Z) 5]
          [stock_of "A" 100 0])).
Proof.
  apply (missing_stock_is_zero day_cell).
  - reflexivity.
  - repeat constructor; discriminate.
Defined.

Lemma available_start_witness :
  exists r,
    nth_error (allocate_by_delivery day_cell
                 [need_of "line2" "A" (Some 2%Z) 60; need_of "line1" "A" (Some 1%Z) 60]
                 [stock_of "A" 100 0])
      (length [need_of "line1" "A" (Some 1%Z) 60]) = Some r /\
    demand r = need_of "line2" "A" (Some 2%Z) 60 /\
    let start :=
      Qmax 0 (remaining_get (avail_map [stock_of "A" 100 0])
                (Text.strip (ComponentArticle (need_of "line2" "A" (Some 2%Z) 60)))
              - needed_before
                  (Text.strip (ComponentArticle (need_of "line2" "A" (Some 2%Z) 60)))
                  [need_of "line1" "A" (Some 1%Z) 60]) in
    (AvailableStart r == start)%Q /\
    (Allocated r == Qmin start (NeedQty (need_of "line2" "A" (Some 2%Z) 60)))%Q /\
    (Short r == Qmax 0 (NeedQty (need_of "line2" "A" (Some 2%Z) 60) - start))%Q.
Proof.
  apply (available_start_closed_form day_cell
           [need_of "line2" "A" (Some 2%Z) 60; need_of "line1" "A" (Some 1%Z) 60]
           [stock_of "A" 100 0]
           [need_of "line1" "A" (Some 1%Z) 60] (need_of "line2" "A" (Some 2%Z) 60) []).
  - reflexivity.
  - repeat constructor; discriminate.
  - vm_compute. discriminate.
Defined.

Lemma allocation_order_independent_witness :
  AllocationColumn.allocate_by_delivery AllocationColumn.first_format_wins
    [AllocationColumn.dated_need "line1" (AllocationColumn.ISO, 1%Z) 60;
     AllocationColumn.dated_need "line2" (AllocationColumn.ISO, 2%Z) 60]
    [stock_of "A" 100 0]
  = AllocationColumn.allocate_by_delivery AllocationColumn.first_format_wins
      [AllocationColumn.dated_need "line2" (AllocationColumn.ISO, 2%Z) 60;
       AllocationColumn.dated_need "line1" (AllocationColumn.ISO, 1%Z) 60]
      [stock_of "A" 100 0].
Proof.
  apply (allocation_order_independent AllocationColumn.iso_cell
           AllocationColumn.first_format_wins).
  - apply perm_swap.
  - reflexivity.
  - reflexivity.
  - intros r1 r2 [<-|[<-|[]]] [<-|[<-|[]]]; try reflexivity; discriminate.
Defined.

(** With dates written in two formats the parse of a cell depends on the
    first cell of the column, and so does the result: the row served
    first is the row whose date is written as the first cell is. *)
Example order_matters_with_mixed_formats :
  let p1 := AllocationColumn.dated_need "p1" (AllocationColumn.ISO, 2%Z) 60 in
  let p2 := AllocationColumn.dated_need "p2" (AllocationColumn.US, 1%Z) 60 in
  List.map (fun r => (PO_Line (demand r), Allocated r))
    (AllocationColumn.allocate_by_delivery AllocationColumn.first_format_wins
       [p1; p2] [stock_of "A" 100 0])
  = [("p1", 60%Q); ("p2", 40%Q)] /\
  List.map (fun r => (PO_Line (demand r), Allocated r))
    (AllocationColumn.allocate_by_delivery AllocationColumn.first_format_wins
       [p2; p1] [stock_of "A" 100 0])
  = [("p2", 60%Q); ("p1", 40%Q)].
Proof. split; reflexivity. Qed.

End AllocationMore.

(** ** More on flags and overrides *)

Module FlagsMore.
Import Flags FlagsFacts FlagsKeys.

Lemma apply_overrides_map (flag_column : bool) (df : list ViewRow) (overrides : Overrides) :
  apply_component_support_overrides flag_column df overrides =
  List.map (fun r => if mask flag_column (key_map overrides) r
                     then supported_row flag_column r else r) df.
Proof.
  unfold apply_component_support_overrides.
  destruct df as [|r0 df]; [reflexivity|].
  destruct overrides as [|o overrides]; [|reflexivity].
  cbn [key_map fold_left]. unfold mask. cbn [overrides_get andb].
  now rewrite List.map_id.
Qed.

(** X6. Applying the overrides twice gives what applying them once gives:
    a row the override turned green is not purple any more, and every
    other row was not touched. *)
Theorem apply_overrides_idempotent (flag_column : bool) (df : list ViewRow)
  (overrides : Overrides) :
  apply_component_support_overrides flag_column
    (apply_component_support_overrides flag_column df overrides) overrides
  = apply_component_support_overrides flag_column df overrides.
Proof.
  rewrite !apply_overrides_map, List.map_map. apply List.map_ext. intros r.
  destruct (mask flag_column (key_map overrides) r) eqn:E; [|now rewrite E].
  unfold mask in *. cbn [supported_row PO_Line Flag].
  apply andb_true_iff in E. destruct E as [Ho Hf]. rewrite Ho.
  destruct flag_column; [reflexivity|].
  cbn [andb]. reflexivity.
Qed.

Section ViewMore.
Context {DateCell : Type}.
Context (_detail_with_incoming : list (@Allocation.AllocRow DateCell) -> string).

Abbreviation AllocRow := (@Allocation.AllocRow DateCell).

Lemma group_In (alloc : list AllocRow) (po : string) (r : AllocRow) :
  In r (group alloc po) <->
  In r alloc /\ Allocation.PO_Line (Allocation.demand r) = po.
Proof.
  unfold group. rewrite List.filter_In. now rewrite String.eqb_eq.
Qed.

Lemma group_nil (alloc : list AllocRow) (po : string) :
  group alloc po = [] ->
  forall r, In r alloc -> Allocation.PO_Line (Allocation.demand r) <> po.
Proof.
  intros Hg r Hin Hpo.
  assert (In r (group alloc po)) as H by (apply group_In; auto).
  rewrite Hg in H. exact H.
Qed.

Lemma low_avail_pos_false (alloc : list AllocRow) (key : string) :
  low_avail_pos alloc key = false <->
  forall r, In r alloc -> Allocation.PO_Line (Allocation.demand r) = key ->
            (100 <= Allocation.AvailableStart r)%Q.
Proof.
  unfold low_avail_pos. split.
  - intros H r Hin Hpo.
    destruct (Qle_bool 100 (Allocation.AvailableStart r)) eqn:E;
      [now apply Qle_bool_iff|].
    assert (List.existsb
              (fun r => negb (Qle_bool 100 (Allocation.AvailableStart r)) &&
                        String.eqb (Allocation.PO_Line (Allocation.demand r)) key)
              alloc = true); [|congruence].
    apply List.existsb_exists. exists r. split; [exact Hin|].
    rewrite E. simpl. now apply String.eqb_eq.
  - intros H.
    destruct (List.existsb _ alloc) eqn:E; [|reflexivity].
    apply List.existsb_exists in E. destruct E as (r & Hin & Hr).
    apply andb_true_iff in Hr. destruct Hr as [Hlow Hpo].
    apply String.eqb_eq in Hpo. specialize (H r Hin Hpo).
    apply Qle_bool_iff in H. rewrite H in Hlow. discriminate.
Qed.

(** X7. A PO line that no demand row belongs to is left without status,
    detail and flag. *)
Theorem line_without_demand_unflagged (alloc : list AllocRow) (po : string)
  (has_components : bool) :
  group alloc po = [] -> group alloc (Text.strip po) = [] ->
  view_row _detail_with_incoming alloc po has_components
  = {| PO_Line := po; HasComponents := has_components; Status := "";
       Short_Detail := ""; Flag := "" |}.
Proof.
  intros Hpo Hkey. unfold view_row.
  assert (Hshort : short_by_po alloc po = None) by (unfold short_by_po; now rewrite Hpo).
  assert (Hdetail : detail _detail_with_incoming alloc po = None).
  { unfold detail.
    assert (group (List.filter is_short alloc) po = []) as ->; [|reflexivity].
    destruct (group (List.filter is_short alloc) po) as [|r g] eqn:E; [reflexivity|].
    exfalso. assert (In r (group (List.filter is_short alloc) po)) as Hin
      by (rewrite E; now left).
    apply group_In in Hin. destruct Hin as [Hin Hr].
    apply List.filter_In in Hin. destruct Hin as [Hin _].
    exact (group_nil alloc po Hpo r Hin Hr). }
  rewrite Hshort, Hdetail. cbn [or_empty String.eqb andb Status Short_Detail].
  assert (Hflag : forall st, st = "" ->
            _flag_for_row alloc {| PO_Line := po; HasComponents := has_components;
                                   Status := st; Short_Detail := st; Flag := "" |} = "").
  { intros st ->. unfold _flag_for_row. cbn [PO_Line Status].
    unfold small_short_pos, short_by_po_qty. rewrite Hkey.
    assert (low_avail_pos alloc (Text.strip po) = false) as ->.
    { apply low_avail_pos_false. intros r Hin Hr.
      exfalso. exact (group_nil alloc _ Hkey r Hin Hr). }
    reflexivity. }
  destruct has_components; cbn [Status Short_Detail]; f_equal; now apply Hflag.
Qed.

(** X8. A green flag on a line (with a stripped key) means that the line
    has components and demand rows, that none of its rows is SHORT, that
    each of them started from at least 100, and that the line reads OK
    and "Component Supported". *)
Theorem green_means_covered (alloc : list AllocRow) (po : string) (has_components : bool) :
  Text.strip po = po ->
  Flag (view_row _detail_with_incoming alloc po has_components) = green ->
  has_components = true /\
  group alloc po <> [] /\
  List.Forall
    (fun r => Allocation.Status r <> "SHORT" /\ (100 <= Allocation.AvailableStart r)%Q)
    (group alloc po) /\
  Status (view_row _detail_with_incoming alloc po has_components) = "OK" /\
  Short_Detail (view_row _detail_with_incoming alloc po has_components)
  = "Component Supported".
Proof.
  intros Hstrip. unfold view_row. cbn [Flag Status Short_Detail].
  unfold _flag_for_row. cbn [PO_Line Status]. rewrite Hstrip.
  destruct (small_short_pos alloc po); [discriminate|].
  destruct has_components; cbn [String.eqb];
    [|destruct (low_avail_pos alloc po); discriminate].
  unfold short_by_po, supported_pos.
  destruct (group alloc po) as [|r0 g] eqn:Eg.
  { cbn [or_empty String.eqb]. destruct (low_avail_pos alloc po); discriminate. }
  destruct (List.existsb is_short (r0 :: g)) eqn:Es; cbn [or_empty].
  { cbn. discriminate. }
  change (String.eqb "OK" "SHORT") with false. cbv iota.
  destruct (low_avail_pos alloc po) eqn:El; [discriminate|].
  intros _. split; [reflexivity|]. split; [discriminate|].
  split; [|split; reflexivity].
  rewrite <- Eg. apply List.Forall_forall. intros r Hr.
  pose proof Hr as Hr'. apply group_In in Hr'. destruct Hr' as [Hin Hpo].
  split.
  - intros Hshort.
    assert (List.existsb is_short (r0 :: g) = true); [|congruence].
    apply List.existsb_exists. exists r. split; [now rewrite <- Eg|].
    unfold is_short. now apply String.eqb_eq.
  - rewrite low_avail_pos_false in El. now apply El.
Qed.

End ViewMore.

Lemma overrides_set_keys (k : string) (v : bool) (o : Overrides) :
  List.map fst (overrides_set k v o) =
  if List.existsb (String.eqb k) (List.map fst o)
  then List.map fst o else (List.map fst o ++ [k])%list.
Proof.
  induction o as [|[k' v'] o IH]; simpl; [reflexivity|].
  rewrite (String.eqb_sym k k').
  destruct (String.eqb_spec k' k) as [->|Hne]; simpl; [reflexivity|].
  rewrite IH. destruct (List.existsb _ _); reflexivity.
Qed.

Lemma overrides_set_clean (k : string) (v : bool) (o : Overrides) :
  Text.strip k = k -> clean_keys o -> clean_keys (overrides_set k v o).
Proof.
  intros Hk [Hnd Hst]. split.
  - rewrite overrides_set_keys.
    destruct (List.existsb (String.eqb k) (List.map fst o)) eqn:E; [exact Hnd|].
    apply List.NoDup_app; [exact Hnd|repeat constructor; simpl; tauto|].
    intros x Hx [Hxk|[]]. subst x.
    assert (List.existsb (String.eqb k) (List.map fst o) = true); [|congruence].
    apply List.existsb_exists. exists k. split; [exact Hx|apply String.eqb_refl].
  - induction o as [|[k' v'] o IH]; simpl.
    + constructor; [exact Hk|constructor].
    + inversion Hst as [|? ? Hk' Hrest]; subst. inversion Hnd; subst.
      destruct (String.eqb k' k); constructor; auto.
Qed.

Lemma key_map_fold_get (o : Overrides) : forall acc k,
  clean_keys o ->
  overrides_get k
    (fold_left (fun m kv => overrides_set (Text.strip (fst kv)) (snd kv) m) o acc)
  = if List.existsb (String.eqb k) (List.map fst o)
    then overrides_get k o else overrides_get k acc.
Proof.
  induction o as [|[k0 v0] o IH]; intros acc k [Hnd Hst]; [reflexivity|].
  inversion Hnd as [|? ? Hnotin Hnd']; subst.
  inversion Hst as [|? ? Hk0 Hst']; subst. cbn [fst snd] in *.
  cbn [fold_left fst snd List.map List.existsb overrides_get].
  rewrite IH by (split; assumption). rewrite Hk0.
  rewrite (String.eqb_sym k k0).
  destruct (String.eqb_spec k0 k) as [->|Hne]; cbn [orb].
  - assert (List.existsb (String.eqb k) (List.map fst o) = false) as ->.
    { destruct (List.existsb _ _) eqn:E; [|reflexivity].
      apply List.existsb_exists in E. destruct E as (x & Hx & Hxk).
      apply String.eqb_eq in Hxk. subst x. contradiction. }
    apply overrides_get_set_eq.
  - destruct (List.existsb (String.eqb k) (List.map fst o)); [reflexivity|].
    apply overrides_get_set_ne. congruence.
Qed.

Lemma key_map_get (o : Overrides) (k : string) :
  clean_keys o -> overrides_get k (key_map o) = overrides_get k o.
Proof.
  intros Hc. unfold key_map. rewrite key_map_fold_get by assumption.
  destruct (List.existsb (String.eqb k) (List.map fst o)) eqn:E; [reflexivity|].
  simpl. induction o as [|[k0 v0] o IH]; [reflexivity|].
  simpl in E |- *. rewrite (String.eqb_sym k k0) in E.
  apply orb_false_iff in E. destruct E as [E1 E2]. rewrite E1.
  destruct Hc as [Hnd Hst]. inversion Hnd; inversion Hst; subst.
  apply IH; [split; assumption|exact E2].
Qed.

(** X9. The dict a load builds from any stored object has distinct,
    stripped keys. *)
Theorem key_map_clean (o : Overrides) : clean_keys (key_map o).
Proof.
  unfold key_map.
  assert (forall acc, clean_keys acc ->
            clean_keys (fold_left
                          (fun m kv => overrides_set (Text.strip (fst kv)) (snd kv) m)
                          o acc)) as H.
  { induction o as [|kv o IH]; intros acc Hacc; simpl; [exact Hacc|].
    apply IH. apply overrides_set_clean; [apply TextFacts.strip_idem|exact Hacc]. }
  apply H. split; constructor.
Qed.

Lemma selected_row_map (f : ViewRow -> ViewRow) (df : list ViewRow) (po : string) :
  (forall r, PO_Line (f r) = PO_Line r) ->
  selected_row (List.map f df) po = option_map f (selected_row df po).
Proof.
  intros Hf. unfold selected_row.
  induction df as [|r df IH]; simpl; [reflexivity|].
  rewrite Hf. destruct (String.eqb (PO_Line r) po); [reflexivity|exact IH].
Qed.

Lemma selected_row_key (df : list ViewRow) (po : string) (row : ViewRow) :
  selected_row df po = Some row -> PO_Line row = po.
Proof.
  unfold selected_row. intros H. apply List.find_some in H.
  now apply String.eqb_eq.
Qed.

(** X10. Ticking "Component Supported" on the details page of a purple
    line stores the override under the stripped key and saves it; the
    view computed from the new overrides then shows that line green, OK
    and "Component Supported". *)
Theorem ticked_override_takes_effect (df_show : list ViewRow) (selected : string)
  (s : Session) (row : ViewRow) :
  Text.nonempty (Text.strip selected) = true ->
  selected_row df_show (Text.strip selected) = Some row ->
  Text.strip (Flag row) = purple ->
  clean_keys (support_overrides s) ->
  overrides_get (Text.strip selected) (support_overrides s) = false ->
  let s' := render_details_page df_show selected true s in
  overrides_get (Text.strip selected) (support_overrides s') = true /\
  support_file s' = support_overrides s' /\
  clean_keys (support_overrides s') /\
  selected_row (apply_component_support_overrides true df_show (support_overrides s'))
    (Text.strip selected)
  = Some {| PO_Line := PO_Line row; HasComponents := HasComponents row;
            Status := "OK"; Short_Detail := "Component Supported"; Flag := green |}.
Proof.
  intros Hne Hrow Hflag Hclean Hoff. unfold render_details_page.
  rewrite Hne, Hrow. cbn [negb]. rewrite TextFacts.strip_idem, Hoff, Hflag.
  rewrite String.eqb_refl. cbn [andb negb Bool.eqb]. cbv zeta.
  cbn [save_component_support support_overrides support_file].
  set (o' := overrides_set (Text.strip selected) true (support_overrides s)).
  assert (Hclean' : clean_keys o').
  { apply overrides_set_clean; [apply TextFacts.strip_idem|exact Hclean]. }
  split; [apply overrides_get_set_eq|]. split; [reflexivity|]. split; [exact Hclean'|].
  rewrite apply_overrides_map, selected_row_map by (intros r; destruct (mask _ _ r); reflexivity).
  rewrite Hrow. cbn [option_map]. unfold mask, supported_row.
  rewrite (selected_row_key _ _ _ Hrow), TextFacts.strip_idem.
  rewrite key_map_get by exact Hclean'.
  unfold o'. rewrite overrides_get_set_eq, Hflag, String.eqb_refl. reflexivity.
Qed.

(** X11. The details page changes the override of no other line; it
    changes nothing at all when no line is selected or the selected line
    is not in the view; and what it changes it saves. *)
Theorem details_page_touches_selected_only (df_show : list ViewRow) (selected : string)
  (override_val : bool) (s : Session) :
  let s' := render_details_page df_show selected override_val s in
  (forall k, k <> Text.strip selected ->
     overrides_get k (support_overrides s') = overrides_get k (support_overrides s)) /\
  (Text.strip selected = "" \/ selected_row df_show (Text.strip selected) = None -> s' = s) /\
  (s' = s \/ support_file s' = support_overrides s').
Proof.
  unfold render_details_page.
  destruct (Text.nonempty (Text.strip selected)) eqn:Hne; cbn [negb].
  2:{ repeat split; auto. }
  destruct (selected_row df_show (Text.strip selected)) as [row|] eqn:Hrow.
  2:{ repeat split; auto. }
  rewrite TextFacts.strip_idem.
  assert (Hsel : Text.strip selected <> "") by (now apply IngestFacts.nonempty_true).
  destruct (overrides_get (Text.strip selected) (support_overrides s)),
    (String.eqb (Text.strip (Flag row)) purple), override_val;
    cbn [andb negb Bool.eqb]; cbv zeta;
    cbn [save_component_support support_overrides support_file];
    (split; [intros k Hk; try reflexivity; now apply overrides_get_set_ne|]);
    (split; [intros [H|H]; [contradiction|discriminate]|]); auto.
Qed.

Lemma line_without_demand_witness :
  view_row demo_detail demo_alloc "4500-2" true
  = {| PO_Line := "4500-2"; HasComponents := true; Status := "";
       Short_Detail := ""; Flag := "" |}.
Proof.
  apply (line_without_demand_unflagged demo_detail demo_alloc "4500-2" true);
    reflexivity.
Defined.

Lemma green_means_covered_witness :
  let alloc :=
    Allocation.allocate_by_delivery Allocation.day_cell
      [Allocation.need_of "4500-1" "A" (Some 1%Z) 200]
      [Allocation.stock_of "A" 500 0] in
  true = true /\
  group alloc "4500-1" <> [] /\
  List.Forall
    (fun r => Allocation.Status r <> "SHORT" /\ (100 <= Allocation.AvailableStart r)%Q)
    (group alloc "4500-1") /\
  Status (view_row demo_detail alloc "4500-1" true) = "OK" /\
  Short_Detail (view_row demo_detail alloc "4500-1" true) = "Component Supported".
Proof.
  intros alloc.
  apply (green_means_covered demo_detail alloc "4500-1" true); reflexivity.
Defined.

Lemma ticked_override_witness :
  let df := [{| PO_Line := "4500-1"; HasComponents := true; Status := "OK";
                Short_Detail := ""; Flag := purple |}] in
  let s := {| support_overrides := []; support_file := [] |} in
  let s' := render_details_page df "4500-1" true s in
  overrides_get (Text.strip "4500-1") (support_overrides s') = true /\
  support_file s' = support_overrides s' /\
  clean_keys (support_overrides s') /\
  selected_row (apply_component_support_overrides true df (support_overrides s'))
    (Text.strip "4500-1")
  = Some {| PO_Line := "4500-1"; HasComponents := true;
            Status := "OK"; Short_Detail := "Component Supported"; Flag := green |}.
Proof.
  intros df s.
  apply (ticked_override_takes_effect df "4500-1" s
           {| PO_Line := "4500-1"; HasComponents := true; Status := "OK";
              Short_Detail := ""; Flag := purple |}).
  - reflexivity.
  - reflexivity.
  - reflexivity.
  - split; constructor.
  - reflexivity.
Defined.

End FlagsMore.

(** ** More on the text helpers *)

Module TextMore.
Import Text.

Lemma string_list_id (l : list ascii) :
  list_ascii_of_string (string_of_list_ascii l) = l.
Proof. apply list_ascii_of_string_of_list_ascii. Qed.

Lemma digit_not_space (a : ascii) : is_digit a = true -> is_space a = false.
Proof.
  unfold is_digit, is_space. cbv zeta.
  rewrite andb_true_iff, !Nat.leb_le. intros [H1 H2].
  apply orb_false_iff. split; apply andb_false_iff.
  - right. apply Nat.leb_gt. lia.
  - right. apply Nat.leb_gt. lia.
Qed.

Lemma drop_while_none {A} (p : A -> bool) (l : list A) :
  match l with [] => True | x :: _ => p x = false end -> drop_while p l = l.
Proof. destruct l as [|x l]; simpl; [reflexivity|]. now intros ->. Qed.

Lemma filter_drop_while {A} (p q : A -> bool) (l : list A) :
  (forall a, p a = true -> q a = false) ->
  List.filter q (drop_while p l) = List.filter q l.
Proof.
  intros H. induction l as [|x l IH]; simpl; [reflexivity|].
  destruct (p x) eqn:E; [|reflexivity]. now rewrite (H x E).
Qed.

Lemma space_not_digit (a : ascii) : is_space a = true -> is_digit a = false.
Proof.
  intros H. destruct (is_digit a) eqn:E; [|reflexivity].
  apply digit_not_space in E. congruence.
Qed.

Lemma digits_only_strip (s : string) : digits_only (strip s) = digits_only s.
Proof.
  unfold digits_only, strip, lstrip, rstrip. rewrite string_list_id.
  rewrite (filter_drop_while _ _ _ space_not_digit).
  rewrite List.filter_rev, (filter_drop_while _ _ _ space_not_digit).
  now rewrite List.filter_rev, List.rev_involutive.
Qed.

(** A text whose first and last characters are not blank is its own
    strip. *)
Lemma strip_all (l : list ascii) :
  List.forallb (fun a => negb (is_space a)) l = true ->
  strip (string_of_list_ascii l) = string_of_list_ascii l.
Proof.
  intros H. unfold strip, lstrip, rstrip. rewrite string_list_id.
  assert (Hall : forall l', List.forallb (fun a => negb (is_space a)) l' = true ->
                            drop_while is_space l' = l').
  { intros l' Hl'. apply drop_while_none. destruct l' as [|x l']; [exact I|].
    simpl in Hl'. apply andb_true_iff in Hl'. destruct Hl' as [Hx _].
    now apply negb_true_iff. }
  rewrite (Hall (rev l)).
  - now rewrite List.rev_involutive, (Hall l H).
  - apply List.forallb_forall. intros a Ha. apply List.in_rev in Ha.
    rewrite List.forallb_forall in H. now apply H.
Qed.

Lemma digits_all_digit (s : string) :
  List.forallb is_digit (list_ascii_of_string (digits_only s)) = true.
Proof. unfold digits_only. rewrite string_list_id. apply List.forallb_filter. Qed.

Lemma all_digit_no_space (l : list ascii) :
  List.forallb is_digit l = true ->
  List.forallb (fun a => negb (is_space a)) l = true.
Proof.
  rewrite !List.forallb_forall. intros H a Ha.
  apply negb_true_iff, digit_not_space. now apply H.
Qed.

Lemma all_digit_fixed (l : list ascii) :
  List.forallb is_digit l = true ->
  strip (string_of_list_ascii l) = string_of_list_ascii l /\
  digits_only (string_of_list_ascii l) = string_of_list_ascii l.
Proof.
  intros H. split.
  - apply strip_all. now apply all_digit_no_space.
  - unfold digits_only. rewrite string_list_id. f_equal.
    now apply List.forallb_filter_id.
Qed.

Lemma digits_fixed (s : string) :
  strip (digits_only s) = digits_only s /\
  digits_only (digits_only s) = digits_only s.
Proof.
  change (digits_only s)
    with (string_of_list_ascii (List.filter is_digit (list_ascii_of_string s))).
  apply all_digit_fixed, List.forallb_filter.
Qed.

Lemma nonempty_of_list (l : list ascii) :
  nonempty (string_of_list_ascii l) = match l with [] => false | _ => true end.
Proof. destruct l; reflexivity. Qed.

End TextMore.

(** ** More on the tabular PO ingestor *)

Module IngestMore.
Import Cells Ingest IngestFacts IngestOrder TextMore.

Lemma str_int_digits (d : string) :
  List.forallb Text.is_digit (list_ascii_of_string d) = true ->
  exists l, str_int d = string_of_list_ascii l /\ l <> [] /\
            List.forallb Text.is_digit l = true /\
            (l = list_ascii_of_string "0" \/
             match l with [] => True | x :: _ => is_zero x = false end).
Proof.
  intros H. unfold str_int.
  pose proof (TextFacts.drop_while_head is_zero (list_ascii_of_string d)) as Hh.
  assert (Hsub : List.forallb Text.is_digit
                   (Text.drop_while is_zero (list_ascii_of_string d)) = true).
  { revert H. generalize (list_ascii_of_string d). intros l.
    induction l as [|x l IH]; simpl; [reflexivity|].
    intros Hl. apply andb_true_iff in Hl. destruct Hl as [Hx Hl].
    destruct (is_zero x); [now apply IH|]. simpl. now rewrite Hx, Hl. }
  destruct (Text.drop_while is_zero (list_ascii_of_string d)) as [|x l].
  - exists (list_ascii_of_string "0"). repeat split; auto; discriminate.
  - exists (x :: l). repeat split; auto; discriminate.
Qed.

Lemma str_int_fixed (l : list ascii) :
  l = list_ascii_of_string "0" \/ match l with [] => True | x :: _ => is_zero x = false end ->
  l <> [] ->
  str_int (string_of_list_ascii l) = string_of_list_ascii l.
Proof.
  intros [->|Hh] Hne; [reflexivity|].
  unfold str_int. rewrite string_list_id.
  rewrite (drop_while_none _ _ Hh). destruct l; [contradiction|reflexivity].
Qed.

(** X12. The two key normalizers give normal forms: normalizing an order
    number, or a line number, a second time changes nothing. *)
Theorem norm_idempotent (v : string) :
  norm_po (norm_po v) = norm_po v /\ norm_line (norm_line v) = norm_line v.
Proof.
  split.
  - unfold norm_po at 2.
    destruct (Text.nonempty (Text.digits_only (Text.strip v))) eqn:E.
    + unfold norm_po.
      destruct (digits_fixed (Text.strip v)) as [H1 H2]. rewrite H1, H2, E. reflexivity.
    + unfold norm_po. rewrite TextFacts.strip_idem, E. reflexivity.
  - destruct (Text.nonempty (Text.digits_only (Text.strip v))) eqn:E.
    + assert (Hv : norm_line v = str_int (Text.digits_only (Text.strip v)))
        by (unfold norm_line; now rewrite E).
      rewrite Hv.
      destruct (str_int_digits _ (digits_all_digit (Text.strip v)))
        as (l & Hl & Hne & Hall & Hzero).
      rewrite Hl. unfold norm_line.
      destruct (all_digit_fixed l Hall) as [H1 H2]. rewrite H1, H2.
      rewrite nonempty_of_list. destruct l as [|x l]; [contradiction|].
      now apply str_int_fixed.
    + assert (Hv : norm_line v = Text.strip v) by (unfold norm_line; now rewrite E).
      rewrite Hv. unfold norm_line. rewrite TextFacts.strip_idem, E. reflexivity.
Qed.

(** X13. Leading zeros do not matter to a line number that holds a digit:
    the header "00010" of a document and the cell "10" of a sheet get the
    same key. *)
Theorem norm_line_leading_zero (v : string) :
  Text.nonempty (Text.digits_only v) = true ->
  norm_line (String "0" v) = norm_line v.
Proof.
  intros H. unfold norm_line. rewrite !digits_only_strip, H.
  assert (Text.digits_only (String "0" v) = String "0" (Text.digits_only v)) as ->
    by reflexivity.
  reflexivity.
Qed.

Lemma norm_line_leading_zero_witness : norm_line (String "0" "0010") = norm_line "0010".
Proof. apply norm_line_leading_zero. reflexivity. Defined.





Section CombineMore.
Context (float_of_str : string -> option Q).

Lemma read_files_spec (files : list File) :
  read_files float_of_str files =
  (List.map (frame_of float_of_str) (keep_some usable files), keep_some skip_reason files).
Proof.
  induction files as [|f files IH]; simpl; [reflexivity|]. rewrite IH.
  unfold usable, skip_reason. destruct (content f) as [sh|]; [|reflexivity].
  destruct (ncols sh <=? need)%nat; reflexivity.
Qed.



(** X15. The ingestor fails exactly when no file can be read with enough
    columns; when it succeeds it reports every other file, in order, with
    the reason it was skipped. *)
Theorem ingest_fails_iff (files : list File) :
  (combine_excels float_of_str files = inl NoValidExcelFiles <->
   forall f, In f files -> usable f = None) /\
  (forall merged skipped,
     combine_excels float_of_str files = inr (merged, skipped) ->
     skipped = keep_some skip_reason files).
Proof.
  unfold combine_excels. rewrite read_files_spec. split.
  - split.
    + intros H f Hf.
      destruct (keep_some usable files) as [|sh shs] eqn:E; [|discriminate].
      clear H. induction files as [|f0 files IH]; [contradiction|].
      simpl in E. destruct (usable f0) eqn:Eu; [discriminate|].
      destruct Hf as [<-|Hf]; auto.
    + intros H.
      assert (keep_some usable files = []) as ->; [|reflexivity].
      induction files as [|f0 files IH]; [reflexivity|]. simpl.
      rewrite (H f0 (or_introl eq_refl)). apply IH. intros f Hf. apply H. now right.
  - intros merged skipped.
    destruct (List.map _ (keep_some usable files)); [discriminate|]. now intros [= _ <-].
Qed.

(** X16. A buy quantity of zero gives a quantity of zero, not an error;
    any other buy quantity gives quantity-in-eaches over buy quantity,
    times open quantity. *)
Theorem qty_pcs_division (r : SrcRow) :
  let buy_qty := _to_float float_of_str (col_M_BUY_QTY r) 0 in
  let qty_ea := _to_float float_of_str (col_O_QTY_EA r) 0 in
  let open_qty := _to_float float_of_str (col_S_OPEN_QTY r) 0 in
  ((buy_qty == 0)%Q -> (QtyEA (make_out float_of_str r) == 0)%Q) /\
  (~ (buy_qty == 0)%Q ->
   (QtyEA (make_out float_of_str r) == qty_ea / buy_qty * open_qty)%Q).
Proof.
  cbn [make_out QtyEA]. unfold qty_pcs_of, open_qty_of. cbv zeta.
  destruct (Qeq_bool (_to_float float_of_str (col_M_BUY_QTY r) 0) 0) eqn:E.
  - apply Qeq_bool_iff in E. split; [intros _|contradiction].
    unfold Qdiv. rewrite Qmult_0_l. apply Qmult_0_l.
  - split; [|reflexivity]. intros H. apply Qeq_bool_iff in H. congruence.
Qed.

End CombineMore.


End IngestMore.

(** ** More on the change detector *)

Module ChangesMore.
Import Cells Changes ChangesView StableSort StableSortFacts.

Lemma Z_compare_laws : compare_laws Z.compare.
Proof.
  split; [|split].
  - intros x y. apply Z.compare_eq_iff.
  - intros x y. apply Z.compare_antisym.
  - intros x y z. rewrite !Z.compare_lt_iff. lia.
Qed.

Lemma record_key_laws :
  compare_laws (lex_compare Z.compare (lex_compare String.compare String.compare)).
Proof.
  apply lex_compare_laws; [apply Z_compare_laws|].
  apply lex_compare_laws; apply string_compare_laws.
Qed.

Lemma record_leb_total (a b : ChangeRecord) :
  record_leb a b = false -> record_leb b a = true.
Proof. apply (leb_of_total _ record_key_laws). Qed.

Lemma record_leb_trans (a b c : ChangeRecord) :
  record_leb a b = true -> record_leb b c = true -> record_leb a c = true.
Proof. apply (leb_of_trans _ record_key_laws). Qed.

(** The frame [out]: the old entries and the new ones, in the order of
    run time, PO line and field. *)
Lemma out_frame (existing df_new : list ChangeRecord) :
  Permutation (existing ++ df_new) (sort record_leb (existing ++ df_new)) /\
  StronglySorted (fun a b => record_leb a b = true) (sort record_leb (existing ++ df_new)).
Proof.
  split; [apply sort_perm|].
  apply sort_sorted; [apply record_leb_total|apply record_leb_trans].
Qed.

(** X18. When the parquet file can be written and read, appending loses
    and invents nothing: the history read back holds the entries read
    before and the new ones, each as often as before, and after a
    non-empty log it is in the order of run time, PO line and field.  When
    the parquet file cannot be written and does not exist, the new entries
    go to the pickle file, without what that file held, and the history
    read back is empty.  An empty log changes no file. *)
Theorem history_is_append_only (env : ChangesDisk.Env) (disk : ChangesDisk.Disk)
  (df_new : list ChangeRecord) :
  let before := ChangesDisk.load_change_history env disk in
  let disk' := ChangesDisk.append_change_history env disk df_new in
  let after := ChangesDisk.load_change_history env disk' in
  (ChangesDisk.parquet_writes env = true -> ChangesDisk.parquet_reads env = true ->
   Permutation (before ++ df_new) after /\
   (df_new <> [] -> StronglySorted (fun a b => record_leb a b = true) after)) /\
  (df_new <> [] -> ChangesDisk.parquet_writes env = false ->
   ChangesDisk.parquet_file disk = None ->
   after = [] /\
   (ChangesDisk.pickle_writes env = true ->
    ChangesDisk.pickle_file disk' = Some (sort record_leb df_new))) /\
  (df_new = [] -> disk' = disk).
Proof.
  intros before disk' after. subst before disk' after.
  destruct df_new as [|r df_new].
  - cbn [ChangesDisk.append_change_history]. rewrite List.app_nil_r.
    split; [intros _ _; split; [reflexivity|congruence]|].
    split; [congruence|reflexivity].
  - unfold ChangesDisk.append_change_history.
    destruct (out_frame (ChangesDisk.load_change_history env disk) (r :: df_new))
      as [Hperm Hsorted].
    split; [|split; [|discriminate]].
    + intros Hw Hr. rewrite Hw. cbv zeta.
      set (out := sort record_leb
                    (ChangesDisk.load_change_history env disk ++ r :: df_new)) in *.
      assert (Hafter : ChangesDisk.load_change_history env
                         {| ChangesDisk.parquet_file := Some out;
                            ChangesDisk.pickle_file := ChangesDisk.pickle_file disk |}
                       = out).
      { unfold ChangesDisk.load_change_history. cbn [ChangesDisk.parquet_file].
        now rewrite Hr. }
      rewrite Hafter. split; [exact Hperm|now intros _].
    + intros _ Hw Hnone. rewrite Hw.
      assert (Hload : ChangesDisk.load_change_history env disk = [])
        by (unfold ChangesDisk.load_change_history; now rewrite Hnone).
      rewrite Hload. cbn [app].
      destruct (ChangesDisk.pickle_writes env).
      * split; [|reflexivity]. unfold ChangesDisk.load_change_history.
        cbn [ChangesDisk.parquet_file]. now rewrite Hnone.
      * split; [exact Hload|discriminate].
Qed.

(** Without a parquet engine the history is lost at every append: the
    pickle file held the entry of an earlier run, and after the append it
    holds the new entry alone; nothing is read back. *)
Example history_lost_without_parquet :
  let disk := {| ChangesDisk.parquet_file := None;
                 ChangesDisk.pickle_file := Some [ChangesDisk.demo_entry 1 "4500-1"] |} in
  let disk' := ChangesDisk.append_change_history ChangesDisk.no_parquet_engine disk
                 [ChangesDisk.demo_entry 2 "4500-2"] in
  ChangesDisk.pickle_file disk' = Some [ChangesDisk.demo_entry 2 "4500-2"] /\
  ChangesDisk.load_change_history ChangesDisk.no_parquet_engine disk' = [].
Proof. split; reflexivity. Qed.

Section DetectorMore.
Context (str_of_num : Q -> string).
Context (_sum_avail_from_short_detail : string -> Q).

Lemma common_keys_In (pm cm : gmap string (gmap string Cell)) (k : string) :
  In k (common_keys pm cm) <-> is_Some (pm !! k) /\ is_Some (cm !! k).
Proof.
  unfold common_keys.
  assert (In k (sort String.leb (elements (dom pm ∩ dom cm)))
          <-> In k (elements (dom pm ∩ dom cm))) as ->.
  { split; apply Permutation_in; [apply Permutation_sym|]; apply sort_perm. }
  rewrite <- list_elem_of_In, elem_of_elements, elem_of_intersection.
  now rewrite !elem_of_dom.
Qed.

(** X17. Past its guards, an entry is in the log exactly when it is the
    entry of a PO line found in both views and of a tracked column of both
    whose two values, as stripped texts, differ; nothing is logged for a
    line that is in one view only, nor for equal values. *)
Theorem change_log_entries (current_view prev_view : Frame) (run_ts : Z)
  (rec : ChangeRecord) :
  empty prev_view = false ->
  has_col "PO-Line" prev_view = true ->
  has_col "PO-Line" current_view = true ->
  let prev := tracked prev_view in
  let cur := tracked current_view in
  In rec (compute_change_log str_of_num _sum_avail_from_short_detail
            current_view (Some prev_view) run_ts) <->
  exists old_row new_row,
    index_by_po str_of_num prev !! PO_Line rec = Some old_row /\
    index_by_po str_of_num cur !! PO_Line rec = Some new_row /\
    In (Field rec) TRACK_COLS /\
    has_col (Field rec) cur = true /\ has_col (Field rec) prev = true /\
    Old rec = _safe_str str_of_num (row_get old_row (Field rec)) /\
    New rec = _safe_str str_of_num (row_get new_row (Field rec)) /\
    Old rec <> New rec /\
    RunTS rec = run_ts /\
    Description rec =
      _label_change _sum_avail_from_short_detail (Field rec) (Old rec) (New rec).
Proof.
  intros Hempty Hp Hc prev cur. unfold compute_change_log.
  rewrite Hempty, Hp, Hc. cbn [negb orb]. fold (tracked prev_view) (tracked current_view).
  fold prev cur. rewrite List.in_flat_map. split.
  - intros (k & Hk & Hrec).
    destruct (index_by_po str_of_num prev !! k) as [old_row|] eqn:Eo; [|contradiction].
    destruct (index_by_po str_of_num cur !! k) as [new_row|] eqn:En; [|contradiction].
    apply List.in_flat_map in Hrec. destruct Hrec as (c & Hcin & Hrec).
    unfold field_change in Hrec.
    destruct (has_col c cur) eqn:E1; [|contradiction].
    destruct (has_col c prev) eqn:E2; [|contradiction]. cbn [negb orb] in Hrec.
    destruct (String.eqb_spec (_safe_str str_of_num (row_get old_row c))
                (_safe_str str_of_num (row_get new_row c))) as [Heq|Hne];
      [contradiction|].
    destruct Hrec as [<-|[]]. cbn [PO_Line Field Old New RunTS Description].
    exists old_row, new_row. repeat split; auto.
  - intros (old_row & new_row & Ho & Hn & Hcin & E1 & E2 & Hold & Hnew & Hne & Hts & Hd).
    exists (PO_Line rec). split.
    + apply common_keys_In. rewrite Ho, Hn. split; eexists; reflexivity.
    + rewrite Ho, Hn. apply List.in_flat_map. exists (Field rec). split; [exact Hcin|].
      unfold field_change. rewrite E1, E2. cbn [negb orb].
      rewrite <- Hold, <- Hnew.
      destruct (String.eqb_spec (Old rec) (New rec)) as [Heq|_]; [contradiction|].
      left. destruct rec. cbn in *. subst. reflexivity.
Qed.

End DetectorMore.

Lemma change_log_entries_witness :
  let rec := {| RunTS := 7; PO_Line := "4500-1"; Field := "Status"; Old := "OK";
                New := "SHORT"; Description := "Status changed" |} in
  let prev := tracked (demo_view "OK" "Component Supported") in
  let cur := tracked (demo_view "SHORT" "Component Supported") in
  In rec (compute_change_log demo_str_of_num demo_sum_avail
            (demo_view "SHORT" "Component Supported")
            (Some (demo_view "OK" "Component Supported")) 7) <->
  exists old_row new_row,
    index_by_po demo_str_of_num prev !! PO_Line rec = Some old_row /\
    index_by_po demo_str_of_num cur !! PO_Line rec = Some new_row /\
    In (Field rec) TRACK_COLS /\
    has_col (Field rec) cur = true /\ has_col (Field rec) prev = true /\
    Old rec = _safe_str demo_str_of_num (row_get old_row (Field rec)) /\
    New rec = _safe_str demo_str_of_num (row_get new_row (Field rec)) /\
    Old rec <> New rec /\
    RunTS rec = 7%Z /\
    Description rec = _label_change demo_sum_avail (Field rec) (Old rec) (New rec).
Proof.
  intros rec.
  apply (change_log_entries demo_str_of_num demo_sum_avail
           (demo_view "SHORT" "Component Supported")
           (demo_view "OK" "Component Supported") 7 rec); reflexivity.
Defined.

End ChangesMore.

(** ** More on the document BOM extractor *)

Module BomMore.
Import Bom BomFacts BomShape TextMore.

Lemma append_new_In (shared : list Item) (itm x : Item) :
  In x (append_new shared itm) -> In x shared \/ x = itm.
Proof.
  unfold append_new. destruct (item_in itm shared); [now left|].
  intros H. apply List.in_app_or in H. destruct H as [H|[H|[]]]; auto.
Qed.

Lemma fold_append_new_In (l shared : list Item) (x : Item) :
  In x (fold_left append_new l shared) -> In x shared \/ In x l.
Proof.
  revert shared. induction l as [|y l IH]; intros shared H; simpl in *; [now left|].
  apply IH in H. destruct H as [H|H]; [|now right; right].
  apply append_new_In in H. destruct H as [H| ->]; [now left|right; now left].
Qed.

Lemma shared_items_In (pl : PerLine) (b : Bucket) (x : Item) :
  In x (shared_items pl b) -> exists kv, In kv pl /\ In x (snd kv b).
Proof.
  unfold shared_items.
  assert (forall shared,
            In x (fold_left (fun sh kv => fold_left append_new (snd kv b) sh) pl shared) ->
            In x shared \/ exists kv, In kv pl /\ In x (snd kv b)) as H.
  { induction pl as [|kv pl IH]; intros shared Hx; simpl in *; [now left|].
    apply IH in Hx. destruct Hx as [Hx|(kv' & H1 & H2)].
    - apply fold_append_new_In in Hx. destruct Hx as [Hx|Hx]; [now left|].
      right. exists kv. auto.
    - right. exists kv'. auto. }
  intros Hx. apply H in Hx. destruct Hx as [[]|Hx]. exact Hx.
Qed.





(** A shape of the article codes and of the line keys is kept by every
    step of the extractor. *)
Section Shapes.
Context (PA PK : string -> Prop).

Abbreviation shaped := (BomShape.shaped PA PK).

Lemma per_line_get_shaped (ln : string) (pl : PerLine) :
  shaped pl -> forall b, List.Forall (fun i => PA (fst i)) (per_line_get ln pl b).
Proof.
  unfold shaped. induction 1 as [|[k bs] pl [_ Hbs] Hpl IH]; simpl.
  - intros b. constructor.
  - destruct (String.eqb k ln); [exact Hbs|exact IH].
Qed.

Lemma per_line_set_shaped (ln : string) (bs : Buckets) (pl : PerLine) :
  shaped pl -> PK ln -> (forall b, List.Forall (fun i => PA (fst i)) (bs b)) ->
  shaped (per_line_set ln bs pl).
Proof.
  unfold shaped. intros Hpl Hln Hbs.
  induction Hpl as [|[k bs'] pl [Hk Hb] Hpl IH]; simpl.
  - constructor; [split; assumption|constructor].
  - destruct (String.eqb k ln); constructor; auto.
Qed.

Lemma add_item_shaped (pl : PerLine) (ln : string) (b : Bucket) (item : Item) :
  shaped pl -> PK ln -> PA (fst item) -> shaped (add_item pl ln b item).
Proof.
  intros Hpl Hln Hitem. unfold add_item.
  pose proof (per_line_get_shaped ln pl Hpl) as Hget.
  destruct (item_in item (per_line_get ln pl b)).
  - now apply per_line_set_shaped.
  - apply per_line_set_shaped; auto. intros b'. unfold set_bucket.
    destruct (Bucket_eqb b' b); [|apply Hget].
    apply List.Forall_app. split; [apply Hget|]. constructor; [exact Hitem|constructor].
Qed.

Lemma propagate_bucket_shaped (pl : PerLine) (b : Bucket) :
  shaped pl -> shaped (propagate_bucket pl b).
Proof.
  intros Hpl. unfold propagate_bucket.
  destruct (is_nil (shared_items pl b)); [exact Hpl|].
  assert (Hsh : List.Forall (fun i => PA (fst i)) (shared_items pl b)).
  { apply List.Forall_forall. intros x Hx.
    apply shared_items_In in Hx. destruct Hx as (kv & Hkv & Hx).
    unfold shaped in Hpl. rewrite List.Forall_forall in Hpl.
    destruct (Hpl kv Hkv) as [_ Hb]. specialize (Hb b).
    rewrite List.Forall_forall in Hb. now apply Hb. }
  unfold shaped in *. apply List.Forall_map.
  eapply List.Forall_impl; [|exact Hpl].
  intros [k bs] [Hk Hbs]. unfold fill. simpl. split; [exact Hk|].
  destruct (is_nil (bs b)); [|exact Hbs].
  intros b'. unfold set_bucket. destruct (Bucket_eqb b' b); [exact Hsh|apply Hbs].
Qed.

Lemma propagate_shaped (pl : PerLine) : shaped pl -> shaped (propagate pl).
Proof.
  intros Hpl. unfold propagate. destruct (1 <? length pl)%nat; [|exact Hpl].
  revert pl Hpl. induction BUCKETS as [|b bl IH]; intros pl Hpl; simpl; [exact Hpl|].
  apply IH. now apply propagate_bucket_shaped.
Qed.

Context (header_digits : string -> option string).
Context (component_mark : string -> bool).
Context (classify_component : string -> option Bucket).
Context (article_anywhere : string -> option string).
Context (_extract_qty_per_assembly : string -> option Q).
Hypothesis header_key : forall s d, header_digits s = Some d -> PK (Ingest.norm_line d).
Hypothesis article_shape : forall s a, article_anywhere s = Some a -> PA a.

Lemma scan_line_shaped (st : PerLine * option string) (raw : string) :
  shaped (fst st) /\ (forall ln, snd st = Some ln -> PK ln) ->
  let st' := scan_line header_digits component_mark classify_component article_anywhere
               _extract_qty_per_assembly st raw in
  shaped (fst st') /\ (forall ln, snd st' = Some ln -> PK ln).
Proof.
  destruct st as [pl cur]. cbn [fst snd]. intros [Hpl Hcur]. unfold scan_line.
  destruct (negb (Text.nonempty (Text.strip raw))); [now split|].
  destruct (header_digits (Text.strip raw)) as [d|] eqn:Eh.
  { cbn [fst snd]. split; [exact Hpl|]. intros ln [= <-]. eapply header_key; eauto. }
  destruct cur as [ln|]; [|now split].
  destruct (negb (Text.nonempty ln)); [now split|].
  destruct (negb (component_mark (Text.strip raw))); [now split|].
  destruct (classify_component (Text.strip raw)) as [b|]; [|now split].
  destruct (article_anywhere (Text.strip raw)) as [a|] eqn:Ea; [|now split].
  cbn [fst snd]. split; [|exact Hcur].
  apply add_item_shaped; auto. cbn [fst]. eapply article_shape; eauto.
Qed.

Lemma parse_lines_shaped (pages : list (list string)) :
  shaped (parse_lines header_digits component_mark classify_component article_anywhere
            _extract_qty_per_assembly pages).
Proof.
  unfold parse_lines, scan_pages. apply propagate_shaped.
  assert (forall lines st,
            shaped (fst st) /\ (forall ln, snd st = Some ln -> PK ln) ->
            shaped (fst (fold_left
                           (scan_line header_digits component_mark classify_component
                              article_anywhere _extract_qty_per_assembly) lines st))) as H.
  { induction lines as [|raw lines IH]; intros st Hst; simpl; [apply Hst|].
    apply IH. now apply scan_line_shaped. }
  apply H. split; [constructor|discriminate].
Qed.

End Shapes.

Lemma search_word_some {R} (here : list ascii -> option R) (l : list ascii) :
  forall after_word r,
    search_word here after_word l = Some r -> exists l', here l' = Some r.
Proof.
  induction l as [|c l IH]; intros after_word r; simpl; [discriminate|].
  destruct after_word.
  - apply IH.
  - destruct (here (c :: l)) as [r'|] eqn:E; [|apply IH].
    intros [= <-]. eauto.
Qed.

Lemma span_run {A} (p : A -> bool) (l : list A) :
  List.forallb p (fst (Text.span p l)) = true.
Proof.
  induction l as [|x l IH]; simpl; [reflexivity|].
  destruct (p x) eqn:E; [|reflexivity].
  destruct (Text.span p l) as [run rest]. simpl in *. now rewrite E.
Qed.

Lemma length_string_of_list (l : list ascii) :
  String.length (string_of_list_ascii l) = length l.
Proof. induction l as [|x l IH]; simpl; [reflexivity|now rewrite IH]. Qed.

Lemma article_search_code (s a : string) :
  ARTICLE_ANYWHERE_RE_search s = Some a -> article_code a.
Proof.
  unfold ARTICLE_ANYWHERE_RE_search. intros H.
  apply search_word_some in H. destruct H as (l & H).
  unfold article_here in H. pose proof (span_run Text.is_digit l) as Hrun.
  destruct (Text.span Text.is_digit l) as [run rest]. cbn [fst] in Hrun.
  destruct ((7 <=? length run)%nat && (length run <=? 9)%nat && word_end rest) eqn:E;
    [|discriminate].
  injection H as <-. apply andb_true_iff in E. destruct E as [E _].
  apply andb_true_iff in E. destruct E as [E1 E2].
  apply Nat.leb_le in E1, E2. split.
  - now rewrite string_list_id.
  - rewrite length_string_of_list. lia.
Qed.

Lemma header_match_key (s d : string) :
  PO_LINE_HEADER_RE_match s = Some d -> line_key (Ingest.norm_line d).
Proof.
  unfold PO_LINE_HEADER_RE_match, then_. intros H.
  destruct (five_digits (Text.drop_while Text.is_space (chars s))) as [[ds rest]|] eqn:E;
    [|discriminate].
  cbn [fst snd] in H. destruct (spaces rest); [|discriminate].
  destruct (status_word l); [|discriminate]. injection H as <-.
  unfold five_digits in E.
  destruct (Text.drop_while Text.is_space (chars s)) as [|a [|b [|c [|d0 [|e r]]]]];
    try discriminate.
  destruct (List.forallb Text.is_digit [a; b; c; d0; e]) eqn:Ed; [|discriminate].
  injection E as <- _.
  exists (string_of_list_ascii [a; b; c; d0; e]). split; [|split; reflexivity].
  now rewrite string_list_id.
Qed.

(** X21. In every BOM the extractor returns, each article code is a run
    of 7 to 9 digits and each line key is the normalized form of the five
    digits of a line header. *)
Theorem bom_codes_and_keys (pages : list (list string)) :
  List.Forall
    (fun kv => line_key (fst kv) /\
               forall b, List.Forall (fun i => article_code (fst i)) (snd kv b))
    (parse_po_pdf_by_line pages).
Proof.
  apply (parse_lines_shaped article_code line_key).
  - intros s d. apply header_match_key.
  - intros s a. apply article_search_code.
Qed.

Section ExtractorMore.
Context (header_digits : string -> option string).
Context (component_mark : string -> bool).
Context (classify_component : string -> option Bucket).
Context (article_anywhere : string -> option string).
Context (_extract_qty_per_assembly : string -> option Q).

(** X19. A document in which no line is a line header gives an empty
    BOM, whatever else its lines hold. *)
Theorem bom_without_header_is_empty (pages : list (list string)) :
  (forall raw, In raw (List.concat pages) -> header_digits (Text.strip raw) = None) ->
  parse_lines header_digits component_mark classify_component article_anywhere
    _extract_qty_per_assembly pages = [].
Proof.
  intros H. unfold parse_lines, scan_pages.
  assert (forall lines,
            (forall raw, In raw lines -> header_digits (Text.strip raw) = None) ->
            fold_left
              (scan_line header_digits component_mark classify_component article_anywhere
                 _extract_qty_per_assembly) lines ([], None) = ([], None)) as Hfold.
  { induction lines as [|raw lines IH]; intros Hl; [reflexivity|].
    cbn [fold_left].
    assert (scan_line header_digits component_mark classify_component article_anywhere
              _extract_qty_per_assembly ([], None) raw = ([], None)) as ->.
    { unfold scan_line. rewrite (Hl raw (or_introl eq_refl)).
      now destruct (negb (Text.nonempty (Text.strip raw))). }
    apply IH. intros r Hr. apply Hl. now right. }
  now rewrite (Hfold _ H).
Qed.


End ExtractorMore.

Lemma bom_without_header_witness :
  parse_lines PO_LINE_HEADER_RE_match COMPONENT_MARK_RE_search classify_component
    ARTICLE_ANYWHERE_RE_search _extract_qty_per_assembly
    [["PURCHASE ORDER 4500123"; "26011111 GLASS JAR 12OZ QTY PER ASSEMBLY 1"]] = [].
Proof.
  apply bom_without_header_is_empty.
  intros raw [<-|[<-|[]]]; reflexivity.
Defined.


End BomMore.

(** ** More on the demand normalizer, and on what it reads back from the
    article column *)

Module DemandsMore.
Import Text TextMore Demands BomShape.

Lemma chars_append (s1 s2 : string) :
  list_ascii_of_string (s1 ++ s2)
  = (list_ascii_of_string s1 ++ list_ascii_of_string s2)%list.
Proof. induction s1 as [|c s1 IH]; simpl; [reflexivity|now rewrite IH]. Qed.

Lemma string_of_chars (s : string) : string_of_list_ascii (list_ascii_of_string s) = s.
Proof. apply string_of_list_ascii_of_string. Qed.

Lemma plain_nonspace (w : list ascii) :
  List.forallb plain_char w = true ->
  List.forallb (fun a => negb (is_space a)) w = true.
Proof.
  rewrite !List.forallb_forall. intros H a Ha.
  specialize (H a Ha). unfold plain_char in H. now apply andb_true_iff in H.
Qed.

Lemma drop_while_nonspace (w : list ascii) :
  List.forallb (fun a => negb (is_space a)) w = true -> drop_while is_space w = w.
Proof.
  destruct w as [|x w]; simpl; [reflexivity|].
  intros H. apply andb_true_iff in H. destruct H as [H _].
  apply negb_true_iff in H. now rewrite H.
Qed.

Lemma split_word (w : list ascii) : forall cur rest,
  List.forallb plain_char w = true ->
  split_commas cur (w ++ rest) = split_commas (rev w ++ cur) rest.
Proof.
  induction w as [|c w IH]; intros cur rest H; simpl in *; [reflexivity|].
  apply andb_true_iff in H. destruct H as [Hc Hw].
  unfold plain_char in Hc. apply andb_true_iff in Hc. destruct Hc as [_ Hc].
  apply negb_true_iff in Hc. rewrite Hc. rewrite IH by exact Hw.
  now rewrite <- List.app_assoc.
Qed.

Lemma split_joined (l : list string) : forall a cur,
  List.Forall plain (a :: l) ->
  split_commas cur (list_ascii_of_string (String.concat ", " (a :: l)))
  = string_of_list_ascii (rev cur ++ list_ascii_of_string a)
    :: List.map (fun x => String " " x) l.
Proof.
  induction l as [|b l IH]; intros a cur H.
  - cbn [String.concat List.map]. inversion H as [|? ? [_ Ha] _]; subst.
    pose proof (split_word (list_ascii_of_string a) cur [] Ha) as Hs.
    rewrite List.app_nil_r in Hs. rewrite Hs. cbn [split_commas].
    now rewrite List.rev_app_distr, List.rev_involutive.
  - inversion H as [|? ? [_ Ha] Hl]; subst.
    change (String.concat ", " (a :: b :: l))
      with (a ++ ", " ++ String.concat ", " (b :: l))%string.
    rewrite chars_append, split_word by exact Ha.
    change (list_ascii_of_string (", " ++ String.concat ", " (b :: l)))
      with ("," :: " " :: list_ascii_of_string (String.concat ", " (b :: l)))%char.
    cbn [split_commas]. change (code "," =? 44)%nat with true.
    change (code " " =? 44)%nat with false. cbv iota.
    rewrite List.rev_app_distr, List.rev_involutive, IH by exact Hl.
    cbn [List.map rev app string_of_list_ascii]. now rewrite string_of_chars.
Qed.

Lemma strip_plain (x : string) : plain x -> strip x = x /\ strip (String " " x) = x.
Proof.
  intros [Hne Hx]. apply plain_nonspace in Hx. split.
  - rewrite <- (string_of_chars x) at 1. rewrite strip_all by exact Hx.
    apply string_of_chars.
  - unfold strip, lstrip, rstrip. cbn [list_ascii_of_string rev].
    assert (Hrev : List.forallb (fun a => negb (is_space a)) (rev (list_ascii_of_string x))
                   = true).
    { rewrite List.forallb_forall in *. intros a Ha. apply Hx. now apply List.in_rev. }
    destruct (rev (list_ascii_of_string x)) as [|y m] eqn:E.
    { exfalso. apply Hne. rewrite <- (string_of_chars x).
      rewrite <- (List.rev_involutive (list_ascii_of_string x)), E. reflexivity. }
    cbn [app drop_while]. cbn [List.forallb] in Hrev.
    apply andb_true_iff in Hrev. destruct Hrev as [Hy _].
    apply negb_true_iff in Hy. rewrite Hy.
    change (y :: (m ++ [" "%char]))%list with ((y :: m) ++ [" "%char])%list.
    rewrite <- E, List.rev_app_distr, List.rev_involutive. cbn [rev app drop_while].
    change (is_space " ") with true. cbv iota.
    rewrite drop_while_nonspace by exact Hx. apply string_of_chars.
Qed.

Lemma joined_strip (l : list string) (a : string) :
  List.Forall plain (a :: l) ->
  strip (String.concat ", " (a :: l)) = String.concat ", " (a :: l) /\
  nonempty (String.concat ", " (a :: l)) = true.
Proof.
  intros H.
  assert (Hshape : forall l a, List.Forall plain (a :: l) ->
            exists m w, list_ascii_of_string (String.concat ", " (a :: l)) = (m ++ w)%list /\
                        w <> [] /\ List.forallb (fun c => negb (is_space c)) w = true).
  { clear. induction l as [|b l IH]; intros a H; inversion H as [|? ? [Hne Ha] Hl]; subst.
    - exists [], (list_ascii_of_string a). repeat split.
      + intros E. apply Hne. rewrite <- (string_of_chars a), E. reflexivity.
      + now apply plain_nonspace.
    - destruct (IH b Hl) as (m & w & E & Hw & Hs).
      exists (list_ascii_of_string a ++ "," :: " " :: m)%list%char, w. repeat split; auto.
      change (String.concat ", " (a :: b :: l))
        with (a ++ ", " ++ String.concat ", " (b :: l))%string.
      rewrite chars_append.
      change (list_ascii_of_string (", " ++ String.concat ", " (b :: l)))
        with ("," :: " " :: list_ascii_of_string (String.concat ", " (b :: l)))%char.
      rewrite E, <- List.app_assoc. reflexivity. }
  destruct (Hshape l a H) as (m & w & E & Hw & Hs). clear Hshape.
  inversion H as [|? ? [Hne Ha] _]; subst. apply plain_nonspace in Ha.
  assert (Hhead : drop_while is_space (list_ascii_of_string (String.concat ", " (a :: l)))
                  = list_ascii_of_string (String.concat ", " (a :: l))).
  { destruct l as [|b l].
    - cbn [String.concat]. now apply drop_while_nonspace.
    - change (String.concat ", " (a :: b :: l))
        with (a ++ ", " ++ String.concat ", " (b :: l))%string.
      rewrite chars_append. destruct (list_ascii_of_string a) as [|c r] eqn:Ea.
      { exfalso. apply Hne. rewrite <- (string_of_chars a), Ea. reflexivity. }
      cbn [app drop_while]. cbn [List.forallb] in Ha.
      apply andb_true_iff in Ha. destruct Ha as [Hc _].
      apply negb_true_iff in Hc. now rewrite Hc. }
  split.
  - unfold strip, lstrip, rstrip. rewrite E, List.rev_app_distr.
    assert (drop_while is_space (rev w ++ rev m) = (rev w ++ rev m)%list) as ->.
    { destruct (rev w) as [|y r] eqn:Er.
      - exfalso. apply Hw. rewrite <- (List.rev_involutive w), Er. reflexivity.
      - cbn [app drop_while].
        assert (is_space y = false) as ->; [|reflexivity].
        rewrite List.forallb_forall in Hs. apply negb_true_iff, Hs, List.in_rev.
        rewrite Er. now left. }
    rewrite <- List.rev_app_distr, List.rev_involutive, <- E, Hhead.
    apply string_of_chars.
  - destruct (String.concat ", " (a :: l)) eqn:Es; [|reflexivity].
    simpl in E. destruct m, w; try discriminate. now contradiction Hw.
Qed.

Lemma parse_joined (l : list string) :
  List.Forall plain l -> parse_csv_list (String.concat ", " l) = l.
Proof.
  destruct l as [|a l]; intros H; [reflexivity|].
  unfold parse_csv_list. destruct (joined_strip l a H) as [-> ->]. cbn [negb].
  rewrite (split_joined l a [] H). cbn [rev app List.map List.filter].
  rewrite string_of_chars. inversion H as [|? ? Ha Hl]; subst.
  destruct (strip_plain a Ha) as [-> _].
  assert (nonempty a = true) as -> by (destruct Ha as [Hne _]; now destruct a).
  f_equal. clear H Ha. induction Hl as [|x l Hx Hl IH]; [reflexivity|].
  cbn [List.map List.filter]. destruct (strip_plain x Hx) as [_ ->].
  assert (nonempty x = true) as -> by (destruct Hx as [Hne _]; now destruct x).
  now rewrite IH.
Qed.

Lemma article_code_plain (a : string) : article_code a -> plain a.
Proof.
  intros [Hd Hlen]. split.
  - intros ->. simpl in Hlen. lia.
  - rewrite List.forallb_forall in *. intros c Hc. specialize (Hd c Hc).
    unfold plain_char. rewrite (digit_not_space c Hd). cbn [negb andb].
    unfold is_digit in Hd. cbv zeta in Hd. apply andb_true_iff in Hd.
    destruct Hd as [H1 H2]. apply Nat.leb_le in H1, H2.
    apply negb_true_iff, Nat.eqb_neq. lia.
Qed.

(** X22. The article column that [merge] writes for a category of an
    extracted BOM is read back by the demand normalizer as the same
    article codes, in the same order: no code is lost, split or merged on
    the way through the text column. *)
Theorem article_column_round_trip (pages : list (list string)) :
  List.Forall
    (fun kv => forall b,
       parse_csv_list (arts_col (snd kv b)) = List.map fst (snd kv b))
    (Bom.parse_po_pdf_by_line pages).
Proof.
  pose proof (BomMore.parse_lines_shaped article_code line_key
                Bom.PO_LINE_HEADER_RE_match Bom.COMPONENT_MARK_RE_search
                Bom.classify_component Bom.ARTICLE_ANYWHERE_RE_search
                Bom._extract_qty_per_assembly
                (fun s d => BomMore.header_match_key s d)
                (fun s a => BomMore.article_search_code s a) pages) as H.
  eapply List.Forall_impl; [|exact H].
  intros kv [_ Hb] b. unfold arts_col. apply parse_joined.
  apply List.Forall_map. eapply List.Forall_impl; [|exact (Hb b)].
  intros i Hi. now apply article_code_plain.
Qed.

Lemma py_round_nonpositive (x : Q) : (py_round x <= 0)%Z <-> (x <= 1 # 2)%Q.
Proof.
  unfold py_round. cbv zeta.
  pose proof (Qfloor_le x) as Hlo. pose proof (Qlt_floor x) as Hhi.
  assert (Hup : (x < inject_Z (Qfloor x) + 1)%Q).
  { rewrite inject_Z_plus in Hhi. exact Hhi. }
  assert (Hz : forall n : Z, (n <= 0)%Z <-> (inject_Z n <= 0)%Q).
  { intros n. unfold Qle. simpl. lia. }
  assert (Hz1 : forall n : Z, (n + 1 <= 0)%Z <-> (inject_Z n + 1 <= 0)%Q).
  { intros n. rewrite Hz, inject_Z_plus. reflexivity. }
  destruct (Qcompare_spec (x - inject_Z (Qfloor x)) (1 # 2)) as [He|Hl|Hg].
  - destruct (Z.even (Qfloor x)) eqn:Ev.
    + rewrite Hz. split; intros H; lra.
    + rewrite Hz1. split; intros H; [lra|].
      assert (Hf : (inject_Z (Qfloor x) <= 0)%Q) by lra.
      apply (proj2 (Hz _)) in Hf.
      assert (Qfloor x <> 0%Z) by (intros E0; rewrite E0 in Ev; discriminate).
      assert (Hm : (Qfloor x + 1 <= 0)%Z) by lia.
      exact (proj1 (Hz1 _) Hm).
  - rewrite Hz. split; intros H; [lra|].
    destruct (Z_le_gt_dec (Qfloor x) 0) as [Hle|Hgt]; [exact (proj1 (Hz _) Hle)|].
    assert (H1 : (1 <= Qfloor x)%Z) by lia.
    assert (H2 : (inject_Z 1 <= inject_Z (Qfloor x))%Q)
      by (unfold Qle; simpl; lia).
    change (inject_Z 1) with 1%Q in H2. lra.
  - rewrite Hz1. split; intros H; [lra|].
    destruct (Z_le_gt_dec (Qfloor x + 1) 0) as [Hle|Hgt]; [exact (proj1 (Hz1 _) Hle)|].
    assert (H1 : (0 <= Qfloor x)%Z) by lia.
    assert (H2 : (inject_Z 0 <= inject_Z (Qfloor x))%Q)
      by (unfold Qle; simpl; lia).
    change (inject_Z 0) with 0%Q in H2. lra.
Qed.

Lemma below_eps (n : Z) : Qle_bool (inject_Z n) Allocation.eps = true <-> (n <= 0)%Z.
Proof.
  rewrite Qle_bool_iff. unfold Allocation.eps, Qle. simpl. lia.
Qed.

Section NormalizerMore.
Context {DateCell : Type}.
Context (float_of_str : string -> option Q).

(** X23. A need that rounds to nothing is dropped: the normalizer emits a
    row for an article exactly when the article code is not blank and the
    need is more than one half of a piece. *)
Theorem small_need_dropped (r : @ViewLine DateCell) (b : Bom.Bucket) (qty_ea : Q)
  (art : string) (need per_qty : Q) :
  demand_of r b qty_ea (art, (need, per_qty)) = [] <->
  strip art = "" \/ (need <= 1 # 2)%Q.
Proof.
  unfold demand_of.
  destruct (nonempty (strip art)) eqn:Hne; cbn [negb].
  - assert (Hart : strip art <> "") by (intros E; rewrite E in Hne; discriminate).
    destruct (Qle_bool (inject_Z (py_round need)) Allocation.eps) eqn:E.
    + apply below_eps, py_round_nonpositive in E. split; auto.
    + split; [discriminate|]. intros [H|H]; [contradiction|].
      apply py_round_nonpositive, below_eps in H. congruence.
  - split; [|reflexivity]. intros _. left. now destruct (strip art).
Qed.

(** X24. Every demand row carries the PO line, the date and the order
    quantity of a line of the view and the name of a category; its article
    code is stripped and not blank, and its need is a whole number of at
    least one. *)
Theorem demand_rows_shape (df_show : list (@ViewLine DateCell))
  (row : @Allocation.Demand DateCell) :
  In row (build_component_demands float_of_str df_show) ->
  (exists r, In r df_show /\
             Allocation.PO_Line row = PO_Line r /\
             Allocation.DeliveryDate row = DeliveryDate r /\
             Allocation.QtyEA row = Ingest._to_float float_of_str (QtyEA r) 0) /\
  (exists b, In b Bom.BUCKETS /\ Allocation.Component row = bucket_name b) /\
  strip (Allocation.ComponentArticle row) = Allocation.ComponentArticle row /\
  Allocation.ComponentArticle row <> "" /\
  exists n, (1 <= n)%Z /\ Allocation.NeedQty row = inject_Z n.
Proof.
  intros Hrow. unfold build_component_demands in Hrow.
  apply List.in_flat_map in Hrow. destruct Hrow as (r & Hr & Hrow).
  apply List.in_flat_map in Hrow. destruct Hrow as (b & Hb & Hrow).
  unfold bucket_demands in Hrow.
  apply List.in_flat_map in Hrow. destruct Hrow as ([art [need per]] & _ & Hrow).
  unfold demand_of in Hrow.
  destruct (nonempty (strip art)) eqn:Hne; cbn [negb] in Hrow; [|contradiction].
  destruct (Qle_bool (inject_Z (py_round need)) Allocation.eps) eqn:E; [contradiction|].
  destruct Hrow as [<-|[]].
  cbn [Allocation.PO_Line Allocation.DeliveryDate Allocation.QtyEA Allocation.Component
         Allocation.ComponentArticle Allocation.NeedQty].
  split; [exists r; auto|]. split; [exists b; auto|].
  split; [apply TextFacts.strip_idem|].
  split; [intros E0; rewrite E0 in Hne; discriminate|].
  exists (py_round need). split; [|reflexivity].
  destruct (Z_le_gt_dec (py_round need) 0) as [Hle|Hgt]; [|lia].
  apply below_eps in Hle. congruence.
Qed.

Lemma pad_cons (q : Q) (qs : list Q) (n : nat) : pad (q :: qs) (S n) = q :: pad qs n.
Proof. reflexivity. Qed.

Lemma pad_nil (n : nat) : pad [] (S n) = 0%Q :: pad [] n.
Proof. unfold pad. simpl. now rewrite Nat.sub_0_r. Qed.

Lemma demand_of_length (r : @ViewLine DateCell) (b : Bom.Bucket) (qty_ea : Q)
      (e : string * (Q * Q)) :
  (length (demand_of r b qty_ea e) <= 1)%nat /\
  (fst (snd e) = 0%Q -> demand_of r b qty_ea e = []).
Proof.
  destruct e as [art [need per]]. unfold demand_of. cbn [fst snd].
  destruct (negb (nonempty (strip art))); [split; [simpl; lia|reflexivity]|].
  destruct (Qle_bool (inject_Z (py_round need)) Allocation.eps) eqn:E;
    [split; [simpl; lia|reflexivity]|].
  split; [simpl; lia|]. intros ->. discriminate.
Qed.

(** X25. A category of a line gives no more demand rows than it lists
    articles and no more than it lists quantities: an article past the end
    of the quantity column is padded with a need of zero and dropped. *)
Theorem bucket_rows_bound (r : @ViewLine DateCell) (qty_ea : Q) (b : Bom.Bucket) :
  (length (bucket_demands float_of_str r qty_ea b)
   <= Nat.min (length (parse_csv_list (articles r b)))
              (length (parse_csv_qtys float_of_str (articles_Qty r b))))%nat.
Proof.
  unfold bucket_demands. cbv zeta.
  generalize (pad (parse_csv_qtys float_of_str (articles_Per r b))
                (length (parse_csv_list (articles r b)))).
  generalize (parse_csv_qtys float_of_str (articles_Qty r b)).
  induction (parse_csv_list (articles r b)) as [|a arts IH]; intros qs ps.
  - simpl. lia.
  - destruct qs as [|q qs].
    + cbn [length]. rewrite pad_nil. destruct ps as [|p ps]; [simpl; lia|].
      cbn [List.combine List.flat_map].
      rewrite (proj2 (demand_of_length r b qty_ea (a, (0%Q, p))) eq_refl).
      specialize (IH [] ps). simpl in IH. simpl. lia.
    + cbn [length]. rewrite pad_cons. destruct ps as [|p ps]; [simpl; lia|].
      cbn [List.combine List.flat_map]. rewrite List.length_app.
      pose proof (proj1 (demand_of_length r b qty_ea (a, (q, p)))) as H1.
      specialize (IH qs ps). lia.
Qed.

End NormalizerMore.

Lemma demand_rows_shape_witness :
  let row := {| Allocation.PO_Line := "4500-2"; Allocation.DeliveryDate := Some 2%Z;
                Allocation.Component := "Glass"; Allocation.ComponentArticle := "A";
                Allocation.NeedQty := 4; Allocation.QtyPerAssembly := 1;
                Allocation.QtyEA := 4 |} in
  (exists r, In r demo_lines /\
             Allocation.PO_Line row = PO_Line r /\
             Allocation.DeliveryDate row = DeliveryDate r /\
             Allocation.QtyEA row = Ingest._to_float parse_decimal (QtyEA r) 0) /\
  (exists b, In b Bom.BUCKETS /\ Allocation.Component row = bucket_name b) /\
  strip (Allocation.ComponentArticle row) = Allocation.ComponentArticle row /\
  Allocation.ComponentArticle row <> "" /\
  exists n, (1 <= n)%Z /\ Allocation.NeedQty row = inject_Z n.
Proof.
  intros row.
  apply (demand_rows_shape parse_decimal demo_lines row).
  vm_compute. left. reflexivity.
Defined.

End DemandsMore.

(** ** The fragrance-screening master *)

Module FsMasterFacts.
Import Text TextMore FsMaster.

Lemma find_snoc {A} (f : A -> bool) (l : list A) (x : A) :
  List.find f (l ++ [x])
  = match List.find f l with
    | Some y => Some y
    | None => if f x then Some x else None
    end.
Proof.
  induction l as [|y l IH]; simpl; [reflexivity|].
  destruct (f y); [reflexivity|exact IH].
Qed.





Section MasterFacts.
Context (str_of_num : Q -> string).
Context (float_of_str : string -> option Q).


Lemma load_rows_pair (l : list MasterRow) (po ln : string) : forall m,
  by_pair (fold_left (load_row str_of_num) l m) !! (po, ln)
  = match last_row (filed_under_pair str_of_num po ln) l with
    | Some row => Some (rec_of str_of_num row)
    | None => by_pair m !! (po, ln)
    end.
Proof.
  unfold last_row. induction l as [|r l IH]; intros m; [reflexivity|].
  cbn [fold_left rev]. rewrite IH, find_snoc.
  destruct (List.find (filed_under_pair str_of_num po ln) (rev l)); [reflexivity|].
  unfold load_row, filed_under_pair.
  destruct (_parse_fs_key str_of_num (key_raw r)) as [p q].
  destruct (nonempty p); cbn [negb andb]; [|reflexivity].
  destruct (nonempty q); cbn [negb andb by_pair]; [|reflexivity].
  destruct (String.eqb_spec p po) as [->|Hp]; cbn [andb].
  - destruct (String.eqb_spec q ln) as [->|Hq].
    + now rewrite lookup_insert_eq.
    + rewrite lookup_insert_ne; [reflexivity|congruence].
  - rewrite lookup_insert_ne; [reflexivity|congruence].
Qed.

Lemma load_rows_po (l : list MasterRow) (po : string) : forall m,
  by_po (fold_left (load_row str_of_num) l m) !! po
  = match last_row (filed_under_po str_of_num po) l with
    | Some row => Some (rec_of str_of_num row)
    | None => by_po m !! po
    end.
Proof.
  unfold last_row. induction l as [|r l IH]; intros m; [reflexivity|].
  cbn [fold_left rev]. rewrite IH, find_snoc.
  destruct (List.find (filed_under_po str_of_num po) (rev l)); [reflexivity|].
  unfold load_row, filed_under_po.
  destruct (_parse_fs_key str_of_num (key_raw r)) as [p q].
  destruct (nonempty p); cbn [negb andb]; [|reflexivity].
  destruct (nonempty q); cbn [negb andb by_po]; [reflexivity|].
  destruct (String.eqb_spec p po) as [->|Hp].
  - now rewrite lookup_insert_eq.
  - rewrite lookup_insert_ne; [reflexivity|congruence].
Qed.

(** X26. For a line with a fragrance and a master wide enough, the
    lookup gives the record of the last row of the sheet filed under the
    pair of the line; without such a row, that of the last row filed under
    the order as a whole; without either, the blank record. *)
Theorem fs_lookup_last_row_wins (df : MasterSheet) (r : ShowRow) :
  (Nat.max (Nat.max FS_COL_KEY FS_COL_LOT) FS_COL_STATUS < ncols df)%nat ->
  nonempty (strip (Changes.py_str str_of_num (FRG r))) = true \/
  nonempty (strip (Changes.py_str str_of_num (FRG_Qty r))) = true ->
  fs_lookup_for_row str_of_num r (load_fs_master str_of_num (Some df))
  = searched str_of_num r df.
Proof.
  intros Hwide Hfrg. unfold fs_lookup_for_row, load_fs_master, searched.
  destruct (Nat.leb_spec (ncols df) (Nat.max (Nat.max FS_COL_KEY FS_COL_LOT) FS_COL_STATUS));
    [lia|].
  assert (negb (nonempty (strip (Changes.py_str str_of_num (FRG r)))) &&
          negb (nonempty (strip (Changes.py_str str_of_num (FRG_Qty r)))) = false) as ->.
  { destruct Hfrg as [-> | ->]; [reflexivity|apply andb_false_r]. }
  cbv zeta. rewrite load_rows_pair, load_rows_po.
  destruct (last_row _ (rows df)); [reflexivity|].
  cbn [no_maps by_pair by_po]. rewrite !lookup_empty.
  destruct (last_row _ (rows df)); reflexivity.
Qed.

End MasterFacts.


Lemma fs_lookup_witness :
  fs_lookup_for_row Changes.demo_str_of_num demo_show_row
    (load_fs_master Changes.demo_str_of_num (Some demo_master))
  = searched Changes.demo_str_of_num demo_show_row demo_master.
Proof.
  apply (fs_lookup_last_row_wins Changes.demo_str_of_num demo_master demo_show_row).
  - vm_compute. lia.
  - left. reflexivity.
Defined.

End FsMasterFacts.

(** ** The active fragrance lots *)

Module FsLotsFacts.
Import Text TextMore FsLots.

Lemma is_zero_char (c : ascii) : Ingest.is_zero c = true -> c = "0"%char.
Proof.
  unfold Ingest.is_zero, code. intros H. apply Nat.eqb_eq in H.
  rewrite <- (ascii_nat_embedding c), H. reflexivity.
Qed.

Lemma is_bar_char (c : ascii) : is_bar c = true -> c = "|"%char.
Proof.
  unfold is_bar, code. intros H. apply Nat.eqb_eq in H.
  rewrite <- (ascii_nat_embedding c), H. reflexivity.
Qed.

Lemma drop_zeros_head (l : list ascii) :
  l <> [] ->
  drop_zeros l <> [] /\
  forall x m, drop_zeros l = x :: m -> Ingest.is_zero x = true -> m = [].
Proof.
  induction l as [|c l IH]; intros Hne; [contradiction|].
  destruct l as [|c' t].
  - simpl. split; [discriminate|]. now intros x m [= <- <-].
  - cbn [drop_zeros]. destruct (Ingest.is_zero c) eqn:E; [apply IH; discriminate|].
    split; [discriminate|]. intros x m [= <- <-] Hx. congruence.
Qed.

Lemma drop_zeros_str_int (l : list ascii) :
  l <> [] ->
  string_of_list_ascii (drop_zeros l)
  = match drop_while Ingest.is_zero l with
    | [] => "0"
    | l' => string_of_list_ascii l'
    end.
Proof.
  induction l as [|c l IH]; intros Hne; [contradiction|].
  destruct l as [|c' t].
  - simpl. destruct (Ingest.is_zero c) eqn:E; [|reflexivity].
    now rewrite (is_zero_char c E).
  - cbn [drop_zeros]. cbn [drop_while].
    destruct (Ingest.is_zero c) eqn:E; [apply IH; discriminate|reflexivity].
Qed.

(** X28. A normalized key is never empty and starts with a zero only
    when it is the text "0"; on a text of digits it is the line number
    that [norm_line] of the review script gives. *)
Theorem normalize_key_normal_form (value : string) :
  normalize_key value <> "" /\
  (forall rest, normalize_key value = String "0" rest -> rest = "") /\
  (value <> "" -> List.forallb is_digit (list_ascii_of_string value) = true ->
   normalize_key value = Ingest.norm_line value).
Proof.
  unfold normalize_key, remove_leading_zeros. rewrite TextFacts.strip_idem.
  split; [|split].
  - destruct (string_of_list_ascii _) eqn:E; simpl; discriminate.
  - intros rest.
    destruct (list_ascii_of_string (strip value)) as [|c l] eqn:El.
    { simpl. now intros [= <-]. }
    destruct (drop_zeros_head (c :: l)) as [Hne Hzero]; [discriminate|].
    destruct (drop_zeros (c :: l)) as [|x m] eqn:Ed; [contradiction|].
    cbn [string_of_list_ascii nonempty]. intros [= -> <-].
    now rewrite (Hzero "0"%char m eq_refl eq_refl).
  - intros Hne Hd.
    assert (Hs : strip value = value).
    { rewrite <- (string_of_list_ascii_of_string value).
      now destruct (all_digit_fixed _ Hd). }
    assert (Hdo : digits_only value = value).
    { rewrite <- (string_of_list_ascii_of_string value).
      now destruct (all_digit_fixed _ Hd). }
    unfold Ingest.norm_line. rewrite Hs, Hdo.
    assert (Hl : list_ascii_of_string value <> []).
    { intros E. apply Hne. rewrite <- (string_of_list_ascii_of_string value), E.
      reflexivity. }
    assert (nonempty value = true) as -> by (now destruct value).
    rewrite (drop_zeros_str_int _ Hl). unfold Ingest.str_int.
    destruct (drop_while Ingest.is_zero (list_ascii_of_string value)); reflexivity.
Qed.

Lemma add_qty_keys (key : string) (qty : Q) (m : list (string * Q)) (k : string) :
  In k (List.map fst (add_qty key qty m)) <-> k = key \/ In k (List.map fst m).
Proof.
  induction m as [|[k0 v] m IH]; simpl.
  - split; [intros [H|[]]; auto|intros [H|[]]; auto].
  - destruct (String.eqb_spec k0 key) as [->|Hk]; simpl.
    + split; [intros [H|H]; auto|intros [H|[H|H]]; auto].
    + rewrite IH. split; [intros [H|[H|H]]; auto|intros [H|[H|H]]; auto].
Qed.

Lemma add_qty_nodup (key : string) (qty : Q) (m : list (string * Q)) :
  List.NoDup (List.map fst m) -> List.NoDup (List.map fst (add_qty key qty m)).
Proof.
  induction m as [|[k0 v] m IH]; simpl; intros H.
  - constructor; [intros []|constructor].
  - inversion H as [|? ? Hnot Hm]; subst.
    destruct (String.eqb_spec k0 key) as [->|Hk]; simpl; [exact H|].
    constructor; [|now apply IH].
    rewrite add_qty_keys. intros [E|E]; [congruence|contradiction].
Qed.

Lemma add_qty_get (key : string) (qty : Q) (m : list (string * Q)) (k : string) :
  (get_qty k (add_qty key qty m)
   == if String.eqb key k then get_qty k m + qty else get_qty k m)%Q.
Proof.
  induction m as [|[k0 v] m IH]; simpl.
  - destruct (String.eqb key k); reflexivity.
  - destruct (String.eqb_spec k0 key) as [->|Hk]; simpl.
    + destruct (String.eqb key k); reflexivity.
    + destruct (String.eqb_spec k0 k) as [->|Hk0]; [|exact IH].
      destruct (String.eqb_spec key k) as [->|_]; [contradiction|reflexivity].
Qed.

Lemma string_of_app (a b : list ascii) :
  string_of_list_ascii (a ++ b) = (string_of_list_ascii a ++ string_of_list_ascii b)%string.
Proof. induction a as [|c a IH]; simpl; [reflexivity|now rewrite IH]. Qed.

Lemma split_bar_join (l a b : list ascii) :
  split_bar l = Some (a, b) -> l = (a ++ "|"%char :: b)%list.
Proof.
  revert a. induction l as [|c l IH]; intros a; simpl; [discriminate|].
  destruct (is_bar c) eqn:E.
  - intros [= <- <-]. now rewrite (is_bar_char c E).
  - destruct (split_bar l) as [[a' b']|]; [|discriminate].
    intros [= <- <-]. simpl. now rewrite <- (IH a' eq_refl).
Qed.

Lemma split_bar_some (a b : list ascii) : split_bar (a ++ "|"%char :: b) <> None.
Proof.
  induction a as [|c a IH]; simpl; [discriminate|].
  destruct (is_bar c); [discriminate|].
  destruct (split_bar (a ++ "|"%char :: b)) as [[a' b']|]; [discriminate|contradiction].
Qed.

Lemma lot_rows_spec (m : list (string * Q)) :
  (forall k, In k (List.map fst m) -> split_bar (list_ascii_of_string k) <> None) ->
  exists out, lot_rows m = Some out /\
              List.map key_of_row out = List.map fst m /\
              List.map FRG_qty out = List.map snd m.
Proof.
  induction m as [|[k v] m IH]; intros H.
  - exists []. repeat split.
  - destruct IH as (rest & Hrest & Hk & Hq); [intros k' Hk'; apply H; now right|].
    cbn [lot_rows]. specialize (H k (or_introl eq_refl)).
    destruct (split_bar (list_ascii_of_string k)) as [[a b]|] eqn:E; [|contradiction].
    rewrite Hrest. eexists. split; [reflexivity|]. cbn [List.map fst snd FRG_qty].
    rewrite Hk, Hq. split; [|reflexivity]. f_equal.
    unfold key_of_row. cbn [FRG FRG_lot].
    apply split_bar_join in E.
    rewrite <- (string_of_list_ascii_of_string k), E, string_of_app. reflexivity.
Qed.

Section LotsFacts.
Context (str_of_num : Q -> string).
Context (to_numeric : Cells.Cell -> option Q).

Abbreviation key_of := (FsLots.key_of str_of_num).
Abbreviation excluded := (FsLots.excluded str_of_num).
Abbreviation lot_step := (FsLots.lot_step str_of_num to_numeric).
Abbreviation qty_of := (FsLots.qty_of to_numeric).

Lemma key_of_bar (d : Frame) (row : list Cells.Cell) :
  split_bar (list_ascii_of_string (key_of d 0 1 row)) <> None.
Proof.
  unfold FsLots.key_of. rewrite DemandsMore.chars_append.
  change (list_ascii_of_string ("|" ++ ?x)) with ("|"%char :: list_ascii_of_string x).
  apply split_bar_some.
Qed.

(** What the loop keeps of a map whose keys are distinct, not excluded and
    hold a bar. *)
Lemma out_map_keys (d : Frame) (v p : option Frame) (l : list (list Cells.Cell)) :
  forall m,
    List.NoDup (List.map fst m) ->
    (forall k, In k (List.map fst m) ->
       excluded v p k = false /\ split_bar (list_ascii_of_string k) <> None) ->
    let m' := fold_left (lot_step d v p) l m in
    List.NoDup (List.map fst m') /\
    (forall k, In k (List.map fst m') ->
       excluded v p k = false /\ split_bar (list_ascii_of_string k) <> None) /\
    (forall k, In k (List.map fst m') <->
       In k (List.map fst m) \/
       exists row, In row l /\ key_of d 0 1 row = k /\ excluded v p k = false).
Proof.
  induction l as [|row l IH]; intros m Hnd Hm; cbn [fold_left].
  - split; [exact Hnd|]. split; [exact Hm|].
    intros k. split; [now left|]. intros [H|(row & [] & _)]. exact H.
  - assert (Hstep : List.NoDup (List.map fst (lot_step d v p m row)) /\
                    (forall k, In k (List.map fst (lot_step d v p m row)) ->
                       excluded v p k = false /\
                       split_bar (list_ascii_of_string k) <> None) /\
                    (forall k, In k (List.map fst (lot_step d v p m row)) <->
                       In k (List.map fst m) \/
                       (key_of d 0 1 row = k /\ excluded v p k = false))).
    { unfold FsLots.lot_step.
      destruct (excluded v p (key_of d 0 1 row)) eqn:E.
      - split; [exact Hnd|]. split; [exact Hm|].
        intros k. split; [now left|]. intros [H|[<- H]]; [exact H|congruence].
      - split; [now apply add_qty_nodup|]. split.
        + intros k Hk. apply add_qty_keys in Hk. destruct Hk as [->|Hk]; [|now apply Hm].
          split; [exact E|apply key_of_bar].
        + intros k. rewrite add_qty_keys. split.
          * intros [->|H]; [right; now split|now left].
          * intros [H|[<- _]]; [now right|now left]. }
    destruct Hstep as (Hnd' & Hm' & Hin').
    destruct (IH _ Hnd' Hm') as (H1 & H2 & H3). split; [exact H1|]. split; [exact H2|].
    intros k. rewrite H3, Hin'. split.
    + intros [[H|[Hk He]]|(r & Hr & Hk & He)]; [now left| |].
      * right. exists row. split; [now left|now split].
      * right. exists r. split; [now right|now split].
    + intros [H|(r & [<-|Hr] & Hk & He)]; [now left; left| |].
      * left. right. now split.
      * right. exists r. now split.
Qed.

Lemma out_map_get (d : Frame) (v p : option Frame) (k : string)
      (l : list (list Cells.Cell)) :
  excluded v p k = false ->
  forall m,
    (get_qty k (fold_left (lot_step d v p) l m)
     == get_qty k m +
        fold_right
          (fun row acc => if String.eqb (key_of d 0 1 row) k then qty_of d row + acc else acc)
          0 l)%Q.
Proof.
  intros He. induction l as [|row l IH]; intros m; cbn [fold_left fold_right].
  - ring.
  - rewrite IH. unfold FsLots.lot_step.
    destruct (String.eqb_spec (key_of d 0 1 row) k) as [Hk|Hk].
    + rewrite Hk, He, add_qty_get, String.eqb_refl. ring.
    + destruct (excluded v p (key_of d 0 1 row)); [reflexivity|].
      rewrite add_qty_get.
      destruct (String.eqb_spec (key_of d 0 1 row) k); [contradiction|reflexivity].
Qed.

Lemma get_qty_In (m : list (string * Q)) (k : string) (q : Q) :
  List.NoDup (List.map fst m) -> In (k, q) m -> get_qty k m = q.
Proof.
  induction m as [|[k0 v] m IH]; simpl; intros Hnd Hin; [contradiction|].
  inversion Hnd as [|? ? Hnot Hm]; subst.
  destruct Hin as [[= -> ->]|Hin]; [now rewrite String.eqb_refl|].
  destruct (String.eqb_spec k0 k) as [->|_]; [|now apply IH].
  exfalso. apply Hnot. apply List.in_map_iff. now exists (k, q).
Qed.

(** X29. The function always returns a table.  Its rows have distinct
    keys, none of them voided or processed, and every active row whose key
    is neither voided nor processed has its key in the table. *)
Theorem active_lots_keys (d : Frame) (df_voided df_processed : option Frame) :
  exists out,
    build_active_frg_lot str_of_num to_numeric (Some d) df_voided df_processed = Some out /\
    List.NoDup (List.map key_of_row out) /\
    (forall r, In r out -> excluded df_voided df_processed (key_of_row r) = false) /\
    (none_or_empty (Some d) = false ->
     forall row, In row (rows d) ->
       excluded df_voided df_processed (key_of d 0 1 row) = false ->
       In (key_of d 0 1 row) (List.map key_of_row out)).
Proof.
  unfold build_active_frg_lot.
  destruct (none_or_empty (Some d)) eqn:Hempty.
  { exists []. repeat split; [constructor|intros r []|discriminate]. }
  destruct (out_map_keys d df_voided df_processed (rows d) [])
    as (Hnd & Hkeys & Hin); [constructor|intros k []|].
  fold (out_map str_of_num to_numeric d df_voided df_processed) in Hnd, Hkeys, Hin.
  destruct (lot_rows_spec (out_map str_of_num to_numeric d df_voided df_processed))
    as (out & Hout & Hk & _); [intros k Hkin; now apply Hkeys|].
  exists out. split; [exact Hout|]. rewrite Hk. split; [exact Hnd|]. split.
  - intros r Hr. apply Hkeys. rewrite <- Hk. now apply List.in_map.
  - intros _ row Hrow He. apply Hin. right. exists row. auto.
Qed.

(** X30. The quantity of a row of the table is the total of the
    quantities of the active rows that have the key of that row. *)
Theorem active_lots_totals (d : Frame) (df_voided df_processed : option Frame) :
  exists out,
    build_active_frg_lot str_of_num to_numeric (Some d) df_voided df_processed = Some out /\
    forall r, In r out ->
      (FRG_qty r == total_of str_of_num to_numeric d (key_of_row r))%Q.
Proof.
  unfold build_active_frg_lot.
  destruct (none_or_empty (Some d)) eqn:Hempty.
  { exists []. split; [reflexivity|intros r []]. }
  destruct (out_map_keys d df_voided df_processed (rows d) [])
    as (Hnd & Hkeys & _); [constructor|intros k []|].
  fold (out_map str_of_num to_numeric d df_voided df_processed) in Hnd, Hkeys.
  destruct (lot_rows_spec (out_map str_of_num to_numeric d df_voided df_processed))
    as (out & Hout & Hk & Hq); [intros k Hkin; now apply Hkeys|].
  exists out. split; [exact Hout|]. intros r Hr.
  assert (Hpair : In (key_of_row r, FRG_qty r)
                    (out_map str_of_num to_numeric d df_voided df_processed)).
  { assert (Hc : List.map (fun x => (key_of_row x, FRG_qty x)) out
                 = out_map str_of_num to_numeric d df_voided df_processed).
    { clear Hr Hnd Hkeys Hout. revert Hk Hq.
      generalize (out_map str_of_num to_numeric d df_voided df_processed).
      induction out as [|x out IH]; intros [|[k q] m]; simpl; try discriminate;
        [reflexivity|].
      intros [= -> Hk] [= -> Hq]. f_equal. now apply IH. }
    rewrite <- Hc. apply List.in_map_iff. now exists r. }
  rewrite <- (get_qty_In _ _ _ Hnd Hpair).
  assert (He : excluded df_voided df_processed (key_of_row r) = false).
  { apply Hkeys. apply List.in_map_iff. now exists (key_of_row r, FRG_qty r). }
  unfold out_map. rewrite (out_map_get d df_voided df_processed _ (rows d) He []).
  unfold total_of. simpl. ring.
Qed.

End LotsFacts.

Example active_lots_demo :
  build_active_frg_lot Changes.demo_str_of_num demo_to_numeric
    (Some demo_active) (Some demo_voided) None
  = Some [{| FRG := "12"; FRG_lot := "7"; FRG_qty := 8 |}].
Proof. reflexivity. Qed.

End FsLotsFacts.
